(** * Masternode payment consensus: a shallow embedding of
    [src/masternode-payments.cpp]

    The election store (votes by hash, tallies by height), the tally check
    of a reward transaction, the coinbase/coinstake builder, the inbound
    ["mnw"] handler, the local vote producer, pruning and the block value
    rule are transcribed function by function.  Collaborators that live in
    other translation units (spork oracle, chain index, overlay registry,
    reward curve, signer) are the fields of the class [Collaborators].  The
    process-wide [masternodePayments] object is the store [st] that every
    function takes and returns.

    Integers: heights and vote counts are C++ [int], amounts are
    [CAmount = int64_t]; both are modelled in [Z].  Signed overflow is
    undefined in C++, so no wrap-around is written for them; [unsigned]
    values (tiers, vector sizes) are in [N] and the one place where the
    source lets an unsigned subtraction wrap is written out. *)

From stdpp Require Import base numbers strings pretty sorting option gmap fin_maps list.


Local Open Scope Z_scope.

(** ** Data model *)

(** [CScript]: a byte string, compared bytewise. *)
Abbreviation CScript := string (only parsing).

(** [uint256], used as the key of the vote table. *)
Abbreviation uint256 := N (only parsing).

Module COutPoint.
Record t := mk { hash : uint256; n : N }.
#[global] Instance eq_dec : EqDecision t.
Proof. solve_decision. Defined.
(** [COutPoint()] is null: zero hash, index [(uint32_t) -1]. *)
Definition null : t := mk 0%N 4294967295%N.
End COutPoint.

Module CTxIn.
Record t := mk { prevout : COutPoint.t; scriptSig : CScript; nSequence : N }.
#[global] Instance eq_dec : EqDecision t.
Proof. solve_decision. Defined.
(** The default constructed [CTxIn()]. *)
Definition empty : t := mk COutPoint.null "" 4294967295%N.
End CTxIn.

Module CTxOut.
Record t := mk { nValue : Z; scriptPubKey : CScript }.
#[global] Instance eq_dec : EqDecision t.
Proof. solve_decision. Defined.
(** [CTxOut()] calls [SetNull]: value [-1], empty script. *)
Definition null : t := mk (-1) "".
End CTxOut.

(** [CTransaction] / [CMutableTransaction]: only inputs and outputs matter. *)
Module CTransaction.
Record t := mk { vin : list CTxIn.t; vout : list CTxOut.t }.
End CTransaction.

Module CBlockIndex.
Record t := mk { nHeight : Z; GetBlockHash : uint256 }.
End CBlockIndex.

Module CBlock.
Record t := mk {
  hashPrevBlock : uint256;
  nTime : Z;
  vtx : list CTransaction.t }.
End CBlock.

(** An overlay node as the registry hands it out. *)
Module CMasternode.
Record t := mk {
  vin : CTxIn.t;
  pubKeyCollateralAddress : string;
  pubKeyMasternode : string;
  protocolVersion : Z;
  Level : N }.
End CMasternode.

(** Modelled from the spec: [CMasternode::LevelValue] is declared in a header
    that is not part of the sources; the spec gives the tier range as
    [MIN_TIER .. MAX_TIER], in practice 1..3, and the source comments
    [MIN] as 1. *)
Module LevelValue.
Definition MIN : N := 1%N.
Definition MAX : N := 3%N.
End LevelValue.

(** Modelled from the spec: the two quorum constants of the header,
    "MNPAYMENTS_SIGNATURES_REQUIRED = 6" and
    "MNPAYMENTS_SIGNATURES_TOTAL = 10". *)
Definition MNPAYMENTS_SIGNATURES_REQUIRED : Z := 6.
Definition MNPAYMENTS_SIGNATURES_TOTAL : Z := 10.

(** A payee record of one height. *)
Module CMasternodePayee.
Record t := mk {
  mnlevel : N;
  scriptPubKey : CScript;
  vin : CTxIn.t;
  nVotes : Z }.
#[global] Instance eq_dec : EqDecision t.
Proof. solve_decision. Defined.
End CMasternodePayee.

(** A signed winner vote. *)
Module CMasternodePaymentWinner.
Record t := mk {
  vinMasternode : CTxIn.t;
  nBlockHeight : Z;
  payee : CScript;
  payeeLevel : N;
  payeeVin : CTxIn.t;
  vchSig : string }.
#[global] Instance eq_dec : EqDecision t.
Proof. solve_decision. Defined.
End CMasternodePaymentWinner.

Inductive Spork :=
  | SPORK_8_MASTERNODE_PAYMENT_ENFORCEMENT
  | SPORK_9_MASTERNODE_BUDGET_ENFORCEMENT
  | SPORK_10_MASTERNODE_PAY_UPDATED_NODES
  | SPORK_13_ENABLE_SUPERBLOCKS
  | SPORK_17_TREASURY_PAYMENT_ENFORCEMENT
  | SPORK_18_NEW_MASTERNODE_TIERS.

(** ** External collaborators

    Everything the translation unit calls but does not define.  A value of
    this class is the answer of the rest of the node at the moment of one
    call; different calls may see different collaborators. *)
Class Collaborators := {
  (* spork oracle *)
  IsSporkActive : Spork → bool;
  GetSporkValue : Spork → Z;
  (* chain *)
  chainActive_Tip : option CBlockIndex.t;
  (* [mapBlockIndex.find]: [None] is [end()], [Some None] a null pointer *)
  mapBlockIndex_find : uint256 → option (option CBlockIndex.t);
  GetBlockHash : Z → option uint256;
  (* [TRY_LOCK(cs_main, locked)]: on entry, and again before scoring a peer *)
  cs_main_locked : bool;
  cs_main_locked_late : bool;
  (* chain parameters and reward curve *)
  MasternodeCountDrift : Z;
  (* a positive chain parameter; it is only used as a divisor *)
  GetBudgetCycleBlocks : Z;
  GetMasternodePayment : Z → Z → bool → N → Z → bool → Z;
  IsTreasuryBlock : Z → bool;
  GetTreasuryRewardScriptAtHeight : Z → gmap string Z;
  GetTreasuryAward : Z → Z;
  IsZerocoinMint : CScript → bool;
  HasZerocoinSpendInputs : list CTxIn.t → bool;
  GetScriptForRawPubKey : string → CScript;
  (* budget subsystem and sync coordinator *)
  budget_IsBudgetPaymentBlock : Z → bool;
  masternodeSync_IsSynced : bool;
  masternodeSync_IsBlockchainSynced : bool;
  (* overlay registry [mnodeman] *)
  mnodeman_size : Z;
  mnodeman_stable_size : Z;
  mnodeman_CountEnabled : N → Z;
  mnodeman_Find_vin : CTxIn.t → option CMasternode.t;
  mnodeman_Find_script : CScript → option CMasternode.t;
  mnodeman_GetCurrentMasterNode : N → option CMasternode.t;
  mnodeman_GetNextMasternodeInQueueForPayment : Z → N → option CMasternode.t;
  mnodeman_GetMasternodeRank : CTxIn.t → Z → Z → Z;
  ActiveProtocol : Z;
  (* signer: public key, signature, signed message *)
  VerifyMessage : string → string → COutPoint.t * Z * CScript → bool;
  SignMessage : COutPoint.t * Z * CScript → option string;
  (* [SetKey]: the operator's public key, when the private key loads *)
  SetKey : option string;
  (* [CMasternodePaymentWinner::GetHash], defined in the header *)
  GetHash : CMasternodePaymentWinner.t → uint256;
  (* [CTransaction::IsCoinStake] *)
  IsCoinStake : CTransaction.t → bool;
  (* this node *)
  fLiteMode : bool;
  fMasterNode : bool;
  activeMasternode_vin : CTxIn.t }.

(** ** The tally of one height: [CMasternodeBlockPayees] *)
Module CMasternodeBlockPayees.

Record t := mk { nBlockHeight : Z; vecPayments : list CMasternodePayee.t }.

(** Modelled from the spec: [AddPayee] is defined in the header, which is not
    part of the sources.  "locate or create the PayeeRecord with the same
    (script, tier) and increment its votes". *)
Fixpoint AddPayee_vec (mnlevel : N) (payeeIn : CScript) (payeeVin : CTxIn.t)
    (nIncrement : Z) (v : list CMasternodePayee.t) : list CMasternodePayee.t :=
  match v with
  | [] => [CMasternodePayee.mk mnlevel payeeIn payeeVin nIncrement]
  | p :: v' =>
      if bool_decide (CMasternodePayee.scriptPubKey p = payeeIn)
         && bool_decide (CMasternodePayee.mnlevel p = mnlevel)
      then CMasternodePayee.mk (CMasternodePayee.mnlevel p)
             (CMasternodePayee.scriptPubKey p) (CMasternodePayee.vin p)
             (CMasternodePayee.nVotes p + nIncrement) :: v'
      else p :: AddPayee_vec mnlevel payeeIn payeeVin nIncrement v'
  end.

Definition AddPayee (mnlevel : N) (payeeIn : CScript) (payeeVin : CTxIn.t)
    (nIncrement : Z) (b : t) : t :=
  mk (nBlockHeight b) (AddPayee_vec mnlevel payeeIn payeeVin nIncrement (vecPayments b)).

(** Modelled from the spec: [GetPayee] is defined in the header.  "returns the
    script of the PayeeRecord with the highest votes for that (height, tier)";
    the scan keeps the running best and replaces it on a strictly larger
    count, or on an equal count with a bytewise lower script. *)
Definition GetPayee_step (mnlevel : N) (best : option (CScript * Z))
    (p : CMasternodePayee.t) : option (CScript * Z) :=
  if bool_decide (CMasternodePayee.mnlevel p = mnlevel) then
    match best with
    | None => Some (CMasternodePayee.scriptPubKey p, CMasternodePayee.nVotes p)
    | Some (s, nv) =>
        if (nv <? CMasternodePayee.nVotes p)
           || ((nv =? CMasternodePayee.nVotes p)
               && bool_decide (strict String.le (CMasternodePayee.scriptPubKey p) s))
        then Some (CMasternodePayee.scriptPubKey p, CMasternodePayee.nVotes p)
        else best
    end
  else best.

Definition GetPayee (mnlevel : N) (b : t) : option CScript :=
  fst <$> foldl (GetPayee_step mnlevel) None (vecPayments b).

Section Validation.
Context `{Collaborators}.

(** The [continue] guard of both loops of [IsTransactionValid]. *)
Definition skipped (payNewTiers : bool) (payee : CMasternodePayee.t) : bool :=
  (CMasternodePayee.nVotes payee <? MNPAYMENTS_SIGNATURES_REQUIRED)
  || (negb payNewTiers && negb (bool_decide (CMasternodePayee.mnlevel payee = LevelValue.MAX))).

(** First loop: [max_signatures.emplace], then raise the stored maximum. *)
Definition max_signatures_step (payNewTiers : bool) (m : gmap N Z)
    (payee : CMasternodePayee.t) : gmap N Z :=
  if skipped payNewTiers payee then m
  else match m !! CMasternodePayee.mnlevel payee with
       | None => <[CMasternodePayee.mnlevel payee := CMasternodePayee.nVotes payee]> m
       | Some nv =>
           if nv <? CMasternodePayee.nVotes payee
           then <[CMasternodePayee.mnlevel payee := CMasternodePayee.nVotes payee]> m
           else m
       end.

Definition max_signatures (payNewTiers : bool) (v : list CMasternodePayee.t) : gmap N Z :=
  foldl (max_signatures_step payNewTiers) ∅ v.

Definition nMasternode_Drift_Count : Z :=
  if IsSporkActive SPORK_8_MASTERNODE_PAYMENT_ENFORCEMENT
  then mnodeman_stable_size + MasternodeCountDrift
  else mnodeman_size + MasternodeCountDrift.

(** The predicate of [std::find_if] over [txNew.vout]. *)
Definition is_payee_out (payee : CMasternodePayee.t) (required : Z) (out : CTxOut.t) : bool :=
  bool_decide (CMasternodePayee.scriptPubKey payee = CTxOut.scriptPubKey out)
  && (required <=? CTxOut.nValue out).

Definition requiredMasternodePayment (b : t) (txNew : CTransaction.t)
    (nBlockValue : Z) (fProofOfStake : bool) (payee : CMasternodePayee.t) : Z :=
  GetMasternodePayment (nBlockHeight b) nBlockValue fProofOfStake
    (CMasternodePayee.mnlevel payee) nMasternode_Drift_Count
    (HasZerocoinSpendInputs (CTransaction.vin txNew)).

(** Second loop, with the shrinking [max_signatures] as its state. *)
Fixpoint check_payees (b : t) (txNew : CTransaction.t) (nBlockValue : Z)
    (fProofOfStake payNewTiers : bool) (m : gmap N Z)
    (v : list CMasternodePayee.t) : bool :=
  match v with
  | [] => false
  | payee :: v' =>
      if skipped payNewTiers payee
      then check_payees b txNew nBlockValue fProofOfStake payNewTiers m v'
      else if existsb (is_payee_out payee
                         (requiredMasternodePayment b txNew nBlockValue fProofOfStake payee))
                      (CTransaction.vout txNew)
      then let m' := delete (CMasternodePayee.mnlevel payee) m in
           if negb (Nat.eqb (size m') 0)
           then check_payees b txNew nBlockValue fProofOfStake payNewTiers m' v'
           else true
      else check_payees b txNew nBlockValue fProofOfStake payNewTiers m v'
  end.

Definition IsTransactionValid (b : t) (txNew : CTransaction.t) (nBlockValue : Z)
    (fProofOfStake : bool) : bool :=
  let payNewTiers := IsSporkActive SPORK_18_NEW_MASTERNODE_TIERS in
  let m := max_signatures payNewTiers (vecPayments b) in
  if Nat.eqb (size m) 0 then true
  else check_payees b txNew nBlockValue fProofOfStake payNewTiers m (vecPayments b).

End Validation.
End CMasternodeBlockPayees.

(** ** Observable effects of the handler and the producer *)
Inductive Effect :=
  | LogPrint (line : string)
  | Misbehaving (howmuch : Z)
  | DsegUpdate
  | AskForMN (vin : CTxIn.t)
  | AddedMasternodeWinner (hash : uint256)
  | Relay (hash : uint256).

(** ** The election store: [CMasternodePayments] *)
Module CMasternodePayments.

Record t := mk {
  mapMasternodePayeeVotes : gmap N CMasternodePaymentWinner.t;
  mapMasternodeBlocks : gmap Z CMasternodeBlockPayees.t;
  nLastBlockHeight : Z }.

Definition empty : t := mk ∅ ∅ 0.

(** [std::map::operator[]] on the tally table: the stored tally, or a default
    constructed one. *)
Definition blocks_at (blocks : gmap Z CMasternodeBlockPayees.t) (h : Z) :
    CMasternodeBlockPayees.t :=
  default (CMasternodeBlockPayees.mk 0 []) (blocks !! h).

(** The voter, height and tier a vote occupies. *)
Definition same_slot (outMasternode : COutPoint.t) (nBlockHeight : Z) (mnlevel : N)
    (w : CMasternodePaymentWinner.t) : Prop :=
  CTxIn.prevout (CMasternodePaymentWinner.vinMasternode w) = outMasternode
  ∧ CMasternodePaymentWinner.nBlockHeight w = nBlockHeight
  ∧ CMasternodePaymentWinner.payeeLevel w = mnlevel.

#[global] Instance same_slot_dec o h l w : Decision (same_slot o h l w).
Proof. unfold same_slot. apply _. Defined.

(** Modelled from the spec: [CanVote] is defined in the header, which is not
    part of the sources.  "reject if the store already contains a vote from
    this voter for this (height, tier)". *)
Definition CanVote (st : t) (outMasternode : COutPoint.t) (nBlockHeight : Z)
    (mnlevel : N) : bool :=
  bool_decide (map_Forall (λ _ w, ¬ same_slot outMasternode nBlockHeight mnlevel w)
                 (mapMasternodePayeeVotes st)).

Definition GetBlockPayee (st : t) (nBlockHeight : Z) (mnlevel : N) : option CScript :=
  match mapMasternodeBlocks st !! nBlockHeight with
  | Some b => CMasternodeBlockPayees.GetPayee mnlevel b
  | None => None
  end.

(** [INT_MAX], the start value of [GetOldestBlock]. *)
Definition numeric_limits_int_max : Z := 2147483647.

Definition GetOldestBlock (st : t) : Z :=
  map_fold (λ h _ nOldestBlock, if h <? nOldestBlock then h else nOldestBlock)
    numeric_limits_int_max (mapMasternodeBlocks st).

Definition GetNewestBlock (st : t) : Z :=
  map_fold (λ h _ nNewestBlock, if nNewestBlock <? h then h else nNewestBlock)
    0 (mapMasternodeBlocks st).

Section Store.
Context `{Collaborators}.

Definition AddWinningMasternode (st : t) (winnerIn : CMasternodePaymentWinner.t) : bool * t :=
  match GetBlockHash (CMasternodePaymentWinner.nBlockHeight winnerIn - 100) with
  | None => (false, st)
  | Some _ =>
      if bool_decide (is_Some (mapMasternodePayeeVotes st !! GetHash winnerIn))
      then (false, st)
      else
        let h := CMasternodePaymentWinner.nBlockHeight winnerIn in
        let votes := <[GetHash winnerIn := winnerIn]> (mapMasternodePayeeVotes st) in
        let blocks :=
          if bool_decide (is_Some (mapMasternodeBlocks st !! h))
          then mapMasternodeBlocks st
          else <[h := CMasternodeBlockPayees.mk h []]> (mapMasternodeBlocks st) in
        let blocks :=
          <[h := CMasternodeBlockPayees.AddPayee
                   (CMasternodePaymentWinner.payeeLevel winnerIn)
                   (CMasternodePaymentWinner.payee winnerIn)
                   (CMasternodePaymentWinner.payeeVin winnerIn) 1
                   (blocks_at blocks h)]> blocks in
        (true, mk votes blocks (nLastBlockHeight st))
  end.

Definition IsTransactionValid (st : t) (txNew : CTransaction.t) (nBlockHeight : Z)
    (nBlockValue : Z) (fProofOfStake : bool) : bool :=
  match mapMasternodeBlocks st !! nBlockHeight with
  | Some b => CMasternodeBlockPayees.IsTransactionValid b txNew nBlockValue fProofOfStake
  | None => true
  end.

(** [int(mnodeman.size() * 1.25)]: the product is exact in [double], the
    conversion truncates toward zero. *)
Definition nLimit : Z := Z.max (Z.quot (mnodeman_size * 5) 4) 1000.

(** One turn of the [while] loop of [CleanPaymentList]. *)
Definition CleanPaymentList_step (nHeight : Z) (hash : N)
    (winner : CMasternodePaymentWinner.t) (st : t) : t :=
  if nLimit <? nHeight - CMasternodePaymentWinner.nBlockHeight winner
  then mk (delete hash (mapMasternodePayeeVotes st))
          (delete (CMasternodePaymentWinner.nBlockHeight winner) (mapMasternodeBlocks st))
          (nLastBlockHeight st)
  else st.

Definition CleanPaymentList (st : t) : t :=
  match cs_main_locked, chainActive_Tip with
  | true, Some tip =>
      map_fold (CleanPaymentList_step (CBlockIndex.nHeight tip)) st
        (mapMasternodePayeeVotes st)
  | _, _ => st
  end.

End Store.
End CMasternodePayments.

(** ** Votes on the wire: [CMasternodePaymentWinner] methods *)
Section Winner.
Context `{Collaborators}.

(** The signed text: [prevout.ToStringShort() + to_string(nBlockHeight) +
    payee.ToString()], kept as its three components. *)
Definition strMessage (w : CMasternodePaymentWinner.t) : COutPoint.t * Z * CScript :=
  (CTxIn.prevout (CMasternodePaymentWinner.vinMasternode w),
   CMasternodePaymentWinner.nBlockHeight w,
   CMasternodePaymentWinner.payee w).

(** [IsValid(pnode, strError)]: the verdict, [strError], and what it did. *)
Definition IsValid (w : CMasternodePaymentWinner.t) : bool * string * list Effect :=
  match mnodeman_Find_vin (CMasternodePaymentWinner.vinMasternode w) with
  | None =>
      (false, "Unknown Masternode",
       [LogPrint "CMasternodePaymentWinner::IsValid - Unknown Masternode";
        AskForMN (CMasternodePaymentWinner.vinMasternode w)])
  | Some pmn =>
      if CMasternode.protocolVersion pmn <? ActiveProtocol
      then (false, "Masternode protocol too old",
            [LogPrint "CMasternodePaymentWinner::IsValid - Masternode protocol too old"])
      else
        let n := mnodeman_GetMasternodeRank (CMasternodePaymentWinner.vinMasternode w)
                   (CMasternodePaymentWinner.nBlockHeight w - 100) ActiveProtocol in
        if n =? -1
        then (false, "Unknown Masternode (rank==-1)",
              [LogPrint "CMasternodePaymentWinner::IsValid - Unknown Masternode (rank==-1)"])
        else if MNPAYMENTS_SIGNATURES_TOTAL <? n
        then if MNPAYMENTS_SIGNATURES_TOTAL * 2 <? n
             then (false, "Masternode not in the top",
                   LogPrint "CMasternodePaymentWinner::IsValid - Masternode not in the top"
                   :: (if masternodeSync_IsSynced then [Misbehaving 20] else []))
             else (false, "", [])
        else (true, "", [])
  end.

Definition SignatureValid (w : CMasternodePaymentWinner.t) : bool :=
  match mnodeman_Find_vin (CMasternodePaymentWinner.vinMasternode w) with
  | Some pmn =>
      VerifyMessage (CMasternode.pubKeyMasternode pmn)
        (CMasternodePaymentWinner.vchSig w) (strMessage w)
  | None => false
  end.

(** [Sign(keyMasternode, pubKeyMasternode)]: the vote with its signature. *)
Definition Sign (pubKeyMasternode : string) (w : CMasternodePaymentWinner.t) :
    option CMasternodePaymentWinner.t :=
  match SignMessage (strMessage w) with
  | None => None
  | Some sig =>
      if VerifyMessage pubKeyMasternode sig (strMessage w)
      then Some (CMasternodePaymentWinner.mk
                   (CMasternodePaymentWinner.vinMasternode w)
                   (CMasternodePaymentWinner.nBlockHeight w)
                   (CMasternodePaymentWinner.payee w)
                   (CMasternodePaymentWinner.payeeLevel w)
                   (CMasternodePaymentWinner.payeeVin w) sig)
      else None
  end.

End Winner.

(** ** The inbound handler and the vote producer *)
Section Gossip.
Context `{Collaborators}.

(** The registry lookup of the handler: a vote with an empty [payeeVin] is
    a legacy vote, resolved by script and back-filled from the registry. *)
Definition resolve_winner (winner : CMasternodePaymentWinner.t) :
    CMasternodePaymentWinner.t * option CMasternode.t :=
  if bool_decide (CMasternodePaymentWinner.payeeVin winner = CTxIn.empty) then
    match mnodeman_Find_script (CMasternodePaymentWinner.payee winner) with
    | Some winner_mn =>
        (CMasternodePaymentWinner.mk
           (CMasternodePaymentWinner.vinMasternode winner)
           (CMasternodePaymentWinner.nBlockHeight winner)
           (CMasternodePaymentWinner.payee winner)
           (CMasternode.Level winner_mn)
           (CMasternode.vin winner_mn)
           (CMasternodePaymentWinner.vchSig winner),
         Some winner_mn)
    | None => (winner, None)
    end
  else (winner, mnodeman_Find_vin (CMasternodePaymentWinner.payeeVin winner)).

(** [int nFirstBlock = nHeight - (CountEnabled(level) * 1.25)]: the
    difference is taken in [double] (exactly, it is a multiple of 1/4) and the
    conversion to [int] truncates toward zero. *)
Definition nFirstBlock (nHeight : Z) (mnlevel : N) : Z :=
  Z.quot (nHeight * 4 - mnodeman_CountEnabled mnlevel * 5) 4.

Definition ProcessMessageMasternodePayments (st : CMasternodePayments.t)
    (pfrom_nVersion : Z) (strCommand : string)
    (winner : CMasternodePaymentWinner.t) : CMasternodePayments.t * list Effect :=
  if negb masternodeSync_IsBlockchainSynced then (st, [])
  else if fLiteMode then (st, [])
  else if negb (bool_decide (strCommand = "mnw")) then (st, [])
  else if pfrom_nVersion <? ActiveProtocol then (st, [])
  else
    match cs_main_locked, chainActive_Tip with
    | true, Some tip =>
        let nHeight := CBlockIndex.nHeight tip in
        let '(winner, winner_mn) := resolve_winner winner in
        match winner_mn with
        | None =>
            (st, [LogPrint "mnw - unknown payee";
                 if bool_decide (CMasternodePaymentWinner.payeeVin winner = CTxIn.empty)
                 then DsegUpdate
                 else AskForMN (CMasternodePaymentWinner.payeeVin winner)])
        | Some _ =>
            if bool_decide (is_Some
                 (CMasternodePayments.mapMasternodePayeeVotes st !! GetHash winner))
            then (st, [LogPrint "mnw - already seen"; AddedMasternodeWinner (GetHash winner)])
            else if (CMasternodePaymentWinner.nBlockHeight winner
                       <? nFirstBlock nHeight (CMasternodePaymentWinner.payeeLevel winner))
                    || (nHeight + 20 <? CMasternodePaymentWinner.nBlockHeight winner)
            then (st, [LogPrint "mnw - out of range"])
            else
              let '(valid, strError, effects) := IsValid winner in
              if negb valid
              then (st, effects ++ (if bool_decide (strError ≠ "")
                                   then [LogPrint "mnw - invalid message"] else []))
              else if negb (CMasternodePayments.CanVote st
                              (CTxIn.prevout (CMasternodePaymentWinner.vinMasternode winner))
                              (CMasternodePaymentWinner.nBlockHeight winner)
                              (CMasternodePaymentWinner.payeeLevel winner))
              then (st, effects ++ [LogPrint "mnw - already voted"])
              else if negb (SignatureValid winner)
              then (st, effects
                       ++ (if masternodeSync_IsSynced
                           then LogPrint "mnw - invalid signature"
                                :: (if cs_main_locked_late then [Misbehaving 20] else [])
                           else [])
                       ++ [AskForMN (CMasternodePaymentWinner.vinMasternode winner)])
              else
                let '(added, st') := CMasternodePayments.AddWinningMasternode st winner in
                (st', effects ++ LogPrint "mnw - winning vote"
                       :: (if added
                           then [Relay (GetHash winner); AddedMasternodeWinner (GetHash winner)]
                           else []))
        end
    | _, _ => (st, [])
    end.

(** The tiers [lo .. LevelValue::MAX] in loop order. *)
Definition levels_from (lo : N) : list N :=
  N.of_nat <$> seq (N.to_nat lo) (N.to_nat LevelValue.MAX + 1 - N.to_nat lo).

(** One turn of the tier loop of [ProcessBlock]: the store and the
    [winners] vector collected so far.  The vote is built by the constructor
    and [CMasternodePaymentWinner::AddPayee] of the header, which fill the
    voter, the height and the nominated payee, tier and collateral. *)
Definition ProcessBlock_level (pubKeyMasternode : string) (nBlockHeight : Z)
    (acc : CMasternodePayments.t * list CMasternodePaymentWinner.t) (mnlevel : N) :
    CMasternodePayments.t * list CMasternodePaymentWinner.t :=
  let '(st, winners) := acc in
  match mnodeman_GetNextMasternodeInQueueForPayment nBlockHeight mnlevel with
  | None => acc
  | Some pmn =>
      let payee := GetScriptForRawPubKey (CMasternode.pubKeyCollateralAddress pmn) in
      let newWinner :=
        CMasternodePaymentWinner.mk activeMasternode_vin nBlockHeight payee mnlevel
          (CMasternode.vin pmn) "" in
      match Sign pubKeyMasternode newWinner with
      | None => acc
      | Some newWinner =>
          let '(added, st') := CMasternodePayments.AddWinningMasternode st newWinner in
          if added then (st', winners ++ [newWinner]) else acc
      end
  end.

Definition ProcessBlock (st : CMasternodePayments.t) (nBlockHeight : Z) :
    bool * CMasternodePayments.t * list Effect :=
  if negb fMasterNode then (false, st, [])
  else if nBlockHeight <=? CMasternodePayments.nLastBlockHeight st then (false, st, [])
  else
    let n := mnodeman_GetMasternodeRank activeMasternode_vin (nBlockHeight - 100)
               ActiveProtocol in
    if n =? -1 then (false, st, [LogPrint "ProcessBlock - Unknown Masternode"])
    else if MNPAYMENTS_SIGNATURES_TOTAL <? n
    then (false, st, [LogPrint "ProcessBlock - Masternode not in the top"])
    else
      match SetKey with
      | None => (false, st, [LogPrint "ProcessBlock - Error upon calling SetKey"])
      | Some pubKeyMasternode =>
          let '(st', winners) :=
            if budget_IsBudgetPaymentBlock nBlockHeight then (st, [])
            else foldl (ProcessBlock_level pubKeyMasternode nBlockHeight) (st, [])
                   (levels_from LevelValue.MIN) in
          if bool_decide (winners = []) then (false, st', [])
          else (true,
                CMasternodePayments.mk
                  (CMasternodePayments.mapMasternodePayeeVotes st')
                  (CMasternodePayments.mapMasternodeBlocks st')
                  nBlockHeight,
                (λ w, Relay (GetHash w)) <$> winners)
      end.

End Gossip.

(** ** The builder: [CMasternodePayments::FillBlockPayee] *)
Section Builder.
Context `{Collaborators}.

(** [vout[j].nValue -= amount]; indexing past the end is undefined. *)
Definition sub_nValue (j : nat) (amount : Z) (vout : list CTxOut.t) :
    option (list CTxOut.t) :=
  match vout !! j with
  | Some out =>
      Some (<[j := CTxOut.mk (CTxOut.nValue out - amount) (CTxOut.scriptPubKey out)]> vout)
  | None => None
  end.

(** The payee of one tier: the tally's choice, else the registry's current
    node of that tier, else no payment. *)
Definition select_payee (st : CMasternodePayments.t) (nHeight : Z) (mnlevel : N) :
    option CScript :=
  match CMasternodePayments.GetBlockPayee st nHeight mnlevel with
  | Some payee => Some payee
  | None =>
      match mnodeman_GetCurrentMasterNode mnlevel with
      | Some winningNode =>
          Some (GetScriptForRawPubKey (CMasternode.pubKeyCollateralAddress winningNode))
      | None => None
      end
  end.

(** The loop state: the outputs, [level] and [outputs]. *)
Definition fill_state : Type := list CTxOut.t * N * N.

(** Proof-of-stake branch of the loop body. *)
Definition pay_stake (payee : CScript) (masternodePayment : Z) (s : fill_state) :
    option fill_state :=
  let '(vout, level, outputs) := s in
  let i := Z.of_nat (length vout) in
  (* [outputs = i - 1] on [unsigned int] *)
  let outputs := if (level =? 1)%N then Z.to_N ((i - 1) `mod` 2 ^ 32) else outputs in
  let vout := vout ++ [CTxOut.mk masternodePayment payee] in
  match vout !! 1%nat with
  | None => None
  | Some out1 =>
      let charged :=
        if negb (IsZerocoinMint (CTxOut.scriptPubKey out1)) then
          if (outputs =? 1)%N then sub_nValue 1 masternodePayment vout
          else if (1 <? outputs)%N then
            let mnPaymentSplit := Z.quot masternodePayment (Z.of_N outputs) in
            let mnPaymentRemainder := masternodePayment - mnPaymentSplit * Z.of_N outputs in
            foldl (λ acc j, acc ≫= sub_nValue j mnPaymentSplit) (Some vout)
                  (seq 1 (N.to_nat outputs))
            ≫= sub_nValue (N.to_nat outputs) mnPaymentRemainder
          else Some vout
        else Some vout in
      (λ vout, (vout, (level + 1)%N, outputs)) <$> charged
  end.

(** Proof-of-work branch of the loop body. *)
Definition pay_work (nBlockValue : Z) (payee : CScript) (masternodePayment : Z)
    (s : fill_state) : option fill_state :=
  let '(vout, level, outputs) := s in
  let vout := resize (1 + N.to_nat level) CTxOut.null vout in
  let vout := <[N.to_nat level := CTxOut.mk masternodePayment payee]> vout in
  let vout :=
    alter (λ out0, CTxOut.mk
                     (if (level =? 1)%N then nBlockValue - masternodePayment
                      else CTxOut.nValue out0 - masternodePayment)
                     (CTxOut.scriptPubKey out0)) 0%nat vout in
  Some (vout, (level + 1)%N, outputs).

Definition FillBlockPayee_level (st : CMasternodePayments.t) (nHeight : Z)
    (fProofOfStake fZSPLStake : bool) (nBlockValue : Z)
    (acc : option fill_state) (mnlevel : N) : option fill_state :=
  s ← acc;
  let masternodePayment :=
    GetMasternodePayment nHeight nBlockValue fProofOfStake mnlevel 0 fZSPLStake in
  match select_payee st nHeight mnlevel with
  | None => Some s
  | Some payee =>
      if fProofOfStake then pay_stake payee masternodePayment s
      else pay_work nBlockValue payee masternodePayment s
  end.

(** [None] stands for an out-of-bounds access of [txNew.vout]. *)
Definition FillBlockPayee (st : CMasternodePayments.t) (txNew : CTransaction.t)
    (nFees : Z) (fProofOfStake fZSPLStake : bool) (nBlockValue : Z) :
    option CTransaction.t :=
  match chainActive_Tip with
  | None => Some txNew
  | Some pindexPrev =>
      let payNewTiers := IsSporkActive SPORK_18_NEW_MASTERNODE_TIERS in
      let first := if payNewTiers then LevelValue.MIN else LevelValue.MAX in
      (λ s : fill_state, CTransaction.mk (CTransaction.vin txNew) s.1.1)
      <$> foldl (FillBlockPayee_level st (CBlockIndex.nHeight pindexPrev + 1)
                   fProofOfStake fZSPLStake nBlockValue)
                (Some (CTransaction.vout txNew, 1%N, 1%N))
                (levels_from first)
  end.

End Builder.

(** ** The block value rule: [IsBlockValueValid] *)
Section BlockValue.
Context `{Collaborators}.

(** [block.IsProofOfStake()]: more than one transaction, the second a
    coinstake. *)
Definition block_IsProofOfStake (block : CBlock.t) : bool :=
  match CBlock.vtx block !! 1%nat with
  | Some tx => IsCoinStake tx
  | None => false
  end.

(** The height the block would have: the tip's successor, or the successor
    of its parent in the block index, or 0 when the parent is unknown. *)
Definition resolve_height (pindexPrev : CBlockIndex.t) (block : CBlock.t) : Z :=
  if bool_decide (CBlockIndex.GetBlockHash pindexPrev = CBlock.hashPrevBlock block)
  then CBlockIndex.nHeight pindexPrev + 1
  else match mapBlockIndex_find (CBlock.hashPrevBlock block) with
       | Some (Some pindex) => CBlockIndex.nHeight pindex + 1
       | _ => 0
       end.

(** The inner loop over [txNew.vout] for one treasury payee. *)
Definition treasury_paid (treasuryPayment : Z) (txNew : CTransaction.t)
    (payee : string * Z) : bool :=
  existsb (λ out, bool_decide (CTxOut.scriptPubKey out = payee.1)
                  && (CTxOut.nValue out =? Z.quot (treasuryPayment * payee.2) 100))
          (CTransaction.vout txNew).

(** [found] after the two nested loops. *)
Definition treasury_found (treasuryPayment : Z) (txNew : CTransaction.t)
    (treasuryPayees : gmap string Z) : Z :=
  foldr (λ payee found, if treasury_paid treasuryPayment txNew payee
                        then found + 1 else found)
        0 (map_to_list treasuryPayees).

(** Lines 227-253: the rules on [nMinted] against [nExpectedValue]. *)
Definition value_rules (nHeight nExpectedValue nMinted : Z) : bool :=
  if negb masternodeSync_IsSynced then
    if Z.rem nHeight GetBudgetCycleBlocks <? 100 then true
    else if nExpectedValue <? nMinted then false else true
  else if negb (IsSporkActive SPORK_13_ENABLE_SUPERBLOCKS) then nMinted <=? nExpectedValue
  else if budget_IsBudgetPaymentBlock nHeight then true
  else if nExpectedValue <? nMinted then false else true.

(** The function with its log lines.  [None] stands for reading
    [block.vtx[0]] of a block without transactions. *)
Definition IsBlockValueValid_traced (block : CBlock.t) (nExpectedValue nMinted : Z) :
    option (list Effect * bool) :=
  match chainActive_Tip with
  | None => Some ([], true)
  | Some pindexPrev =>
      let nHeight := resolve_height pindexPrev block in
      let warning :=
        if nHeight =? 0
        then [LogPrint "IsBlockValueValid() : WARNING: Couldn't find previous block"]
        else [] in
      if IsTreasuryBlock nHeight then
        match CBlock.vtx block !! (if block_IsProofOfStake block then 1 else 0)%nat with
        | None => None
        | Some txNew =>
            let treasuryPayees := GetTreasuryRewardScriptAtHeight nHeight in
            let treasuryPayment := GetTreasuryAward nHeight in
            let found := treasury_found treasuryPayment txNew treasuryPayees in
            if negb (found =? Z.of_nat (size treasuryPayees)) then
              if GetSporkValue SPORK_17_TREASURY_PAYMENT_ENFORCEMENT <? CBlock.nTime block
              then Some (warning ++ [LogPrint "Invalid treasury payment detected"], false)
              else Some (warning
                           ++ [LogPrint "Invalid treasury payment detected";
                               LogPrint "Treasury enforcement is not enabled, accept anyway"],
                         value_rules nHeight nExpectedValue nMinted)
            else Some (warning ++ [LogPrint "Valid treasury payment detected"],
                       value_rules nHeight nExpectedValue nMinted)
        end
      else Some (warning, value_rules nHeight nExpectedValue nMinted)
  end.

(** The value [IsBlockValueValid] returns. *)
Definition IsBlockValueValid (block : CBlock.t) (nExpectedValue nMinted : Z) :
    option bool :=
  snd <$> IsBlockValueValid_traced block nExpectedValue nMinted.

End BlockValue.

(** ** Vocabulary of the validator, store and builder properties *)
Section Vocabulary.
Context `{Collaborators}.

Import CMasternodeBlockPayees.

(** A record counts when the guard of the two loops lets it through. *)
Definition qualified (payee : CMasternodePayee.t) : Prop :=
  MNPAYMENTS_SIGNATURES_REQUIRED ≤ CMasternodePayee.nVotes payee
  ∧ (IsSporkActive SPORK_18_NEW_MASTERNODE_TIERS = false →
     CMasternodePayee.mnlevel payee = LevelValue.MAX).

(** Some output of [txNew] carries the record's script and at least the
    reward-curve amount of its tier at the drift count. *)
Definition paid_by (b : t) (txNew : CTransaction.t) (nBlockValue : Z)
    (fProofOfStake : bool) (payee : CMasternodePayee.t) : Prop :=
  ∃ out, out ∈ CTransaction.vout txNew
    ∧ CTxOut.scriptPubKey out = CMasternodePayee.scriptPubKey payee
    ∧ GetMasternodePayment (nBlockHeight b) nBlockValue fProofOfStake
        (CMasternodePayee.mnlevel payee) nMasternode_Drift_Count
        (HasZerocoinSpendInputs (CTransaction.vin txNew)) ≤ CTxOut.nValue out.

(** What the tally check asks: no record is qualified, or every tier with a
    qualified record has a qualified record that the transaction pays. *)
Definition tally_satisfied (b : t) (txNew : CTransaction.t) (nBlockValue : Z)
    (fProofOfStake : bool) : Prop :=
  (∀ payee, payee ∈ vecPayments b → ¬ qualified payee)
  ∨ (∀ tier,
       (∃ payee, payee ∈ vecPayments b ∧ qualified payee
                 ∧ CMasternodePayee.mnlevel payee = tier) →
       ∃ payee, payee ∈ vecPayments b ∧ qualified payee
                ∧ CMasternodePayee.mnlevel payee = tier
                ∧ paid_by b txNew nBlockValue fProofOfStake payee).

(** The votes the first record for [(payee, mnlevel)] holds, 0 without one. *)
Definition votes_of (v : list CMasternodePayee.t) (payee : CScript) (mnlevel : N) : Z :=
  match find (λ p, bool_decide (CMasternodePayee.scriptPubKey p = payee)
                   && bool_decide (CMasternodePayee.mnlevel p = mnlevel)) v with
  | Some p => CMasternodePayee.nVotes p
  | None => 0
  end.

(** A configured treasury payee without an output of exactly its share. *)
Definition treasury_missing (nHeight : Z) (txNew : CTransaction.t) : Prop :=
  ∃ script percent,
    GetTreasuryRewardScriptAtHeight nHeight !! script = Some percent
    ∧ ¬ ∃ out, out ∈ CTransaction.vout txNew
          ∧ CTxOut.scriptPubKey out = script
          ∧ CTxOut.nValue out = Z.quot (GetTreasuryAward nHeight * percent) 100.

(** The parent of the block is neither the tip nor a usable entry of the
    block index. *)
Definition parent_unresolved (pindexPrev : CBlockIndex.t) (block : CBlock.t) : Prop :=
  CBlockIndex.GetBlockHash pindexPrev ≠ CBlock.hashPrevBlock block
  ∧ (mapBlockIndex_find (CBlock.hashPrevBlock block) = None
     ∨ mapBlockIndex_find (CBlock.hashPrevBlock block) = Some None).

End Vocabulary.

Section PruneVocabulary.
Context `{Collaborators}.

Import CMasternodePayments.

(** The vote is older than the retention limit at tip height [nHeight]. *)
Definition aged_out (nHeight : Z) (winner : CMasternodePaymentWinner.t) : Prop :=
  nLimit < nHeight - CMasternodePaymentWinner.nBlockHeight winner.

#[global] Instance aged_out_dec nHeight winner : Decision (aged_out nHeight winner).
Proof. unfold aged_out. apply _. Defined.

End PruneVocabulary.

(** ** Vocabulary of the store invariants *)

(** I2: no two stored votes share voter, height and tier. *)
Definition single_vote (st : CMasternodePayments.t) : Prop :=
  ∀ hash1 hash2 w1 w2,
    CMasternodePayments.mapMasternodePayeeVotes st !! hash1 = Some w1 →
    CMasternodePayments.mapMasternodePayeeVotes st !! hash2 = Some w2 →
    CTxIn.prevout (CMasternodePaymentWinner.vinMasternode w1)
      = CTxIn.prevout (CMasternodePaymentWinner.vinMasternode w2) →
    CMasternodePaymentWinner.nBlockHeight w1 = CMasternodePaymentWinner.nBlockHeight w2 →
    CMasternodePaymentWinner.payeeLevel w1 = CMasternodePaymentWinner.payeeLevel w2 →
    hash1 = hash2.

(** The store holds no vote of [voter] for [nBlockHeight], whatever the tier. *)
Definition no_vote_at (st : CMasternodePayments.t) (voter : COutPoint.t)
    (nBlockHeight : Z) : Prop :=
  ∀ hash w,
    CMasternodePayments.mapMasternodePayeeVotes st !! hash = Some w →
    CTxIn.prevout (CMasternodePaymentWinner.vinMasternode w) = voter →
    CMasternodePaymentWinner.nBlockHeight w ≠ nBlockHeight.

(** States reached from the empty store by inbound messages alone; every
    message meets the collaborators of its moment. *)
Inductive reachable_mnw : CMasternodePayments.t → Prop :=
  | reachable_mnw_empty : reachable_mnw CMasternodePayments.empty
  | reachable_mnw_message (C : Collaborators) st pfrom_nVersion strCommand winner :
      reachable_mnw st →
      reachable_mnw
        (ProcessMessageMasternodePayments st pfrom_nVersion strCommand winner).1.

(** States reached from the empty store by runs of the local producer alone. *)
Inductive reachable_producer : CMasternodePayments.t → Prop :=
  | reachable_producer_empty : reachable_producer CMasternodePayments.empty
  | reachable_producer_run (C : Collaborators) st nBlockHeight :
      reachable_producer st →
      reachable_producer (ProcessBlock st nBlockHeight).1.2.

(** States reached by inbound messages and runs of the local producer. *)
Inductive reachable : CMasternodePayments.t → Prop :=
  | reachable_empty : reachable CMasternodePayments.empty
  | reachable_message (C : Collaborators) st pfrom_nVersion strCommand winner :
      reachable st →
      reachable (ProcessMessageMasternodePayments st pfrom_nVersion strCommand winner).1
  | reachable_produce (C : Collaborators) st nBlockHeight :
      reachable st →
      reachable (ProcessBlock st nBlockHeight).1.2.

(** The handler gets as far as the registry lookup: chain synced, not in
    lite mode, an ["mnw"] message from a peer of the active protocol, the
    chain lock taken and a tip present. *)
Definition mnw_processed `{Collaborators} (pfrom_nVersion : Z) (strCommand : string)
    (tip : CBlockIndex.t) : Prop :=
  masternodeSync_IsBlockchainSynced = true
  ∧ fLiteMode = false
  ∧ strCommand = "mnw"
  ∧ ActiveProtocol ≤ pfrom_nVersion
  ∧ cs_main_locked = true
  ∧ chainActive_Tip = Some tip.

(** The resolved vote passes the registry lookup, the hash dedup and the
    window check. *)
Definition mnw_in_window `{Collaborators} (st : CMasternodePayments.t)
    (tip : CBlockIndex.t) (winner : CMasternodePaymentWinner.t) : Prop :=
  is_Some (resolve_winner winner).2
  ∧ CMasternodePayments.mapMasternodePayeeVotes st
      !! GetHash (resolve_winner winner).1 = None
  ∧ nFirstBlock (CBlockIndex.nHeight tip)
      (CMasternodePaymentWinner.payeeLevel (resolve_winner winner).1)
    ≤ CMasternodePaymentWinner.nBlockHeight (resolve_winner winner).1
  ∧ CMasternodePaymentWinner.nBlockHeight (resolve_winner winner).1
    ≤ CBlockIndex.nHeight tip + 20.

(** ** Vocabulary of the builder properties *)

(** The total value of a list of outputs. *)
Definition sum_nValue (vout : list CTxOut.t) : Z :=
  foldr (λ out s, CTxOut.nValue out + s) 0 vout.

(** The payment outputs the builder makes for the tiers [levels], in loop
    order: one per tier for which a payee is found, at the reward-curve
    amount of drift 0. *)
Definition payments `{Collaborators} (st : CMasternodePayments.t) (nHeight : Z)
    (fProofOfStake fZSPLStake : bool) (nBlockValue : Z) (levels : list N) :
    list CTxOut.t :=
  omap (λ mnlevel,
          CTxOut.mk (GetMasternodePayment nHeight nBlockValue fProofOfStake mnlevel 0
                       fZSPLStake)
          <$> select_payee st nHeight mnlevel) levels.

(** The tiers the builder visits. *)
Definition paid_levels `{Collaborators} : list N :=
  levels_from (if IsSporkActive SPORK_18_NEW_MASTERNODE_TIERS
               then LevelValue.MIN else LevelValue.MAX).

(** What one payment [p] costs the output at index [j] when the stake is
    held by the [n] outputs [vout[1] .. vout[n]]: the even share, for the
    last of them the share and the remainder, nothing for [vout[0]] and for
    the outputs behind the stake. *)
Definition stake_share (n j : nat) (p : Z) : Z :=
  if bool_decide (1 ≤ j < n)%nat then Z.quot p (Z.of_nat n)
  else if bool_decide (j = n ∧ 1 ≤ n)%nat
       then p - Z.quot p (Z.of_nat n) * (Z.of_nat n - 1)
       else 0.

(** The outputs after one payment [p] has been charged to the [n] stake
    outputs. *)
Definition charge_stake (n : nat) (p : Z) (vout : list CTxOut.t) : list CTxOut.t :=
  imap (λ j out, CTxOut.mk (CTxOut.nValue out - stake_share n j p)
                   (CTxOut.scriptPubKey out)) vout.

Section BuilderVocabulary.
Context `{Collaborators}.

(** Proof of work: nothing is paid and the outputs are untouched, or the
    outputs total the block value and hold every payment. *)
Definition work_inv (v0 : list CTxOut.t) (nBlockValue : Z) (s : fill_state)
    (paid : list CTxOut.t) : Prop :=
  (s.1.2 = 1%N ∧ s.1.1 = v0 ∧ paid = [])
  ∨ ((1 < s.1.2)%N
     ∧ paid ≠ []
     ∧ length s.1.1 = N.to_nat s.1.2
     ∧ sum_nValue s.1.1 = nBlockValue
     ∧ ∀ out, out ∈ paid → ∃ k, (1 ≤ k)%nat ∧ s.1.1 !! k = Some out).

(** The stake outputs can be charged: there are at least two outputs and
    [vout[1]] is no zerocoin mint. *)
Definition stake_chargeable (v0 : list CTxOut.t) : Prop :=
  (2 ≤ length v0)%nat
  ∧ ∀ out1, v0 !! 1%nat = Some out1 → IsZerocoinMint (CTxOut.scriptPubKey out1) = false.

(** Proof of stake: the stake outputs keep their scripts and stay in front,
    every payment sits behind them, and the total is the original one when
    the stake outputs can be charged. *)
Definition stake_inv (v0 : list CTxOut.t) (s : fill_state) (paid : list CTxOut.t) : Prop :=
  (s.1.2 = 1%N ∧ s.1.1 = v0 ∧ paid = [])
  ∨ ((1 < s.1.2)%N
     ∧ paid ≠ []
     ∧ s.2 = N.of_nat (length v0 - 1)
     ∧ (length v0 ≤ length s.1.1)%nat
     ∧ take (length v0) (CTxOut.scriptPubKey <$> s.1.1) = CTxOut.scriptPubKey <$> v0
     ∧ (stake_chargeable v0 → sum_nValue s.1.1 = sum_nValue v0)
     ∧ ∀ out, out ∈ paid → ∃ k, (length v0 ≤ k)%nat ∧ s.1.1 !! k = Some out).

End BuilderVocabulary.

(** ** A concrete node for the examples

    A registry where every collateral is (or is not) known, a chain whose
    block hashes exist up to the tip, a signer that accepts (or rejects)
    every signature, and a reward curve that pays tier [t] the share
    [t / 10] of the block value, thinned by the masternode count. *)
Definition example_node (synced : bool) (sporks : Spork → bool) (tip_height : Z)
    (enabled : Z) (known sig_ok : bool) (treasury_height : Z)
    (queue : N → option CMasternode.t) : Collaborators := {|
  IsSporkActive := sporks;
  GetSporkValue := λ _, 0;
  chainActive_Tip := Some (CBlockIndex.mk tip_height 7%N);
  mapBlockIndex_find := λ _, None;
  GetBlockHash := λ h, if (0 <=? h) && (h <=? tip_height) then Some (Z.to_N h) else None;
  cs_main_locked := true;
  cs_main_locked_late := true;
  MasternodeCountDrift := 20;
  GetBudgetCycleBlocks := 43200;
  GetMasternodePayment := λ _ nBlockValue _ mnlevel nMasternodeCount _,
    (nBlockValue * Z.of_N mnlevel * 100) `div` (1000 + nMasternodeCount);
  IsTreasuryBlock := λ h, h =? treasury_height;
  GetTreasuryRewardScriptAtHeight := λ _, {["dev" := 60; "fund" := 40]};
  GetTreasuryAward := λ _, 1000;
  IsZerocoinMint := λ script, bool_decide (script = "zerocoinmint");
  HasZerocoinSpendInputs := λ _, false;
  GetScriptForRawPubKey := λ pubkey, pubkey;
  budget_IsBudgetPaymentBlock := λ _, false;
  masternodeSync_IsSynced := synced;
  masternodeSync_IsBlockchainSynced := true;
  mnodeman_size := enabled;
  mnodeman_stable_size := enabled;
  mnodeman_CountEnabled := λ _, enabled;
  mnodeman_Find_vin := λ vin,
    if known then Some (CMasternode.mk vin "collateral" "operator" 70920 1) else None;
  mnodeman_Find_script := λ script,
    if known then Some (CMasternode.mk (CTxIn.mk (COutPoint.mk 9 0) "" 0) script
                          "operator" 70920 1)
    else None;
  mnodeman_GetCurrentMasterNode := queue;
  mnodeman_GetNextMasternodeInQueueForPayment := λ _, queue;
  mnodeman_GetMasternodeRank := λ _ _ _, 1;
  ActiveProtocol := 70920;
  VerifyMessage := λ _ _ _, sig_ok;
  SignMessage := λ _, Some "signature";
  SetKey := Some "operator";
  GetHash := λ w,
    Npos (encode (CMasternodePaymentWinner.payee w,
                  CMasternodePaymentWinner.nBlockHeight w,
                  COutPoint.hash (CTxIn.prevout (CMasternodePaymentWinner.vinMasternode w)),
                  COutPoint.n (CTxIn.prevout (CMasternodePaymentWinner.vinMasternode w))));
  IsCoinStake := λ _, false;
  fLiteMode := false;
  fMasterNode := true;
  activeMasternode_vin := CTxIn.mk (COutPoint.mk 1 0) "" 0 |}.

Definition all_sporks : Spork → bool := λ _, true.
Definition no_sporks : Spork → bool := λ _, false.
Definition no_queue : N → option CMasternode.t := λ _, None.

(** A vote of the overlay node with collateral [(voter, 0)]. *)
Definition example_vote (voter : N) (nBlockHeight : Z) (payee : CScript) (mnlevel : N) :
    CMasternodePaymentWinner.t :=
  CMasternodePaymentWinner.mk (CTxIn.mk (COutPoint.mk voter 0) "" 0) nBlockHeight payee
    mnlevel (CTxIn.mk (COutPoint.mk 50 0) "" 0) "signature".

(** Votes admitted one after the other. *)
Definition admit_votes `{Collaborators} (st : CMasternodePayments.t)
    (votes : list CMasternodePaymentWinner.t) : CMasternodePayments.t :=
  foldl (λ st w, (CMasternodePayments.AddWinningMasternode st w).2) st votes.

(** A registry queue that always proposes the node paid to ["B"]. *)
Definition queue_B : N → option CMasternode.t :=
  λ _, Some (CMasternode.mk (CTxIn.mk (COutPoint.mk 60 0) "" 0) "B" "operator" 70920 1).

(** Tip 1000, ten enabled nodes, every spork on. *)
Definition node_1000 : Collaborators :=
  example_node true all_sporks 1000 10 true true (-1) no_queue.

(** The same node with the queue proposing ["B"]. *)
Definition node_1000_B : Collaborators :=
  example_node true all_sporks 1000 10 true true (-1) queue_B.

(** Tip 1000 and a single enabled node. *)
Definition node_1000_single : Collaborators :=
  example_node true all_sporks 1000 1 true true (-1) no_queue.

(** Tip 1000 with a registry that knows nobody. *)
Definition node_1000_unknown : Collaborators :=
  example_node true all_sporks 1000 10 false true (-1) no_queue.

(** Tip 1000, superblocks off, synced or not. *)
Definition node_1000_plain (synced : bool) : Collaborators :=
  example_node synced no_sporks 1000 10 true true (-1) no_queue.

(** Tip 1000 with a treasury payment due at 1001. *)
Definition node_1000_treasury : Collaborators :=
  example_node true all_sporks 1000 10 true true 1001 no_queue.

(** Tip 5000 and 800 nodes in the registry: the retention limit is 1000. *)
Definition node_5000 : Collaborators :=
  example_node true all_sporks 5000 800 true true (-1) no_queue.

(** Six voters agree on ["A"] for the top tier at height 1001. *)
Definition six_votes : list CMasternodePaymentWinner.t :=
  (λ voter, example_vote voter 1001 "A" 3) <$> [1; 2; 3; 4; 5; 6]%N.

Definition store_six_votes : CMasternodePayments.t :=
  @admit_votes node_1000 CMasternodePayments.empty six_votes.



(** A coinbase under construction and a split coinstake. *)
Definition coinbase_0 : CTransaction.t :=
  CTransaction.mk [] [CTxOut.mk 0 "miner"].

Definition coinstake_split : CTransaction.t :=
  CTransaction.mk [CTxIn.mk (COutPoint.mk 70 0) "" 0]
    [CTxOut.mk 0 ""; CTxOut.mk 100 "staker"; CTxOut.mk 100 "staker"].

(** An inbound vote in the name of this node's own collateral, and the
    store after the handler took it and the producer ran for its height. *)
Definition own_vote_A : CMasternodePaymentWinner.t := example_vote 1 1010 "A" 1.

Definition store_two_votes : CMasternodePayments.t :=
  (@ProcessBlock node_1000_B
     (@ProcessMessageMasternodePayments node_1000_B CMasternodePayments.empty 70920
        "mnw" own_vote_A).1 1010).1.2.

(** Votes at the edge of the horizon of [node_5000]. *)
Definition store_horizon : CMasternodePayments.t :=
  @admit_votes node_5000 CMasternodePayments.empty
    [example_vote 1 3999 "A" 1; example_vote 2 4000 "A" 1; example_vote 3 5020 "A" 1].

(** Blocks on top of the tip of hash 7, and one whose parent is unknown. *)
Definition block_on_tip (vout : list CTxOut.t) : CBlock.t :=
  CBlock.mk 7%N 5 [CTransaction.mk [] vout].

Definition block_orphan : CBlock.t :=
  CBlock.mk 99%N 5 [CTransaction.mk [] [CTxOut.mk 2 "miner"]].

(** ** Further functions of the translation unit

    The payee rule of block validation, the schedule look-ahead, the sync
    push and the payments string, with the collaborators only they need. *)

(** The verdicts of [budget.IsTransactionValid], as the comment at lines
    286-288 names them. *)
Inductive TrxValidationStatus := InValid | Valid | DoublePayment | VoteThreshold.

Class BudgetCollaborators := {
  budget_IsTransactionValid : CTransaction.t → Z → TrxValidationStatus;
  (* [GetBlockValue(nHeight, fProofOfStake, nCoinAge)] *)
  GetBlockValue : Z → bool → Z → Z;
  (* the [nCoinAge] that [GetCoinAge(tx, nTime, nHeight, nCoinAge)] writes *)
  GetCoinAge : CTransaction.t → Z → Z → Z;
  mnodeman_CountEnabledByLevels : gmap N Z;
  (* [ExtractDestination], [CBitcoinAddress] and [ToString] in one *)
  address_ToString : CScript → string }.

(** What [Sync] sends to the peer. *)
Inductive SyncEffect :=
  | PushInventory (hash : uint256)
  | PushMessage_ssc (nInvCount : Z).

Section Further.
Context `{Collaborators} `{BudgetCollaborators}.

(** The budget part of [IsBlockPayeeValid] (lines 269-284): [Some b] when it
    returns [b], [None] when control falls through to the masternode part. *)
Definition budget_verdict (txNew : CTransaction.t) (nBlockHeight : Z) : option bool :=
  if IsSporkActive SPORK_13_ENABLE_SUPERBLOCKS then
    if budget_IsBudgetPaymentBlock nBlockHeight then
      match budget_IsTransactionValid txNew nBlockHeight with
      | Valid => Some true
      | InValid =>
          if IsSporkActive SPORK_9_MASTERNODE_BUDGET_ENFORCEMENT then Some false else None
      | _ => None
      end
    else None
  else None.

(** [None] stands for reading a transaction the block does not have. *)
Definition IsBlockPayeeValid (st : CMasternodePayments.t) (block : CBlock.t)
    (nBlockHeight : Z) : option bool :=
  if negb masternodeSync_IsSynced then Some true
  else
    let fProofOfStake := block_IsProofOfStake block in
    match CBlock.vtx block !! (if fProofOfStake then 1 else 0)%nat with
    | None => None
    | Some txNew =>
        match budget_verdict txNew nBlockHeight with
        | Some verdict => Some verdict
        | None =>
            let nCoinAge :=
              if fProofOfStake then GetCoinAge txNew (CBlock.nTime block) nBlockHeight
              else 0 in
            let nBlockValue := GetBlockValue nBlockHeight fProofOfStake nCoinAge in
            if negb (IsTreasuryBlock nBlockHeight) then
              if CMasternodePayments.IsTransactionValid st txNew nBlockHeight nBlockValue
                   fProofOfStake
              then Some true
              else if IsSporkActive SPORK_8_MASTERNODE_PAYMENT_ENFORCEMENT then Some false
              else Some true
            else Some true
        end
    end.

(** [GetMinMasternodePaymentsProto]; the fallback is the constant
    [MIN_PEER_PROTO_VERSION_BEFORE_ENFORCEMENT], passed in. *)
Definition GetMinMasternodePaymentsProto (MIN_PEER_PROTO_VERSION_BEFORE_ENFORCEMENT : Z) : Z :=
  if IsSporkActive SPORK_10_MASTERNODE_PAY_UPDATED_NODES then ActiveProtocol
  else MIN_PEER_PROTO_VERSION_BEFORE_ENFORCEMENT.

(** The heights [nHeight .. nHeight + 8] that [IsScheduled] visits. *)
Definition scheduled_heights (nHeight : Z) : list Z :=
  (λ i, nHeight + Z.of_nat i) <$> seq 0 9.

Definition IsScheduled (st : CMasternodePayments.t) (mn : CMasternode.t)
    (nNotBlockHeight : Z) : bool :=
  match cs_main_locked, chainActive_Tip with
  | true, Some tip =>
      let mnpayee := GetScriptForRawPubKey (CMasternode.pubKeyCollateralAddress mn) in
      existsb (λ h,
                 if h =? nNotBlockHeight then false
                 else match CMasternodePayments.mapMasternodeBlocks st !! h with
                      | Some b =>
                          match CMasternodeBlockPayees.GetPayee (CMasternode.Level mn) b with
                          | Some payee => bool_decide (mnpayee = payee)
                          | None => false
                          end
                      | None => false
                      end)
              (scheduled_heights (CBlockIndex.nHeight tip))
  | _, _ => false
  end.

(** [mn_counts] after the capping loop of [Sync]: each enabled count times
    1.25, truncated, and at most [nCountNeeded]. *)
Definition Sync_counts (nCountNeeded : Z) : gmap N Z :=
  (λ count, Z.min nCountNeeded (Z.quot (count * 5) 4)) <$> mnodeman_CountEnabledByLevels.

(** The test [push]; [mn_counts[level]] is 0 for a tier the registry did not
    list. *)
Definition Sync_push (nHeight nCountNeeded : Z) (winner : CMasternodePaymentWinner.t) : bool :=
  (nHeight - default 0 (Sync_counts nCountNeeded !! CMasternodePaymentWinner.payeeLevel winner)
     <=? CMasternodePaymentWinner.nBlockHeight winner)
  && (CMasternodePaymentWinner.nBlockHeight winner <=? nHeight + 20).

(** The order of the keys of [mapMasternodePayeeVotes]. *)
Definition hash_le (a b : N * CMasternodePaymentWinner.t) : Prop := (a.1 ≤ b.1)%N.

#[global] Instance hash_le_dec a b : Decision (hash_le a b).
Proof. unfold hash_le. apply _. Defined.

(** The vote table in the order a [std::map] is walked: by ascending hash. *)
Definition votes_in_order (st : CMasternodePayments.t) :
    list (N * CMasternodePaymentWinner.t) :=
  merge_sort hash_le (map_to_list (CMasternodePayments.mapMasternodePayeeVotes st)).

Definition Sync (st : CMasternodePayments.t) (nCountNeeded : Z) : list SyncEffect :=
  match cs_main_locked, chainActive_Tip with
  | true, Some tip =>
      let pushed :=
        filter (λ vote, Sync_push (CBlockIndex.nHeight tip) nCountNeeded vote.2 = true)
               (votes_in_order st) in
      ((λ vote, PushInventory (GetHash vote.2)) <$> pushed)
      ++ [PushMessage_ssc (Z.of_nat (length pushed))]
  | _, _ => []
  end.

(** One entry of the payments string: address, tier and votes. *)
Definition payee_str (payee : CMasternodePayee.t) : string :=
  address_ToString (CMasternodePayee.scriptPubKey payee) +:+ ":"
  +:+ pretty (CMasternodePayee.mnlevel payee) +:+ ":"
  +:+ pretty (CMasternodePayee.nVotes payee).

(** [CMasternodeBlockPayees::GetRequiredPaymentsString]. *)
Definition BlockPayees_GetRequiredPaymentsString (b : CMasternodeBlockPayees.t) : string :=
  foldl (λ ret payee,
           if bool_decide (ret ≠ "Unknown") then ret +:+ ", " +:+ payee_str payee
           else payee_str payee)
        "Unknown" (CMasternodeBlockPayees.vecPayments b).

(** [CMasternodePayments::GetRequiredPaymentsString]. *)
Definition GetRequiredPaymentsString (st : CMasternodePayments.t) (nBlockHeight : Z) : string :=
  match CMasternodePayments.mapMasternodeBlocks st !! nBlockHeight with
  | Some b => BlockPayees_GetRequiredPaymentsString b
  | None => "Unknown"
  end.

End Further.

(** ** Vocabulary of the further properties *)

(** States reached from the empty store by inbound messages, runs of the
    local producer and prunings; every step meets the collaborators of its
    moment. *)
Inductive reachable_pruned : CMasternodePayments.t → Prop :=
  | reachable_pruned_empty : reachable_pruned CMasternodePayments.empty
  | reachable_pruned_message (C : Collaborators) st pfrom_nVersion strCommand winner :
      reachable_pruned st →
      reachable_pruned
        (ProcessMessageMasternodePayments st pfrom_nVersion strCommand winner).1
  | reachable_pruned_produce (C : Collaborators) st nBlockHeight :
      reachable_pruned st →
      reachable_pruned (ProcessBlock st nBlockHeight).1.2
  | reachable_pruned_clean (C : Collaborators) st :
      reachable_pruned st →
      reachable_pruned (CMasternodePayments.CleanPaymentList st).

(** The tallies sit at exactly the heights of the stored votes. *)
Definition heights_consistent (st : CMasternodePayments.t) : Prop :=
  ∀ k, is_Some (CMasternodePayments.mapMasternodeBlocks st !! k)
       ↔ ∃ hash w, CMasternodePayments.mapMasternodePayeeVotes st !! hash = Some w
                   ∧ CMasternodePaymentWinner.nBlockHeight w = k.

(** Whether a text holds a colon. *)
Fixpoint has_colon (s : string) : bool :=
  match s with
  | EmptyString => false
  | String a s' => bool_decide (String a EmptyString = ":") || has_colon s'
  end.

(** The entries of the payments string joined by [", "]. *)
Fixpoint join_payee_str `{BudgetCollaborators} (first : CMasternodePayee.t)
    (rest : list CMasternodePayee.t) : string :=
  match rest with
  | [] => payee_str first
  | next :: rest' => payee_str first +:+ ", " +:+ join_payee_str next rest'
  end.

(** The window of [Sync] for a vote at tip height [nHeight]: not older than
    the capped count of its tier, not more than 20 ahead. *)
Definition Sync_window `{BudgetCollaborators} (nHeight nCountNeeded : Z)
    (winner : CMasternodePaymentWinner.t) : Prop :=
  nHeight - match mnodeman_CountEnabledByLevels
                  !! CMasternodePaymentWinner.payeeLevel winner with
            | Some count => Z.min nCountNeeded (Z.quot (count * 5) 4)
            | None => 0
            end
  ≤ CMasternodePaymentWinner.nBlockHeight winner
  ∧ CMasternodePaymentWinner.nBlockHeight winner ≤ nHeight + 20.

#[global] Instance Sync_window_dec `{BudgetCollaborators} nHeight nCountNeeded winner :
  Decision (Sync_window nHeight nCountNeeded winner).
Proof. unfold Sync_window. apply _. Defined.

(** A budget with a fixed verdict, a block value of 10 at every height, ten
    enabled nodes of tier 1 and four of tier 3, and scripts as addresses. *)
Definition example_budget (verdict : TrxValidationStatus) : BudgetCollaborators := {|
  budget_IsTransactionValid := λ _ _, verdict;
  GetBlockValue := λ _ _ _, 10;
  GetCoinAge := λ _ _ _, 0;
  mnodeman_CountEnabledByLevels := {[1%N := 10; 3%N := 4]};
  address_ToString := λ script, script |}.

(** The tally of six votes for ["A"] in the top tier at height 1001. *)
Definition tally_A6 : CMasternodeBlockPayees.t :=
  CMasternodeBlockPayees.mk 1001
    [CMasternodePayee.mk 3 "A" (CTxIn.mk (COutPoint.mk 50 0) "" 0) 6].

(** Five of the six votes: one short of the quorum. *)
Definition store_five_votes : CMasternodePayments.t :=
  @admit_votes node_1000 CMasternodePayments.empty (take 5 six_votes).

(** A coinbase that pays ["A"], and one with outputs the builder does not
    know. *)
Definition coinbase_A (nValue : Z) : CTransaction.t :=
  CTransaction.mk [] [CTxOut.mk 8 "miner"; CTxOut.mk nValue "A"].

Definition coinbase_three : CTransaction.t :=
  CTransaction.mk [] [CTxOut.mk 0 "miner"; CTxOut.mk 5 "x"; CTxOut.mk 6 "y"].

(** A coinstake whose stake output is a zerocoin mint. *)
Definition coinstake_mint : CTransaction.t :=
  CTransaction.mk [CTxIn.mk (COutPoint.mk 70 0) "" 0]
    [CTxOut.mk 0 ""; CTxOut.mk 100 "zerocoinmint"].

(** * Properties *)

(** ** The tally check *)
Section TallyCheck.
Context `{Collaborators}.

Import CMasternodeBlockPayees.

Lemma skipped_false payee :
  skipped (IsSporkActive SPORK_18_NEW_MASTERNODE_TIERS) payee = false ↔ qualified payee.
Proof.
  unfold skipped, qualified, MNPAYMENTS_SIGNATURES_REQUIRED.
  destruct (IsSporkActive SPORK_18_NEW_MASTERNODE_TIERS); simpl.
  - rewrite orb_false_r, Z.ltb_ge. intuition congruence.
  - rewrite orb_false_iff, Z.ltb_ge, negb_false_iff, bool_decide_eq_true.
    intuition.
Qed.

Lemma existsb_is_payee_out b txNew nBlockValue fProofOfStake payee :
  existsb (is_payee_out payee
             (requiredMasternodePayment b txNew nBlockValue fProofOfStake payee))
          (CTransaction.vout txNew) = true
  ↔ paid_by b txNew nBlockValue fProofOfStake payee.
Proof.
  rewrite existsb_exists. unfold paid_by, is_payee_out, requiredMasternodePayment.
  split; intros (out & Hin & Hout); exists out.
  - apply andb_true_iff in Hout as [Hs Hv].
    apply bool_decide_eq_true in Hs. apply Z.leb_le in Hv.
    rewrite list_elem_of_In. auto.
  - destruct Hout as [Hs Hv]. rewrite <- list_elem_of_In. split; [done|].
    apply andb_true_iff. rewrite bool_decide_eq_true, Z.leb_le. auto.
Qed.

(** The keys of [max_signatures] are the tiers of the qualified records. *)
Lemma dom_max_signatures_step pnt m payee tier :
  tier ∈ dom (max_signatures_step pnt m payee)
  ↔ tier ∈ dom m ∨ (skipped pnt payee = false ∧ CMasternodePayee.mnlevel payee = tier).
Proof.
  unfold max_signatures_step.
  destruct (skipped pnt payee) eqn:Hs; [naive_solver|].
  destruct (m !! CMasternodePayee.mnlevel payee) as [nv|] eqn:Hm.
  - assert (CMasternodePayee.mnlevel payee ∈ dom m) by (apply elem_of_dom; eauto).
    destruct (nv <? _); rewrite ?dom_insert_L; set_solver.
  - rewrite dom_insert_L. set_solver.
Qed.

Lemma dom_foldl_max_signatures pnt v : ∀ m tier,
  tier ∈ dom (foldl (max_signatures_step pnt) m v)
  ↔ tier ∈ dom m
    ∨ ∃ payee, payee ∈ v ∧ skipped pnt payee = false
               ∧ CMasternodePayee.mnlevel payee = tier.
Proof.
  induction v as [|p v IH]; intros m tier; simpl.
  - split; [auto|]. intros [?|(? & Hin & _)]; [done|]. by apply elem_of_nil in Hin.
  - rewrite IH, dom_max_signatures_step. split.
    + intros [[?|[? ?]]|(q & ? & ? & ?)]; [by left| |].
      * right. exists p. split; [left|done].
      * right. exists q. split; [by right|done].
    + intros [?|(q & Hin & ? & ?)]; [by left; left|].
      apply elem_of_cons in Hin as [->|?]; [left; right; done|].
      right. by exists q.
Qed.

Lemma dom_max_signatures v tier :
  tier ∈ dom (max_signatures (IsSporkActive SPORK_18_NEW_MASTERNODE_TIERS) v)
  ↔ ∃ payee, payee ∈ v ∧ qualified payee ∧ CMasternodePayee.mnlevel payee = tier.
Proof.
  unfold max_signatures. rewrite dom_foldl_max_signatures, dom_empty_L.
  split.
  - intros [?|(p & ? & ?%skipped_false & ?)]; [set_solver|eauto].
  - intros (p & ? & ?%skipped_false & ?). right. eauto.
Qed.

Lemma size_eqb_0 (m : gmap N Z) : Nat.eqb (size m) 0 = true ↔ dom m = ∅.
Proof.
  rewrite Nat.eqb_eq, map_size_empty_iff. split.
  - intros ->. apply dom_empty_L.
  - apply dom_empty_inv_L.
Qed.

(** The second loop answers [true] exactly when some record is paid and every
    outstanding tier has a paid qualified record further down the vector. *)
Lemma check_payees_true b txNew nBlockValue fProofOfStake v : ∀ m,
  check_payees b txNew nBlockValue fProofOfStake
    (IsSporkActive SPORK_18_NEW_MASTERNODE_TIERS) m v = true
  ↔ (∃ payee, payee ∈ v ∧ qualified payee
              ∧ paid_by b txNew nBlockValue fProofOfStake payee)
    ∧ ∀ tier, tier ∈ dom m →
        ∃ payee, payee ∈ v ∧ qualified payee
                 ∧ paid_by b txNew nBlockValue fProofOfStake payee
                 ∧ CMasternodePayee.mnlevel payee = tier.
Proof.
  induction v as [|p v IH]; intros m; simpl.
  - split; [done|]. intros [(? & Hin & _) _]. by apply elem_of_nil in Hin.
  - destruct (skipped _ p) eqn:Hs.
    { (* a skipped record is not qualified: every witness lies in the tail *)
      assert (¬ qualified p) as Hnq by (rewrite <- skipped_false; congruence).
      rewrite IH. split.
      - intros [(q & ? & ? & ?) Hall]. split.
        + exists q. split; [by right|done].
        + intros tier Ht. destruct (Hall tier Ht) as (q' & ? & ? & ? & ?).
          exists q'. split; [by right|done].
      - intros [(q & Hin & Hq & ?) Hall]. split.
        + apply elem_of_cons in Hin as [->|?]; [done|]. eauto.
        + intros tier Ht. destruct (Hall tier Ht) as (q' & Hin' & Hq' & ? & ?).
          apply elem_of_cons in Hin' as [->|?]; [done|]. eauto. }
    apply skipped_false in Hs.
    destruct (existsb _ _) eqn:He.
    + apply existsb_is_payee_out in He.
      destruct (Nat.eqb (size (delete (CMasternodePayee.mnlevel p) m)) 0) eqn:Hsz; simpl.
      * apply size_eqb_0 in Hsz. rewrite dom_delete_L in Hsz.
        split; [intros _|done]. split.
        -- exists p. split; [left|done].
        -- intros tier Ht. exists p.
           assert (tier = CMasternodePayee.mnlevel p) as ->.
           { destruct (decide (tier = CMasternodePayee.mnlevel p)) as [|Hd]; [done|].
             assert (tier ∈ dom m ∖ {[CMasternodePayee.mnlevel p]}) as Hin.
             { apply elem_of_difference. by rewrite elem_of_singleton. }
             rewrite Hsz in Hin. by apply not_elem_of_empty in Hin. }
           split; [left|done].
      * assert (dom (delete (CMasternodePayee.mnlevel p) m) ≠ ∅) as Hne.
        { intros Hd. apply size_eqb_0 in Hd. congruence. }
        rewrite IH. split.
        -- intros [(q & ? & ? & ?) Hall]. split.
           ++ exists q. split; [by right|done].
           ++ intros tier Ht.
              destruct (decide (tier = CMasternodePayee.mnlevel p)) as [->|Hd].
              ** exists p. split; [left|done].
              ** destruct (Hall tier) as (q' & ? & ? & ? & ?).
                 { rewrite dom_delete_L. apply elem_of_difference.
                   by rewrite elem_of_singleton. }
                 exists q'. split; [by right|done].
        -- intros [_ Hall].
           assert (∀ tier, tier ∈ dom (delete (CMasternodePayee.mnlevel p) m) →
                     ∃ payee, payee ∈ v ∧ qualified payee
                       ∧ paid_by b txNew nBlockValue fProofOfStake payee
                       ∧ CMasternodePayee.mnlevel payee = tier) as Hall'.
           { intros tier Ht. rewrite dom_delete_L in Ht.
             apply elem_of_difference in Ht as [Ht Hn].
             destruct (Hall tier Ht) as (q & Hin & ? & ? & Hl).
             apply elem_of_cons in Hin as [->|?]; [|by eauto].
             exfalso. apply Hn. by apply elem_of_singleton. }
           split; [|done].
           apply set_choose_L in Hne as [tier Ht].
           destruct (Hall' tier Ht) as (q & ? & ? & ? & _). eauto.
    + assert (¬ paid_by b txNew nBlockValue fProofOfStake p) as Hnp.
      { rewrite <- existsb_is_payee_out. congruence. }
      rewrite IH. split.
      * intros [(q & ? & ? & ?) Hall]. split.
        -- exists q. split; [by right|done].
        -- intros tier Ht. destruct (Hall tier Ht) as (q' & ? & ? & ? & ?).
           exists q'. split; [by right|done].
      * intros [(q & Hin & Hq & ?) Hall]. split.
        -- apply elem_of_cons in Hin as [->|?]; [done|]. eauto.
        -- intros tier Ht. destruct (Hall tier Ht) as (q' & Hin' & Hq' & ? & ?).
           apply elem_of_cons in Hin' as [->|?]; [done|]. eauto.
Qed.

Lemma IsTransactionValid_true b txNew nBlockValue fProofOfStake :
  IsTransactionValid b txNew nBlockValue fProofOfStake = true
  ↔ tally_satisfied b txNew nBlockValue fProofOfStake.
Proof.
  unfold IsTransactionValid, tally_satisfied.
  destruct (Nat.eqb (size _) 0) eqn:Hsz.
  - apply size_eqb_0 in Hsz. split; [intros _|done]. left. intros p Hin Hq.
    assert (CMasternodePayee.mnlevel p ∈
            dom (max_signatures (IsSporkActive SPORK_18_NEW_MASTERNODE_TIERS) (vecPayments b)))
      as Hd by (apply dom_max_signatures; eauto).
    rewrite Hsz in Hd. set_solver.
  - assert (dom (max_signatures (IsSporkActive SPORK_18_NEW_MASTERNODE_TIERS) (vecPayments b)) ≠ ∅)
      as Hne by (intros Hd; apply size_eqb_0 in Hd; congruence).
    rewrite check_payees_true. split.
    + intros [_ Hall]. right. intros tier Ht.
      destruct (Hall tier) as (q & ? & ? & ? & ?); [by apply dom_max_signatures|].
      eauto 6.
    + intros [Hnone|Hall].
      * apply set_choose_L in Hne as [tier Ht].
        apply dom_max_signatures in Ht as (q & ? & ? & _). by destruct (Hnone q).
      * assert (∀ tier, tier ∈ dom (max_signatures
                   (IsSporkActive SPORK_18_NEW_MASTERNODE_TIERS) (vecPayments b)) →
                 ∃ payee, payee ∈ vecPayments b ∧ qualified payee
                   ∧ paid_by b txNew nBlockValue fProofOfStake payee
                   ∧ CMasternodePayee.mnlevel payee = tier) as Hall'.
        { intros tier Ht. apply dom_max_signatures in Ht.
          destruct (Hall tier Ht) as (q & ? & ? & ? & ?). eauto 6. }
        split; [|done].
        apply set_choose_L in Hne as [tier Ht].
        destruct (Hall' tier Ht) as (q & ? & ? & ? & _). eauto.
Qed.

End TallyCheck.

Section StoreProperties.
Context `{Collaborators}.

Import CMasternodePayments.

(** C1. [CMasternodePayments::IsTransactionValid] accepts exactly when the
    height has no stored tally, or its tally has no qualified record, or
    every tier with a qualified record has one that some output of the
    transaction pays (same script, value at least the reward-curve amount of
    the tier at the drift count); the answer does not depend on the order of
    the outputs. *)
Theorem IsTransactionValid_iff_tally_satisfied
    (st : t) (txNew : CTransaction.t) (nBlockHeight nBlockValue : Z) (fProofOfStake : bool) :
  (IsTransactionValid st txNew nBlockHeight nBlockValue fProofOfStake = true
   ↔ match mapMasternodeBlocks st !! nBlockHeight with
     | Some b => tally_satisfied b txNew nBlockValue fProofOfStake
     | None => True
     end)
  ∧ (∀ b, mapMasternodeBlocks st !! nBlockHeight = Some b →
       IsTransactionValid st txNew nBlockHeight nBlockValue fProofOfStake
       = CMasternodeBlockPayees.IsTransactionValid b txNew nBlockValue fProofOfStake)
  ∧ (∀ txNew',
       CTransaction.vin txNew' = CTransaction.vin txNew →
       CTransaction.vout txNew' ≡ₚ CTransaction.vout txNew →
       IsTransactionValid st txNew' nBlockHeight nBlockValue fProofOfStake
       = IsTransactionValid st txNew nBlockHeight nBlockValue fProofOfStake).
Proof.
  unfold IsTransactionValid. split; [|split].
  - destruct (mapMasternodeBlocks st !! nBlockHeight) as [b|]; [|done].
    apply IsTransactionValid_true.
  - by intros b ->.
  - intros txNew' Hvin Hperm.
    destruct (mapMasternodeBlocks st !! nBlockHeight) as [b|]; [|done].
    apply eq_true_iff_eq. rewrite !IsTransactionValid_true.
    assert (∀ p, paid_by b txNew' nBlockValue fProofOfStake p
                 ↔ paid_by b txNew nBlockValue fProofOfStake p) as Hpaid.
    { intros p. unfold paid_by. rewrite Hvin.
      split; intros (out & Hin & ?); exists out; split; try done.
      - by rewrite <- Hperm.
      - by rewrite Hperm. }
    unfold tally_satisfied.
    split; (intros [?|Hall]; [by left|right]); intros tier Ht;
      destruct (Hall tier Ht) as (q & ? & ? & ? & ?%Hpaid); eauto 6.
Qed.

Lemma votes_of_AddPayee_vec mnlevel payeeIn payeeVin nIncrement v payee' mnlevel' :
  votes_of (CMasternodeBlockPayees.AddPayee_vec mnlevel payeeIn payeeVin nIncrement v)
           payee' mnlevel'
  = votes_of v payee' mnlevel'
    + (if decide (payeeIn = payee' ∧ mnlevel = mnlevel') then nIncrement else 0).
Proof.
  unfold votes_of. induction v as [|p v IH]; simpl.
  - repeat case_bool_decide; case_decide; simpl; naive_solver lia.
  - destruct (bool_decide (CMasternodePayee.scriptPubKey p = payeeIn)
              && bool_decide (CMasternodePayee.mnlevel p = mnlevel)) eqn:Hp; simpl.
    + apply andb_true_iff in Hp as [?%bool_decide_eq_true ?%bool_decide_eq_true].
      repeat case_bool_decide; case_decide; simpl; naive_solver lia.
    + destruct (bool_decide (CMasternodePayee.scriptPubKey p = payee')
                && bool_decide (CMasternodePayee.mnlevel p = mnlevel')) eqn:Hq; [|done].
      apply andb_true_iff in Hq as [?%bool_decide_eq_true ?%bool_decide_eq_true].
      apply andb_false_iff in Hp.
      case_decide; [|lia]. destruct Hp as [Hp|Hp]; apply bool_decide_eq_false in Hp;
        naive_solver.
Qed.

(** C3. [AddWinningMasternode] succeeds exactly when the block hash at
    [nBlockHeight - 100] exists and the vote's hash is new; on success the
    vote is stored under its hash and the tally at the vote's height (created
    when absent) gets the record for (payee, tier) located or created and
    raised by one, nothing else changes; on failure the store is unchanged. *)
Theorem AddWinningMasternode_spec (st : t) (winnerIn : CMasternodePaymentWinner.t) :
  ((AddWinningMasternode st winnerIn).1 = true
   ↔ is_Some (GetBlockHash (CMasternodePaymentWinner.nBlockHeight winnerIn - 100))
     ∧ mapMasternodePayeeVotes st !! GetHash winnerIn = None)
  ∧ ((AddWinningMasternode st winnerIn).1 = true →
       mapMasternodePayeeVotes (AddWinningMasternode st winnerIn).2
       = <[GetHash winnerIn := winnerIn]> (mapMasternodePayeeVotes st)
       ∧ (∃ b b',
            b = default (CMasternodeBlockPayees.mk
                           (CMasternodePaymentWinner.nBlockHeight winnerIn) [])
                        (mapMasternodeBlocks st
                           !! CMasternodePaymentWinner.nBlockHeight winnerIn)
            ∧ mapMasternodeBlocks (AddWinningMasternode st winnerIn).2
              = <[CMasternodePaymentWinner.nBlockHeight winnerIn := b']>
                  (mapMasternodeBlocks st)
            ∧ b' = CMasternodeBlockPayees.AddPayee
                     (CMasternodePaymentWinner.payeeLevel winnerIn)
                     (CMasternodePaymentWinner.payee winnerIn)
                     (CMasternodePaymentWinner.payeeVin winnerIn) 1 b
            ∧ ∀ payee mnlevel,
                votes_of (CMasternodeBlockPayees.vecPayments b') payee mnlevel
                = votes_of (CMasternodeBlockPayees.vecPayments b) payee mnlevel
                  + (if decide (CMasternodePaymentWinner.payee winnerIn = payee
                                ∧ CMasternodePaymentWinner.payeeLevel winnerIn = mnlevel)
                     then 1 else 0))
       ∧ nLastBlockHeight (AddWinningMasternode st winnerIn).2 = nLastBlockHeight st)
  ∧ ((AddWinningMasternode st winnerIn).1 = false →
       (AddWinningMasternode st winnerIn).2 = st).
Proof.
  unfold AddWinningMasternode.
  set (h := CMasternodePaymentWinner.nBlockHeight winnerIn).
  destruct (GetBlockHash (h - 100)) as [blockHash|] eqn:Hbh.
  2:{ simpl. split; [|split]; try done. split; [done|]. by intros [[? ?] _]. }
  case_bool_decide as Hseen; simpl.
  { split; [|split]; try done. split; [done|]. intros [_ Hn].
    rewrite Hn in Hseen. by destruct Hseen. }
  assert (mapMasternodePayeeVotes st !! GetHash winnerIn = None) as Hnew.
  { by apply eq_None_not_Some. }
  split; [|split]; try done.
  intros _. split; [done|]. split; [|done].
  eexists _, _. split; [reflexivity|]. split; [|split; [reflexivity|]].
  - case_bool_decide as Hb.
    + destruct Hb as [b Hb]. unfold blocks_at. by rewrite Hb.
    + apply eq_None_not_Some in Hb. unfold blocks_at.
      rewrite lookup_insert_eq, Hb. simpl. by rewrite insert_insert_eq.
  - intros payee mnlevel. apply votes_of_AddPayee_vec.
Qed.

(** C10. On a store without tallies [GetOldestBlock] is [INT_MAX] and
    [GetNewestBlock] is 0: both return their start value, not an absent
    result. *)
Theorem GetOldestBlock_GetNewestBlock_empty
    (votes : gmap N CMasternodePaymentWinner.t) (nLast : Z) :
  GetOldestBlock (mk votes ∅ nLast) = numeric_limits_int_max
  ∧ numeric_limits_int_max = 2 ^ 31 - 1
  ∧ GetNewestBlock (mk votes ∅ nLast) = 0.
Proof.
  unfold GetOldestBlock, GetNewestBlock. simpl.
  by rewrite !map_fold_empty.
Qed.

(** With tallies present the two scans bracket every stored height. *)
Lemma GetOldestBlock_le (st : t) h :
  is_Some (mapMasternodeBlocks st !! h) → GetOldestBlock st ≤ h.
Proof.
  unfold GetOldestBlock. revert h.
  apply (map_fold_weak_ind (λ r m, ∀ h, is_Some (m !! h) → r ≤ h)).
  - intros h [? Hh]. by rewrite lookup_empty in Hh.
  - intros i x m r _ IH h Hh.
    destruct (decide (i = h)) as [->|Hne].
    + destruct (h <? r) eqn:E; [lia|]. apply Z.ltb_ge in E. lia.
    + rewrite lookup_insert_ne in Hh by done. specialize (IH h Hh).
      destruct (i <? r) eqn:E; [|done]. apply Z.ltb_lt in E. lia.
Qed.

Lemma GetNewestBlock_ge (st : t) h :
  is_Some (mapMasternodeBlocks st !! h) → h ≤ GetNewestBlock st.
Proof.
  unfold GetNewestBlock. revert h.
  apply (map_fold_weak_ind (λ r m, ∀ h, is_Some (m !! h) → h ≤ r)).
  - intros h [? Hh]. by rewrite lookup_empty in Hh.
  - intros i x m r _ IH h Hh.
    destruct (decide (i = h)) as [->|Hne].
    + destruct (r <? h) eqn:E; [lia|]. apply Z.ltb_ge in E. lia.
    + rewrite lookup_insert_ne in Hh by done. specialize (IH h Hh).
      destruct (r <? i) eqn:E; [|done]. apply Z.ltb_lt in E. lia.
Qed.

End StoreProperties.

(** ** The block value rule *)
Section BlockValueProperties.
Context `{Collaborators}.

Lemma treasury_paid_true treasuryPayment txNew payee :
  treasury_paid treasuryPayment txNew payee = true
  ↔ ∃ out, out ∈ CTransaction.vout txNew
      ∧ CTxOut.scriptPubKey out = payee.1
      ∧ CTxOut.nValue out = Z.quot (treasuryPayment * payee.2) 100.
Proof.
  unfold treasury_paid. rewrite existsb_exists.
  split; intros (out & Hin & Hout); exists out.
  - apply andb_true_iff in Hout as [?%bool_decide_eq_true ?%Z.eqb_eq].
    by rewrite list_elem_of_In.
  - rewrite <- list_elem_of_In. split; [done|]. destruct Hout.
    apply andb_true_iff. by rewrite bool_decide_eq_true, Z.eqb_eq.
Qed.

(** Counting the paid payees reaches the number of payees only when all of
    them are paid. *)
Lemma count_paid_bounds treasuryPayment txNew (l : list (string * Z)) :
  0 ≤ foldr (λ payee found, if treasury_paid treasuryPayment txNew payee
                            then found + 1 else found) 0 l
    ≤ Z.of_nat (length l).
Proof.
  induction l as [|p l IH]; simpl; [lia|].
  destruct (treasury_paid _ _ p); lia.
Qed.

Lemma count_paid_all treasuryPayment txNew (l : list (string * Z)) :
  foldr (λ payee found, if treasury_paid treasuryPayment txNew payee
                        then found + 1 else found) 0 l
  = Z.of_nat (length l)
  ↔ Forall (λ payee, treasury_paid treasuryPayment txNew payee = true) l.
Proof.
  induction l as [|p l IH]; simpl.
  - split; [constructor|done].
  - pose proof (count_paid_bounds treasuryPayment txNew l) as Hb.
    destruct (treasury_paid _ _ p) eqn:Hp.
    + split.
      * intros Hc. constructor; [done|]. apply IH. lia.
      * intros Hall. inversion Hall as [|? ? _ Hl]; subst. apply IH in Hl. lia.
    + split; [lia|]. intros Hall. inversion Hall; subst. congruence.
Qed.

Lemma treasury_found_ne_size nHeight txNew :
  treasury_found (GetTreasuryAward nHeight) txNew (GetTreasuryRewardScriptAtHeight nHeight)
  ≠ Z.of_nat (size (GetTreasuryRewardScriptAtHeight nHeight))
  ↔ treasury_missing nHeight txNew.
Proof.
  unfold treasury_found. rewrite <- length_map_to_list, count_paid_all. unfold treasury_missing. split.
  - intros Hn. apply not_Forall_Exists in Hn; [|intros x; apply _].
    apply Exists_exists in Hn as ([script percent] & Hin & Hnp).
    apply elem_of_map_to_list in Hin. exists script, percent. split; [done|].
    intros Hex. apply Hnp. by apply treasury_paid_true.
  - intros (script & percent & Hin & Hnp) Hall.
    rewrite Forall_forall in Hall. apply Hnp.
    apply (treasury_paid_true _ _ (script, percent)). apply Hall.
    by apply elem_of_map_to_list.
Qed.

(** C6. At a treasury height the treasury check rejects exactly when some
    configured payee has no output with its script and exactly
    [treasury_award * percent / 100], and the block time is past the value of
    the enforcement spork; in every other case the answer is the one of the
    remaining value rules. *)
Theorem IsBlockValueValid_treasury (block : CBlock.t) (nExpectedValue nMinted : Z)
    (pindexPrev : CBlockIndex.t) (txNew : CTransaction.t) :
  chainActive_Tip = Some pindexPrev →
  IsTreasuryBlock (resolve_height pindexPrev block) = true →
  CBlock.vtx block !! (if block_IsProofOfStake block then 1 else 0)%nat = Some txNew →
  (treasury_missing (resolve_height pindexPrev block) txNew
   ∧ GetSporkValue SPORK_17_TREASURY_PAYMENT_ENFORCEMENT < CBlock.nTime block →
   IsBlockValueValid block nExpectedValue nMinted = Some false)
  ∧ (¬ (treasury_missing (resolve_height pindexPrev block) txNew
        ∧ GetSporkValue SPORK_17_TREASURY_PAYMENT_ENFORCEMENT < CBlock.nTime block) →
     IsBlockValueValid block nExpectedValue nMinted
     = Some (value_rules (resolve_height pindexPrev block) nExpectedValue nMinted))
  ∧ (IsBlockValueValid block nExpectedValue nMinted = Some false
     ↔ (treasury_missing (resolve_height pindexPrev block) txNew
        ∧ GetSporkValue SPORK_17_TREASURY_PAYMENT_ENFORCEMENT < CBlock.nTime block)
       ∨ value_rules (resolve_height pindexPrev block) nExpectedValue nMinted = false).
Proof.
  intros Htip Htreasury Htx. unfold IsBlockValueValid, IsBlockValueValid_traced.
  rewrite Htip, Htreasury, Htx.
  pose proof (treasury_found_ne_size (resolve_height pindexPrev block) txNew) as Hmiss.
  destruct (treasury_found _ _ _ =? _) eqn:Hfound; simpl.
  - apply Z.eqb_eq in Hfound.
    assert (¬ treasury_missing (resolve_height pindexPrev block) txNew) as Hnm.
    { rewrite <- Hmiss. by intros []. }
    split; [by intros [? _]|]. split; [done|].
    split; [intros [= ?]; by right|]. intros [[? _]|?]; [done|congruence].
  - apply Z.eqb_neq in Hfound. apply Hmiss in Hfound.
    destruct (_ <? _) eqn:Htime; simpl.
    + apply Z.ltb_lt in Htime. split; [done|]. split; [by intros []|].
      split; [by left|done].
    + apply Z.ltb_ge in Htime. split; [intros [_ ?]; lia|]. split; [done|].
      split; [intros [= ?]; by right|]. intros [[_ ?]|?]; [lia|congruence].
Qed.

Lemma resolve_height_unresolved pindexPrev block :
  parent_unresolved pindexPrev block → resolve_height pindexPrev block = 0.
Proof.
  intros [Hne Hfind]. unfold resolve_height.
  rewrite bool_decide_eq_false_2 by done.
  by destruct Hfind as [-> | ->].
Qed.

(** C8, as the code has it.  With an unresolved parent the warning is logged
    (it is the only log line) and the rules run at height 0: when height 0 is
    no treasury height the block is accepted exactly when the node is not
    synced, or superblocks are enabled and height 0 is a budget payment
    height, or the minted amount does not exceed the expected one. *)
Theorem IsBlockValueValid_unresolved_parent (block : CBlock.t)
    (nExpectedValue nMinted : Z) (pindexPrev : CBlockIndex.t) :
  chainActive_Tip = Some pindexPrev →
  parent_unresolved pindexPrev block →
  IsTreasuryBlock 0 = false →
  IsBlockValueValid_traced block nExpectedValue nMinted
  = Some ([LogPrint "IsBlockValueValid() : WARNING: Couldn't find previous block"],
          negb masternodeSync_IsSynced
          || (IsSporkActive SPORK_13_ENABLE_SUPERBLOCKS && budget_IsBudgetPaymentBlock 0)
          || (nMinted <=? nExpectedValue))
  ∧ IsBlockValueValid block nExpectedValue nMinted
    = Some (negb masternodeSync_IsSynced
            || (IsSporkActive SPORK_13_ENABLE_SUPERBLOCKS && budget_IsBudgetPaymentBlock 0)
            || (nMinted <=? nExpectedValue)).
Proof.
  intros Htip Hun Htreasury.
  assert (value_rules 0 nExpectedValue nMinted
          = negb masternodeSync_IsSynced
            || (IsSporkActive SPORK_13_ENABLE_SUPERBLOCKS && budget_IsBudgetPaymentBlock 0)
            || (nMinted <=? nExpectedValue)) as Hrules.
  { unfold value_rules. change (Z.rem 0 GetBudgetCycleBlocks) with 0.
    destruct masternodeSync_IsSynced; simpl; [|done].
    destruct (IsSporkActive SPORK_13_ENABLE_SUPERBLOCKS); simpl; [|done].
    destruct (budget_IsBudgetPaymentBlock 0); simpl; [done|].
    destruct (nExpectedValue <? nMinted) eqn:E.
    - apply Z.ltb_lt in E. symmetry. apply Z.leb_gt. lia.
    - apply Z.ltb_ge in E. symmetry. apply Z.leb_le. lia. }
  unfold IsBlockValueValid, IsBlockValueValid_traced.
  rewrite Htip, (resolve_height_unresolved _ _ Hun), Htreasury. simpl.
  by rewrite Hrules.
Qed.

End BlockValueProperties.

(** ** Pruning *)
Section PruneProperties.
Context `{Collaborators}.

Import CMasternodePayments.

Lemma CleanPaymentList_step_votes nHeight hash winner st hash' :
  mapMasternodePayeeVotes (CleanPaymentList_step nHeight hash winner st) !! hash'
  = if decide (hash = hash' ∧ aged_out nHeight winner) then None
    else mapMasternodePayeeVotes st !! hash'.
Proof.
  unfold CleanPaymentList_step, aged_out.
  destruct (nLimit <? _) eqn:E; simpl.
  - apply Z.ltb_lt in E. case_decide as Hd.
    + destruct Hd as [-> _]. apply lookup_delete_eq.
    + apply lookup_delete_ne. naive_solver.
  - apply Z.ltb_ge in E. case_decide as Hd; [|done]. lia.
Qed.

Lemma CleanPaymentList_step_blocks nHeight hash winner st k :
  mapMasternodeBlocks (CleanPaymentList_step nHeight hash winner st) !! k
  = if decide (CMasternodePaymentWinner.nBlockHeight winner = k ∧ aged_out nHeight winner)
    then None else mapMasternodeBlocks st !! k.
Proof.
  unfold CleanPaymentList_step, aged_out.
  destruct (nLimit <? _) eqn:E; simpl.
  - apply Z.ltb_lt in E. case_decide as Hd.
    + destruct Hd as [-> _]. apply lookup_delete_eq.
    + apply lookup_delete_ne. naive_solver.
  - apply Z.ltb_ge in E. case_decide as Hd; [|done]. lia.
Qed.

(** The loop over any part [m] of the vote table, started from [st0]. *)
Lemma CleanPaymentList_loop nHeight st0 (m : gmap N CMasternodePaymentWinner.t) :
  let r := map_fold (CleanPaymentList_step nHeight) st0 m in
  (∀ hash, mapMasternodePayeeVotes r !! hash
           = match m !! hash with
             | Some w => if decide (aged_out nHeight w) then None
                         else mapMasternodePayeeVotes st0 !! hash
             | None => mapMasternodePayeeVotes st0 !! hash
             end)
  ∧ (∀ k, (∃ hash w, m !! hash = Some w ∧ aged_out nHeight w
                     ∧ CMasternodePaymentWinner.nBlockHeight w = k) →
          mapMasternodeBlocks r !! k = None)
  ∧ (∀ k, (∀ hash w, m !! hash = Some w → aged_out nHeight w →
                     CMasternodePaymentWinner.nBlockHeight w ≠ k) →
          mapMasternodeBlocks r !! k = mapMasternodeBlocks st0 !! k)
  ∧ nLastBlockHeight r = nLastBlockHeight st0.
Proof.
  simpl. apply (map_fold_weak_ind (λ r m,
    (∀ hash, mapMasternodePayeeVotes r !! hash
             = match m !! hash with
               | Some w => if decide (aged_out nHeight w) then None
                           else mapMasternodePayeeVotes st0 !! hash
               | None => mapMasternodePayeeVotes st0 !! hash
               end)
    ∧ (∀ k, (∃ hash w, m !! hash = Some w ∧ aged_out nHeight w
                       ∧ CMasternodePaymentWinner.nBlockHeight w = k) →
            mapMasternodeBlocks r !! k = None)
    ∧ (∀ k, (∀ hash w, m !! hash = Some w → aged_out nHeight w →
                       CMasternodePaymentWinner.nBlockHeight w ≠ k) →
            mapMasternodeBlocks r !! k = mapMasternodeBlocks st0 !! k)
    ∧ nLastBlockHeight r = nLastBlockHeight st0)).
  - split; [|split; [|split]]; try done.
    intros k (hash & w & Hw & _). by rewrite lookup_empty in Hw.
  - intros i x m' r Hi (IHv & IHrm & IHkeep & IHn).
    split; [|split; [|split]].
    + intros hash. rewrite CleanPaymentList_step_votes, IHv.
      destruct (decide (i = hash)) as [->|Hne].
      * rewrite lookup_insert_eq, Hi.
        destruct (decide (aged_out nHeight x)); case_decide; naive_solver.
      * rewrite lookup_insert_ne by done. case_decide; naive_solver.
    + intros k (hash & w & Hw & Ha & Hk). rewrite CleanPaymentList_step_blocks.
      case_decide; [done|]. apply IHrm.
      destruct (decide (i = hash)) as [->|Hne].
      * rewrite lookup_insert_eq in Hw. naive_solver.
      * rewrite lookup_insert_ne in Hw by done. eauto.
    + intros k Hk. rewrite CleanPaymentList_step_blocks.
      case_decide as Hd.
      * destruct Hd as [Hx Ha]. exfalso. apply (Hk i x); [apply lookup_insert_eq|done..].
      * apply IHkeep. intros hash w Hw. apply (Hk hash w).
        rewrite lookup_insert_ne; [done|]. intros ->. congruence.
    + unfold CleanPaymentList_step. by destruct (nLimit <? _).
Qed.

End PruneProperties.

(** ** The inbound handler *)
Section HandlerProperties.
Context `{Collaborators}.

Import CMasternodePayments.

Lemma IsValid_true_quiet w :
  (IsValid w).1.1 = true → IsValid w = (true, "", []).
Proof.
  unfold IsValid.
  destruct (mnodeman_Find_vin _); [|done].
  repeat (match goal with |- context [if ?c then _ else _] => destruct c end;
          simpl; try done).
Qed.

Lemma IsValid_scores w score :
  Misbehaving score ∈ (IsValid w).2 → score = 20 ∧ masternodeSync_IsSynced = true.
Proof.
  unfold IsValid.
  destruct (mnodeman_Find_vin _); simpl.
  2:{ intros Hin. repeat (apply elem_of_cons in Hin as [Hin|Hin]; [done|]).
      by apply elem_of_nil in Hin. }
  repeat (match goal with |- context [if ?c then _ else _] => destruct c eqn:? end;
          simpl);
    intros Hin;
    repeat (apply elem_of_cons in Hin as [Hin|Hin]; [try done; by inversion Hin|]);
    by apply elem_of_nil in Hin.
Qed.

(** Either the store is untouched, or the resolved vote went through every
    gate and the store is what [AddWinningMasternode] made of it. *)
Lemma mnw_store_cases st pfrom_nVersion strCommand winner :
  (ProcessMessageMasternodePayments st pfrom_nVersion strCommand winner).1 = st
  ∨ ∃ tip,
      mnw_processed pfrom_nVersion strCommand tip
      ∧ mnw_in_window st tip winner
      ∧ CanVote st
          (CTxIn.prevout (CMasternodePaymentWinner.vinMasternode (resolve_winner winner).1))
          (CMasternodePaymentWinner.nBlockHeight (resolve_winner winner).1)
          (CMasternodePaymentWinner.payeeLevel (resolve_winner winner).1) = true
      ∧ SignatureValid (resolve_winner winner).1 = true
      ∧ (ProcessMessageMasternodePayments st pfrom_nVersion strCommand winner).1
        = (AddWinningMasternode st (resolve_winner winner).1).2.
Proof.
  unfold ProcessMessageMasternodePayments.
  destruct masternodeSync_IsBlockchainSynced eqn:Hsync; simpl; [|by left].
  destruct fLiteMode eqn:Hlite; [by left|].
  case_bool_decide as Hcmd; simpl; [|by left].
  destruct (pfrom_nVersion <? ActiveProtocol) eqn:Hver; [by left|].
  apply Z.ltb_ge in Hver.
  destruct cs_main_locked eqn:Hlock; [|by left].
  destruct chainActive_Tip as [tip|] eqn:Htip; [|by left].
  destruct (resolve_winner winner) as [w winner_mn] eqn:Hres.
  destruct winner_mn as [mn|]; [|by left].
  case_bool_decide as Hseen; [by left|].
  apply eq_None_not_Some in Hseen.
  destruct (_ || _) eqn:Hwin; [by left|].
  apply orb_false_iff in Hwin as [Hlo%Z.ltb_ge Hhi%Z.ltb_ge].
  destruct (IsValid w) as [[valid strError] effects] eqn:Hvalid.
  destruct valid; simpl; [|by left].
  destruct (CanVote st _ _ _) eqn:Hcan; simpl; [|by left].
  destruct (SignatureValid w) eqn:Hsig; simpl; [|by left].
  destruct (AddWinningMasternode st w) as [added st'] eqn:Hadd. simpl.
  right. exists tip. unfold mnw_processed, mnw_in_window. rewrite Hres.
  cbn [fst snd]. repeat split; done.
Qed.

(** A vote outside the window never changes the store. *)
Lemma mnw_out_of_window st pfrom_nVersion strCommand winner tip :
  chainActive_Tip = Some tip →
  CMasternodePaymentWinner.nBlockHeight (resolve_winner winner).1
    < nFirstBlock (CBlockIndex.nHeight tip)
        (CMasternodePaymentWinner.payeeLevel (resolve_winner winner).1)
  ∨ CBlockIndex.nHeight tip + 20
    < CMasternodePaymentWinner.nBlockHeight (resolve_winner winner).1 →
  (ProcessMessageMasternodePayments st pfrom_nVersion strCommand winner).1 = st.
Proof.
  intros Htip Hout.
  destruct (mnw_store_cases st pfrom_nVersion strCommand winner)
    as [?|(tip' & (_ & _ & _ & _ & _ & Htip') & (_ & _ & ? & ?) & _)]; [done|].
  assert (tip' = tip) as -> by congruence. lia.
Qed.

End HandlerProperties.

(** ** One voter, one vote *)
Section SingleVote.
Context `{Collaborators}.

Import CMasternodePayments.

Lemma AddWinningMasternode_votes st w :
  mapMasternodePayeeVotes (AddWinningMasternode st w).2 = mapMasternodePayeeVotes st
  ∨ (mapMasternodePayeeVotes st !! GetHash w = None
     ∧ mapMasternodePayeeVotes (AddWinningMasternode st w).2
       = <[GetHash w := w]> (mapMasternodePayeeVotes st)).
Proof.
  unfold AddWinningMasternode.
  destruct (GetBlockHash _); [|by left].
  case_bool_decide as Hseen; [by left|].
  right. split; [by apply eq_None_not_Some|done].
Qed.

(** Adding a vote whose slot is free keeps the slots distinct. *)
Lemma AddWinningMasternode_single_vote st w :
  single_vote st →
  (∀ hash w', mapMasternodePayeeVotes st !! hash = Some w' →
     ¬ same_slot (CTxIn.prevout (CMasternodePaymentWinner.vinMasternode w))
         (CMasternodePaymentWinner.nBlockHeight w)
         (CMasternodePaymentWinner.payeeLevel w) w') →
  single_vote (AddWinningMasternode st w).2.
Proof.
  intros Hsv Hfree.
  destruct (AddWinningMasternode_votes st w) as [Heq|[Hnew Heq]];
    unfold single_vote; rewrite Heq; [exact Hsv|].
  intros hash1 hash2 w1 w2 H1 H2 Hv Hh Hl.
  destruct (decide (GetHash w = hash1)) as [<-|Hn1];
    destruct (decide (GetHash w = hash2)) as [<-|Hn2]; [done| | |].
  - rewrite lookup_insert_eq in H1. rewrite lookup_insert_ne in H2 by done.
    injection H1 as <-. destruct (Hfree _ _ H2). unfold same_slot. naive_solver.
  - rewrite lookup_insert_eq in H2. rewrite lookup_insert_ne in H1 by done.
    injection H2 as <-. destruct (Hfree _ _ H1). unfold same_slot. naive_solver.
  - rewrite lookup_insert_ne in H1, H2 by done. eauto.
Qed.

Lemma CanVote_true st voter h mnlevel :
  CanVote st voter h mnlevel = true
  ↔ ∀ hash w, mapMasternodePayeeVotes st !! hash = Some w →
              ¬ same_slot voter h mnlevel w.
Proof. unfold CanVote. by rewrite bool_decide_eq_true. Qed.

Lemma mnw_single_vote st pfrom_nVersion strCommand winner :
  single_vote st →
  single_vote (ProcessMessageMasternodePayments st pfrom_nVersion strCommand winner).1.
Proof.
  intros Hsv.
  destruct (mnw_store_cases st pfrom_nVersion strCommand winner)
    as [->|(tip & _ & _ & Hcan & _ & ->)]; [done|].
  apply AddWinningMasternode_single_vote; [done|]. by apply CanVote_true.
Qed.

Lemma Sign_fields pubKeyMasternode w w' :
  Sign pubKeyMasternode w = Some w' →
  CMasternodePaymentWinner.vinMasternode w' = CMasternodePaymentWinner.vinMasternode w
  ∧ CMasternodePaymentWinner.nBlockHeight w' = CMasternodePaymentWinner.nBlockHeight w
  ∧ CMasternodePaymentWinner.payeeLevel w' = CMasternodePaymentWinner.payeeLevel w.
Proof.
  unfold Sign. destruct (SignMessage _); [|done].
  destruct (VerifyMessage _ _ _); [|done]. by intros [= <-].
Qed.

(** The tier loop of the producer: the votes of the active node at the
    produced height stay within the tiers already visited. *)
Lemma ProcessBlock_levels pubKeyMasternode nBlockHeight (levels : list N) :
  ∀ (visited : list N) st winners,
    NoDup (visited ++ levels) →
    single_vote st →
    (∀ hash w, mapMasternodePayeeVotes st !! hash = Some w →
       CTxIn.prevout (CMasternodePaymentWinner.vinMasternode w)
         = CTxIn.prevout activeMasternode_vin →
       CMasternodePaymentWinner.nBlockHeight w = nBlockHeight →
       CMasternodePaymentWinner.payeeLevel w ∈ visited) →
    single_vote
      (foldl (ProcessBlock_level pubKeyMasternode nBlockHeight) (st, winners) levels).1.
Proof.
  induction levels as [|mnlevel levels IH]; intros visited st winners Hnd Hsv Hvis;
    [done|].
  simpl.
  assert (NoDup ((visited ++ [mnlevel]) ++ levels)) as Hnd'.
  { by rewrite <- app_assoc. }
  assert (mnlevel ∉ visited) as Hfresh.
  { apply NoDup_app in Hnd as (_ & Hdisj & _). intros Hin.
    apply (Hdisj _ Hin). left. }
  destruct (mnodeman_GetNextMasternodeInQueueForPayment _ _) as [pmn|].
  2:{ apply (IH (visited ++ [mnlevel])); [done..|].
      intros. apply elem_of_app. left. eauto. }
  destruct (Sign _ _) as [newWinner|] eqn:Hsign.
  2:{ apply (IH (visited ++ [mnlevel])); [done..|].
      intros. apply elem_of_app. left. eauto. }
  apply Sign_fields in Hsign as (Hvin & Hh & Hl). simpl in Hvin, Hh, Hl.
  destruct (AddWinningMasternode st newWinner) as [added st'] eqn:Hadd.
  destruct added.
  2:{ apply (IH (visited ++ [mnlevel])); [done..|].
      intros. apply elem_of_app. left. eauto. }
  assert (st' = (AddWinningMasternode st newWinner).2) as -> by by rewrite Hadd.
  apply (IH (visited ++ [mnlevel])); [done| |].
  - apply AddWinningMasternode_single_vote; [done|].
    intros hash w' Hw' (Hv' & Hh' & Hl').
    apply Hfresh. rewrite <- Hl, <- Hl'.
    apply (Hvis hash w' Hw'); congruence.
  - intros hash w Hw Hv Hhw. apply elem_of_app.
    destruct (AddWinningMasternode_votes st newWinner) as [Heq|[_ Heq]];
      rewrite Heq in Hw; [left; eauto|].
    destruct (decide (GetHash newWinner = hash)) as [<-|Hne].
    + rewrite lookup_insert_eq in Hw. injection Hw as <-.
      right. rewrite Hl. apply list_elem_of_singleton. done.
    + rewrite lookup_insert_ne in Hw by done. left. eauto.
Qed.

Lemma ProcessBlock_single_vote st nBlockHeight :
  single_vote st →
  no_vote_at st (CTxIn.prevout activeMasternode_vin) nBlockHeight →
  single_vote (ProcessBlock st nBlockHeight).1.2.
Proof.
  intros Hsv Hfree. unfold ProcessBlock.
  destruct (negb fMasterNode); [done|].
  destruct (_ <=? _); [done|].
  destruct (_ =? -1); [done|].
  destruct (_ <? _); [done|].
  destruct SetKey as [pubKeyMasternode|]; [|done].
  destruct (budget_IsBudgetPaymentBlock nBlockHeight).
  { case_bool_decide; done. }
  pose proof (ProcessBlock_levels pubKeyMasternode nBlockHeight
                (levels_from LevelValue.MIN) [] st []) as Hloop.
  destruct (foldl _ _ _) as [st' winners].
  assert (single_vote st') as Hsv'.
  { apply Hloop; [|done|].
    - simpl. vm_compute. repeat constructor; set_solver.
    - intros hash w Hw Hv Hh. by destruct (Hfree hash w Hw Hv). }
  case_bool_decide; [done|]. exact Hsv'.
Qed.

(** The tier loop only adds votes for the produced height, and without a
    collected winner it has not touched the store. *)
Lemma ProcessBlock_levels_heights pubKeyMasternode nBlockHeight st0 (levels : list N) :
  ∀ st winners,
    (∀ hash w, mapMasternodePayeeVotes st !! hash = Some w →
       mapMasternodePayeeVotes st0 !! hash = Some w
       ∨ CMasternodePaymentWinner.nBlockHeight w = nBlockHeight) →
    (winners = [] → st = st0) →
    let r := foldl (ProcessBlock_level pubKeyMasternode nBlockHeight) (st, winners) levels in
    (∀ hash w, mapMasternodePayeeVotes r.1 !! hash = Some w →
       mapMasternodePayeeVotes st0 !! hash = Some w
       ∨ CMasternodePaymentWinner.nBlockHeight w = nBlockHeight)
    ∧ (r.2 = [] → r.1 = st0).
Proof.
  induction levels as [|mnlevel levels IH]; intros st winners Hvotes Hnone; [done|].
  simpl.
  destruct (mnodeman_GetNextMasternodeInQueueForPayment _ _) as [pmn|]; [|by apply IH].
  destruct (Sign _ _) as [newWinner|] eqn:Hsign; [|by apply IH].
  apply Sign_fields in Hsign as (_ & Hh & _). simpl in Hh.
  destruct (AddWinningMasternode st newWinner) as [added st'] eqn:Hadd.
  destruct added; [|by apply IH].
  apply IH.
  - intros hash w Hw.
    assert (st' = (AddWinningMasternode st newWinner).2) as -> by by rewrite Hadd.
    destruct (AddWinningMasternode_votes st newWinner) as [Heq|[_ Heq]];
      rewrite Heq in Hw; [by apply Hvotes|].
    destruct (decide (GetHash newWinner = hash)) as [<-|Hne].
    + rewrite lookup_insert_eq in Hw. injection Hw as <-. by right.
    + rewrite lookup_insert_ne in Hw by done. by apply Hvotes.
  - intros [_ [=]]%app_eq_nil.
Qed.

(** A run of the producer leaves the store alone, or moves
    [nLastBlockHeight] up to the produced height and adds votes for that
    height only. *)
Lemma ProcessBlock_heights st nBlockHeight :
  (ProcessBlock st nBlockHeight).1.2 = st
  ∨ (nLastBlockHeight st < nBlockHeight
     ∧ nLastBlockHeight (ProcessBlock st nBlockHeight).1.2 = nBlockHeight
     ∧ ∀ hash w,
         mapMasternodePayeeVotes (ProcessBlock st nBlockHeight).1.2 !! hash = Some w →
         mapMasternodePayeeVotes st !! hash = Some w
         ∨ CMasternodePaymentWinner.nBlockHeight w = nBlockHeight).
Proof.
  unfold ProcessBlock.
  destruct (negb fMasterNode); [by left|].
  destruct (_ <=? _) eqn:Hlast; [by left|]. apply Z.leb_gt in Hlast.
  destruct (_ =? -1); [by left|].
  destruct (_ <? _); [by left|].
  destruct SetKey as [pubKeyMasternode|]; [|by left].
  destruct (budget_IsBudgetPaymentBlock nBlockHeight).
  { left. by case_bool_decide. }
  pose proof (ProcessBlock_levels_heights pubKeyMasternode nBlockHeight st
                (levels_from LevelValue.MIN) st []) as Hloop.
  destruct (foldl _ _ _) as [st' winners]. simpl in Hloop.
  destruct Hloop as [Hvotes Hnone]; [by left|done|].
  case_bool_decide as Hw; [left; by apply Hnone|].
  right. simpl. split; [lia|]. split; [done|]. exact Hvotes.
Qed.

End SingleVote.

Lemma reachable_producer_inv st :
  reachable_producer st →
  single_vote st
  ∧ ∀ hash w, CMasternodePayments.mapMasternodePayeeVotes st !! hash = Some w →
              CMasternodePaymentWinner.nBlockHeight w
              ≤ CMasternodePayments.nLastBlockHeight st.
Proof.
  induction 1 as [|C st h _ [IHsv IHh]].
  - split; intros ?; intros; simplify_map_eq.
  - destruct (@ProcessBlock_heights C st h) as [->|(Hlt & Hlast & Hvotes)]; [done|].
    split.
    + apply (@ProcessBlock_single_vote C); [done|].
      intros hash w Hw _ Hh. specialize (IHh hash w Hw). lia.
    + intros hash w Hw. rewrite Hlast.
      destruct (Hvotes hash w Hw) as [Hold|Hnew]; [|lia].
      specialize (IHh hash w Hold). lia.
Qed.


(** C4, as the code has it.  The handler gates admission on [CanVote], so
    every state reached by inbound messages has at most one vote per voter,
    height and tier, and each message preserves that.  The producer checks
    only [nLastBlockHeight] and the vote hash: a run of it preserves the
    invariant when the store holds no vote of the active node at the
    produced height, as it does in every state the producer reaches on its
    own. *)
Theorem single_vote_reachable_mnw :
  (∀ st, reachable_mnw st → single_vote st)
  ∧ (∀ st, reachable_producer st → single_vote st)
  ∧ (∀ (C : Collaborators) st pfrom_nVersion strCommand winner,
       single_vote st →
       single_vote (ProcessMessageMasternodePayments st pfrom_nVersion strCommand winner).1)
  ∧ (∀ (C : Collaborators) st nBlockHeight,
       single_vote st →
       no_vote_at st (CTxIn.prevout activeMasternode_vin) nBlockHeight →
       single_vote (ProcessBlock st nBlockHeight).1.2).
Proof.
  split; [|split; [|split]].
  - intros st Hr. induction Hr as [|C st v cmd w _ IH].
    + intros ? ? ? ? Hw. simpl in Hw. by rewrite lookup_empty in Hw.
    + by apply (@mnw_single_vote C).
  - intros st Hr. by apply reachable_producer_inv in Hr as [? _].
  - intros C. apply (@mnw_single_vote C).
  - intros C. apply (@ProcessBlock_single_vote C).
Qed.

(** ** The horizon *)
Section Horizon.
Context `{Collaborators}.

Import CMasternodePayments.

(** For a tip at or above 1.25 times the enabled count the first admitted
    height is the tip minus the count scaled by 1.25 and rounded up. *)
Lemma nFirstBlock_ceil nHeight mnlevel :
  0 ≤ mnodeman_CountEnabled mnlevel →
  mnodeman_CountEnabled mnlevel * 5 ≤ nHeight * 4 →
  nFirstBlock nHeight mnlevel = nHeight - (mnodeman_CountEnabled mnlevel * 5 + 3) `div` 4.
Proof.
  intros Hc Hle. unfold nFirstBlock.
  rewrite Z.quot_div_nonneg by lia.
  set (c := mnodeman_CountEnabled mnlevel) in *.
  Z.to_euclidean_division_equations. lia.
Qed.

(** C5, as the code has it.  After [CleanPaymentList] (lock taken, tip
    known) every vote left was there before and is at most [nLimit] below
    the tip, [nLimit] being the larger of 1000 and 1.25 times the registry
    size rounded down; every vote further below is gone together with the
    tally of its height, every other vote stays.  Pruning sets no upper
    bound: that one, [tip + 20], and the lower bound [nFirstBlock] are
    applied by the handler, which leaves the store untouched for a vote
    outside them. *)
Theorem CleanPaymentList_horizon (st : t) (tip : CBlockIndex.t) :
  cs_main_locked = true →
  chainActive_Tip = Some tip →
  (∀ hash w, mapMasternodePayeeVotes (CleanPaymentList st) !! hash = Some w →
     mapMasternodePayeeVotes st !! hash = Some w
     ∧ CBlockIndex.nHeight tip - nLimit ≤ CMasternodePaymentWinner.nBlockHeight w)
  ∧ (∀ hash w, mapMasternodePayeeVotes st !! hash = Some w →
       nLimit < CBlockIndex.nHeight tip - CMasternodePaymentWinner.nBlockHeight w →
       mapMasternodePayeeVotes (CleanPaymentList st) !! hash = None
       ∧ mapMasternodeBlocks (CleanPaymentList st)
           !! CMasternodePaymentWinner.nBlockHeight w = None)
  ∧ (∀ hash w, mapMasternodePayeeVotes st !! hash = Some w →
       CBlockIndex.nHeight tip - CMasternodePaymentWinner.nBlockHeight w ≤ nLimit →
       mapMasternodePayeeVotes (CleanPaymentList st) !! hash = Some w)
  ∧ (0 ≤ mnodeman_size → nLimit = Z.max ((mnodeman_size * 5) `div` 4) 1000)
  ∧ (∀ pfrom_nVersion strCommand winner,
       CMasternodePaymentWinner.nBlockHeight (resolve_winner winner).1
         < nFirstBlock (CBlockIndex.nHeight tip)
             (CMasternodePaymentWinner.payeeLevel (resolve_winner winner).1)
       ∨ CBlockIndex.nHeight tip + 20
         < CMasternodePaymentWinner.nBlockHeight (resolve_winner winner).1 →
       (ProcessMessageMasternodePayments st pfrom_nVersion strCommand winner).1 = st).
Proof.
  intros Hlock Htip. unfold CleanPaymentList. rewrite Hlock, Htip.
  destruct (CleanPaymentList_loop (CBlockIndex.nHeight tip) st
              (mapMasternodePayeeVotes st)) as (Hv & Hrm & _ & _).
  split; [|split; [|split; [|split]]].
  - intros hash w Hw. rewrite Hv in Hw.
    destruct (mapMasternodePayeeVotes st !! hash) as [w'|] eqn:Hst; [|done].
    case_decide as Ha; [done|]. injection Hw as ->. split; [done|].
    unfold aged_out in Ha. lia.
  - intros hash w Hw Hold. split.
    + rewrite Hv, Hw. by rewrite decide_True.
    + apply Hrm. by exists hash, w.
  - intros hash w Hw Hyoung. rewrite Hv, Hw. rewrite decide_False; [done|].
    unfold aged_out. lia.
  - intros Hsz. unfold nLimit. rewrite Z.quot_div_nonneg by lia. done.
  - intros. by eapply mnw_out_of_window.
Qed.

End Horizon.

(** ** Peer scoring *)
Section Misbehavior.
Context `{Collaborators}.

Import CMasternodePayments.

Lemma mnw_scores st pfrom_nVersion strCommand winner score :
  Misbehaving score
    ∈ (ProcessMessageMasternodePayments st pfrom_nVersion strCommand winner).2 →
  score = 20 ∧ masternodeSync_IsSynced = true.
Proof.
  unfold ProcessMessageMasternodePayments.
  destruct (negb masternodeSync_IsBlockchainSynced); [by intros ?%elem_of_nil|].
  destruct fLiteMode; [by intros ?%elem_of_nil|].
  destruct (negb _); [by intros ?%elem_of_nil|].
  destruct (_ <? _); [by intros ?%elem_of_nil|].
  destruct cs_main_locked; [|by intros ?%elem_of_nil].
  destruct chainActive_Tip; [|by intros ?%elem_of_nil].
  destruct (resolve_winner winner) as [w winner_mn].
  destruct winner_mn.
  2:{ simpl. intros [?|Hin%list_elem_of_singleton]%elem_of_cons; [done|].
      by case_bool_decide. }
  case_bool_decide.
  { simpl. intros [?|Hin%list_elem_of_singleton]%elem_of_cons; done. }
  destruct (_ || _).
  { simpl. by intros Hin%list_elem_of_singleton. }
  pose proof (IsValid_scores w score) as Hvalid.
  destruct (IsValid w) as [[valid strError] effects]. simpl in Hvalid.
  destruct valid; simpl.
  2:{ intros [?|Hin]%elem_of_app; [by auto|].
      case_bool_decide; [by apply list_elem_of_singleton in Hin|by apply elem_of_nil in Hin]. }
  destruct (CanVote _ _ _ _); simpl.
  2:{ intros [?|Hin%list_elem_of_singleton]%elem_of_app; [by auto|done]. }
  destruct (SignatureValid w); simpl.
  2:{ intros [?|[Hin|Hin%list_elem_of_singleton]%elem_of_app]%elem_of_app;
        [by auto| |done].
      destruct masternodeSync_IsSynced; [|by apply elem_of_nil in Hin].
      apply elem_of_cons in Hin as [?|Hin]; [done|].
      destruct cs_main_locked_late; [|by apply elem_of_nil in Hin].
      apply list_elem_of_singleton in Hin. by injection Hin as ->. }
  destruct (AddWinningMasternode st w) as [added st'].
  intros [?|[?|Hin]%elem_of_cons]%elem_of_app; [by auto|done|].
  destruct added; [|by apply elem_of_nil in Hin].
  apply elem_of_cons in Hin as [?|Hin%list_elem_of_singleton]; done.
Qed.

(** C9, as the code has it.  The scores 2 and 1 are commented out in the
    handler: an unknown payee only triggers the registry refresh, a second
    vote of a voter for a (height, tier) is dropped without a score.  A bad
    signature costs 20 when the node is synced and the chain lock is taken,
    and always asks for the voter's node.  Whatever the message, 20 is the
    only score the handler assesses. *)
Theorem mnw_misbehavior (st : t) (pfrom_nVersion : Z) (strCommand : string)
    (winner : CMasternodePaymentWinner.t) (tip : CBlockIndex.t) :
  mnw_processed pfrom_nVersion strCommand tip →
  ((resolve_winner winner).2 = None →
   ProcessMessageMasternodePayments st pfrom_nVersion strCommand winner
   = (st, [LogPrint "mnw - unknown payee";
           if bool_decide (CMasternodePaymentWinner.payeeVin winner = CTxIn.empty)
           then DsegUpdate
           else AskForMN (CMasternodePaymentWinner.payeeVin winner)]))
  ∧ (mnw_in_window st tip winner →
     (IsValid (resolve_winner winner).1).1.1 = true →
     CanVote st
       (CTxIn.prevout (CMasternodePaymentWinner.vinMasternode (resolve_winner winner).1))
       (CMasternodePaymentWinner.nBlockHeight (resolve_winner winner).1)
       (CMasternodePaymentWinner.payeeLevel (resolve_winner winner).1) = false →
     ProcessMessageMasternodePayments st pfrom_nVersion strCommand winner
     = (st, [LogPrint "mnw - already voted"]))
  ∧ (mnw_in_window st tip winner →
     (IsValid (resolve_winner winner).1).1.1 = true →
     CanVote st
       (CTxIn.prevout (CMasternodePaymentWinner.vinMasternode (resolve_winner winner).1))
       (CMasternodePaymentWinner.nBlockHeight (resolve_winner winner).1)
       (CMasternodePaymentWinner.payeeLevel (resolve_winner winner).1) = true →
     SignatureValid (resolve_winner winner).1 = false →
     ProcessMessageMasternodePayments st pfrom_nVersion strCommand winner
     = (st, (if masternodeSync_IsSynced
             then LogPrint "mnw - invalid signature"
                  :: (if cs_main_locked_late then [Misbehaving 20] else [])
             else [])
            ++ [AskForMN (CMasternodePaymentWinner.vinMasternode (resolve_winner winner).1)]))
  ∧ (∀ score,
       Misbehaving score
         ∈ (ProcessMessageMasternodePayments st pfrom_nVersion strCommand winner).2 →
       score = 20 ∧ masternodeSync_IsSynced = true).
Proof.
  intros (Hsync & Hlite & Hcmd & Hver & Hlock & Htip).
  assert (∀ X (a b : X),
            (if negb masternodeSync_IsBlockchainSynced then a
             else if fLiteMode then a
             else if negb (bool_decide (strCommand = "mnw")) then a
             else if pfrom_nVersion <? ActiveProtocol then a else b) = b) as Hentry.
  { intros X a b. rewrite Hsync, Hlite. simpl.
    rewrite bool_decide_eq_true_2 by done. simpl.
    by rewrite (proj2 (Z.ltb_ge _ _) Hver). }
  split; [|split; [|split]].
  - intros Hnone. unfold ProcessMessageMasternodePayments.
    rewrite Hentry, Hlock, Htip.
    assert ((resolve_winner winner).1 = winner) as Hsame.
    { revert Hnone. unfold resolve_winner.
      destruct (bool_decide (CMasternodePaymentWinner.payeeVin winner = CTxIn.empty));
        [|done].
      destruct (mnodeman_Find_script _); simpl; [intros [=]|done]. }
    destruct (resolve_winner winner) as [w winner_mn]. simpl in *.
    by subst.
  - intros ([mn Hmn] & Hseen & Hlo & Hhi) Hvalid Hcan.
    unfold ProcessMessageMasternodePayments. rewrite Hentry, Hlock, Htip.
    apply IsValid_true_quiet in Hvalid.
    destruct (resolve_winner winner) as [w winner_mn]. simpl in *. subst.
    rewrite bool_decide_eq_false_2 by (rewrite Hseen; by intros [? ?]).
    rewrite (proj2 (Z.ltb_ge _ _) Hlo), (proj2 (Z.ltb_ge _ _) Hhi). simpl.
    by rewrite Hvalid, Hcan.
  - intros ([mn Hmn] & Hseen & Hlo & Hhi) Hvalid Hcan Hsig.
    unfold ProcessMessageMasternodePayments. rewrite Hentry, Hlock, Htip.
    apply IsValid_true_quiet in Hvalid.
    destruct (resolve_winner winner) as [w winner_mn]. simpl in *. subst.
    rewrite bool_decide_eq_false_2 by (rewrite Hseen; by intros [? ?]).
    rewrite (proj2 (Z.ltb_ge _ _) Hlo), (proj2 (Z.ltb_ge _ _) Hhi). simpl.
    by rewrite Hvalid, Hcan, Hsig.
  - apply mnw_scores.
Qed.

End Misbehavior.

(** ** The builder *)
Section BuilderProperties.
Context `{Collaborators}.

Lemma sum_nValue_app l k : sum_nValue (l ++ k) = sum_nValue l + sum_nValue k.
Proof. induction l as [|o l IH]; simpl; lia. Qed.

Lemma sum_nValue_insert l j o o' :
  l !! j = Some o →
  sum_nValue (<[j:=o']> l) = sum_nValue l - CTxOut.nValue o + CTxOut.nValue o'.
Proof.
  revert j. induction l as [|a l IH]; intros [|j] Hj; simpl in *; simplify_eq; [lia|].
  rewrite (IH j Hj). lia.
Qed.

Lemma sub_nValue_Some j amount (l : list CTxOut.t) :
  (j < length l)%nat →
  ∃ l', sub_nValue j amount l = Some l'
    ∧ sum_nValue l' = sum_nValue l - amount
    ∧ CTxOut.scriptPubKey <$> l' = CTxOut.scriptPubKey <$> l
    ∧ length l' = length l
    ∧ ∀ k, k ≠ j → l' !! k = l !! k.
Proof.
  intros Hj. destruct (lookup_lt_is_Some_2 l j Hj) as [o Ho].
  unfold sub_nValue. rewrite Ho. eexists. split; [done|].
  split; [|split; [|split]].
  - rewrite (sum_nValue_insert _ _ _ _ Ho). simpl. lia.
  - rewrite list_fmap_insert. simpl. apply list_insert_id.
    by rewrite list_lookup_fmap, Ho.
  - apply length_insert.
  - intros k Hk. by apply list_lookup_insert_ne.
Qed.

(** The split-stake loop: every listed output is charged [amount]. *)
Lemma sub_nValue_loop amount (js : list nat) : ∀ l : list CTxOut.t,
  Forall (λ j, (j < length l)%nat) js →
  ∃ l', foldl (λ acc j, acc ≫= sub_nValue j amount) (Some l) js = Some l'
    ∧ sum_nValue l' = sum_nValue l - amount * Z.of_nat (length js)
    ∧ CTxOut.scriptPubKey <$> l' = CTxOut.scriptPubKey <$> l
    ∧ length l' = length l
    ∧ ∀ k, k ∉ js → l' !! k = l !! k.
Proof.
  induction js as [|j js IH]; intros l Hjs.
  - exists l. simpl. repeat split; [lia|done..].
  - apply Forall_cons in Hjs as [Hj Hjs].
    destruct (sub_nValue_Some j amount l Hj) as (l1 & Hl1 & Hs1 & Hc1 & Hn1 & Hk1).
    destruct (IH l1) as (l' & Hl' & Hs' & Hc' & Hn' & Hk').
    { by rewrite Hn1. }
    exists l'. simpl. rewrite Hl1. split; [done|].
    split; [|split; [|split]].
    + rewrite Hs', Hs1. lia.
    + by rewrite Hc', Hc1.
    + by rewrite Hn', Hn1.
    + intros k Hk. apply not_elem_of_cons in Hk as [? ?].
      rewrite Hk' by done. by apply Hk1.
Qed.

(** One proof-of-stake payment: appended, and charged to the stake outputs
    [1 .. outputs] unless the stake output is a zerocoin mint. *)
Lemma pay_stake_spec payee p (vout : list CTxOut.t) level outputs outputs' :
  outputs' = (if (level =? 1)%N
              then Z.to_N ((Z.of_nat (length vout) - 1) `mod` 2 ^ 32) else outputs) →
  (1 ≤ length vout)%nat →
  (N.to_nat outputs' < length vout)%nat →
  ∃ vout',
    pay_stake payee p (vout, level, outputs) = Some (vout', (level + 1)%N, outputs')
    ∧ CTxOut.scriptPubKey <$> vout' = (CTxOut.scriptPubKey <$> vout) ++ [payee]
    ∧ (∀ k, (N.to_nat outputs' < k)%nat → vout' !! k = (vout ++ [CTxOut.mk p payee]) !! k)
    ∧ ((∀ out1, vout !! 1%nat = Some out1 →
          IsZerocoinMint (CTxOut.scriptPubKey out1) = false) →
       (2 ≤ length vout)%nat → (1 ≤ outputs')%N →
       sum_nValue vout' = sum_nValue vout).
Proof.
  intros Hout Hn Hlt. unfold pay_stake. rewrite <- Hout.
  set (vout1 := vout ++ [CTxOut.mk p payee]).
  assert (length vout1 = S (length vout)) as Hlen1.
  { unfold vout1. rewrite length_app. simpl. lia. }
  assert (sum_nValue vout1 = sum_nValue vout + p) as Hsum1.
  { unfold vout1. rewrite sum_nValue_app. simpl. lia. }
  assert (CTxOut.scriptPubKey <$> vout1 = (CTxOut.scriptPubKey <$> vout) ++ [payee]) as Hscr1.
  { unfold vout1. by rewrite fmap_app. }
  destruct (lookup_lt_is_Some_2 vout1 1) as [out1 Hout1]; [lia|].
  rewrite Hout1.
  destruct (negb (IsZerocoinMint (CTxOut.scriptPubKey out1))) eqn:Hmint.
  2:{ exists vout1. simpl. split; [done|]. split; [done|]. split; [done|].
      intros Hnm Hn2 _. exfalso.
      unfold vout1 in Hout1. rewrite lookup_app_l in Hout1 by lia.
      rewrite (Hnm _ Hout1) in Hmint. done. }
  destruct (outputs' =? 1)%N eqn:H1.
  { apply N.eqb_eq in H1.
    destruct (sub_nValue_Some 1 p vout1) as (l' & Hl' & Hs' & Hc' & Hn' & Hk'); [lia|].
    exists l'. rewrite Hl'. simpl. split; [done|]. split; [congruence|].
    split; [intros k Hk; apply Hk'; lia|]. intros. lia. }
  destruct (1 <? outputs')%N eqn:H2.
  2:{ exists vout1. simpl. split; [done|]. split; [done|]. split; [done|].
      intros _ _ Hge. apply N.eqb_neq in H1. apply N.ltb_ge in H2. lia. }
  apply N.ltb_lt in H2.
  destruct (sub_nValue_loop (Z.quot p (Z.of_N outputs')) (seq 1 (N.to_nat outputs')) vout1)
    as (l1 & Hl1 & Hs1 & Hc1 & Hn1 & Hk1).
  { apply Forall_forall. intros j Hj%elem_of_seq. lia. }
  destruct (sub_nValue_Some (N.to_nat outputs')
              (p - Z.quot p (Z.of_N outputs') * Z.of_N outputs') l1)
    as (l' & Hl' & Hs' & Hc' & Hn' & Hk'); [lia|].
  exists l'. rewrite Hl1. simpl. rewrite Hl'. simpl.
  split; [done|]. split; [congruence|]. split.
  - intros k Hk. rewrite Hk' by lia. apply Hk1. rewrite elem_of_seq. lia.
  - intros _ _ _. rewrite Hs', Hs1, Hsum1, length_seq. lia.
Qed.

(** One proof-of-work payment at [level] 1: the outputs become the block value
    less the payment, and the payment. *)
Lemma pay_work_first nBlockValue payee p (vout : list CTxOut.t) outputs :
  ∃ out0,
    pay_work nBlockValue payee p (vout, 1%N, outputs)
    = Some ([CTxOut.mk (nBlockValue - p) out0; CTxOut.mk p payee], 2%N, outputs).
Proof.
  unfold pay_work. destruct vout as [|a [|b rest]]; simpl;
    rewrite ?resize_0; eexists; reflexivity.
Qed.

(** A later proof-of-work payment extends the outputs by one and charges
    [vout[0]]. *)
Lemma pay_work_next nBlockValue payee p (vout : list CTxOut.t) level outputs :
  (1 < level)%N →
  length vout = N.to_nat level →
  ∃ vout',
    pay_work nBlockValue payee p (vout, level, outputs) = Some (vout', (level + 1)%N, outputs)
    ∧ length vout' = N.to_nat (level + 1)
    ∧ sum_nValue vout' = sum_nValue vout
    ∧ vout' !! length vout = Some (CTxOut.mk p payee)
    ∧ ∀ k, (1 ≤ k < length vout)%nat → vout' !! k = vout !! k.
Proof.
  intros Hlevel Hlen. unfold pay_work.
  destruct (level =? 1)%N eqn:E; [apply N.eqb_eq in E; lia|].
  rewrite resize_ge by lia.
  replace (1 + N.to_nat level - length vout)%nat with 1%nat by lia.
  rewrite <- Hlen. simpl replicate.
  rewrite insert_app_r_alt by lia. rewrite Nat.sub_diag. simpl.
  destruct vout as [|a rest]; [simpl in Hlen; lia|].
  eexists. split; [done|]. simpl.
  split; [rewrite length_app; simpl in *; lia|].
  split; [rewrite !sum_nValue_app; simpl; lia|].
  split.
  - rewrite lookup_app_r by lia. by rewrite Nat.sub_diag.
  - intros [|k] Hk; [lia|]. simpl. rewrite lookup_app_l by lia. done.
Qed.

(** The tier loop threads an invariant that every payment preserves. *)
Lemma FillBlockPayee_fold (Inv : fill_state → list CTxOut.t → Prop)
    st nHeight (fProofOfStake fZSPLStake : bool) nBlockValue :
  (∀ s paid payee p, Inv s paid →
     ∃ s', (if fProofOfStake then pay_stake payee p s
            else pay_work nBlockValue payee p s) = Some s'
           ∧ Inv s' (paid ++ [CTxOut.mk p payee])) →
  ∀ levels s paid, Inv s paid →
    ∃ s', foldl (FillBlockPayee_level st nHeight fProofOfStake fZSPLStake nBlockValue)
            (Some s) levels = Some s'
          ∧ Inv s' (paid ++ payments st nHeight fProofOfStake fZSPLStake nBlockValue levels).
Proof.
  intros Hstep levels. induction levels as [|mnlevel levels IH]; intros s paid Hinv.
  - exists s. unfold payments. simpl. by rewrite app_nil_r.
  - simpl. unfold payments. simpl. fold (payments st nHeight fProofOfStake fZSPLStake
                                          nBlockValue levels).
    destruct (select_payee st nHeight mnlevel) as [payee|]; simpl.
    + destruct (Hstep s paid payee
                  (GetMasternodePayment nHeight nBlockValue fProofOfStake mnlevel 0
                     fZSPLStake) Hinv) as (s' & Hs' & Hinv').
      assert ((if fProofOfStake
               then pay_stake payee (GetMasternodePayment nHeight nBlockValue fProofOfStake
                                       mnlevel 0 fZSPLStake) s
               else pay_work nBlockValue payee
                      (GetMasternodePayment nHeight nBlockValue fProofOfStake mnlevel 0
                         fZSPLStake) s) = Some s') as -> by exact Hs'.
      destruct (IH s' _ Hinv') as (s'' & Hs'' & Hinv'').
      exists s''. split; [done|]. by rewrite <- app_assoc in Hinv''.
    + apply IH, Hinv.
Qed.

Lemma pay_work_inv v0 nBlockValue s paid payee p :
  work_inv v0 nBlockValue s paid →
  ∃ s', pay_work nBlockValue payee p s = Some s'
        ∧ work_inv v0 nBlockValue s' (paid ++ [CTxOut.mk p payee]).
Proof.
  destruct s as [[vout level] outputs]. unfold work_inv. cbn [fst snd].
  intros [(-> & -> & ->)|(Hlevel & _ & Hlen & Hsum & Hpaid)].
  - destruct (pay_work_first nBlockValue payee p v0 outputs) as [out0 ->].
    eexists. split; [done|]. right. simpl.
    split; [lia|]. split; [done|]. split; [done|]. split; [lia|].
    intros out ->%list_elem_of_singleton. by exists 1%nat.
  - destruct (pay_work_next nBlockValue payee p vout level outputs Hlevel Hlen)
      as (vout' & -> & Hlen' & Hsum' & Hnew & Hold).
    eexists. split; [done|]. right. simpl.
    split; [lia|]. split; [intros [_ [=]]%app_eq_nil|]. split; [done|]. split; [lia|].
    intros out [Hin| ->%list_elem_of_singleton]%elem_of_app.
    + destruct (Hpaid out Hin) as (k & Hk & Hout). exists k. split; [done|].
      rewrite Hold; [done|]. apply lookup_lt_Some in Hout. lia.
    + exists (length vout). split; [lia|done].
Qed.

Lemma pay_stake_inv v0 s paid payee p :
  (1 ≤ length v0)%nat →
  Z.of_nat (length v0) < 2 ^ 32 →
  stake_inv v0 s paid →
  ∃ s', pay_stake payee p s = Some s'
        ∧ stake_inv v0 s' (paid ++ [CTxOut.mk p payee]).
Proof.
  intros Hn0 Hbound. destruct s as [[vout level] outputs]. unfold stake_inv.
  cbn [fst snd].
  intros [(-> & -> & ->)|(Hlevel & _ & Hout & Hlen & Hscr & Hsum & Hpaid)].
  - destruct (pay_stake_spec payee p v0 1%N outputs (N.of_nat (length v0 - 1)))
      as (vout' & Hpay & Hscr' & Hkeep & Hsum'); [|done|lia|].
    { simpl. rewrite Z.mod_small by lia. lia. }
    eexists. split; [exact Hpay|]. right. simpl.
    assert (length vout' = S (length v0)) as Hlen'.
    { rewrite <- (length_fmap CTxOut.scriptPubKey vout'), Hscr', length_app, length_fmap.
      simpl. lia. }
    split; [lia|]. split; [done|]. split; [done|]. split; [lia|]. split; [|split].
    + rewrite Hscr', take_app_length'; [done|]. by rewrite length_fmap.
    + intros [Hn2 Hmint]. apply Hsum'; [done|done|lia].
    + intros out ->%list_elem_of_singleton. exists (length v0). split; [done|].
      rewrite Hkeep by lia. rewrite lookup_app_r by lia. by rewrite Nat.sub_diag.
  - destruct (pay_stake_spec payee p vout level outputs outputs)
      as (vout' & Hpay & Hscr' & Hkeep & Hsum'); [|lia|lia|].
    { destruct (level =? 1)%N eqn:E; [apply N.eqb_eq in E; lia|done]. }
    eexists. split; [exact Hpay|]. right. simpl.
    assert (length vout' = S (length vout)) as Hlen'.
    { rewrite <- (length_fmap CTxOut.scriptPubKey vout'), Hscr', length_app, length_fmap.
      simpl. lia. }
    split; [lia|]. split; [intros [_ [=]]%app_eq_nil|]. split; [done|]. split; [lia|].
    split; [|split].
    + rewrite Hscr', take_app_le; [done|]. by rewrite length_fmap.
    + intros [Hn2 Hmint]. rewrite <- (Hsum (conj Hn2 Hmint)).
      apply Hsum'; [|lia|lia].
      intros out1 Hout1.
      assert ((CTxOut.scriptPubKey <$> v0) !! 1%nat = Some (CTxOut.scriptPubKey out1)) as Hs1.
      { rewrite <- Hscr, lookup_take_lt by lia. by rewrite list_lookup_fmap, Hout1. }
      rewrite list_lookup_fmap in Hs1.
      destruct (v0 !! 1%nat) as [o|] eqn:Ho; [|done].
      injection Hs1 as <-. by apply Hmint.
    + intros out [Hin| ->%list_elem_of_singleton]%elem_of_app.
      * destruct (Hpaid out Hin) as (k & Hk & Hout'). exists k. split; [done|].
        rewrite Hkeep by lia. rewrite lookup_app_l; [done|].
        by apply lookup_lt_Some in Hout'.
      * exists (length vout). split; [lia|].
        rewrite Hkeep by lia. rewrite lookup_app_r by lia. by rewrite Nat.sub_diag.
Qed.

(** What the builder returns, in both modes. *)
Lemma FillBlockPayee_spec st txNew nFees (fProofOfStake fZSPLStake : bool) nBlockValue
    pindexPrev :
  chainActive_Tip = Some pindexPrev →
  (fProofOfStake = true →
   (1 ≤ length (CTransaction.vout txNew))%nat
   ∧ Z.of_nat (length (CTransaction.vout txNew)) < 2 ^ 32) →
  ∃ txNew',
    FillBlockPayee st txNew nFees fProofOfStake fZSPLStake nBlockValue = Some txNew'
    ∧ CTransaction.vin txNew' = CTransaction.vin txNew
    ∧ (∀ out, out ∈ payments st (CBlockIndex.nHeight pindexPrev + 1) fProofOfStake
                      fZSPLStake nBlockValue paid_levels →
              out ∈ CTransaction.vout txNew')
    ∧ (payments st (CBlockIndex.nHeight pindexPrev + 1) fProofOfStake fZSPLStake
         nBlockValue paid_levels = [] →
       CTransaction.vout txNew' = CTransaction.vout txNew)
    ∧ (fProofOfStake = false →
       payments st (CBlockIndex.nHeight pindexPrev + 1) fProofOfStake fZSPLStake
         nBlockValue paid_levels ≠ [] →
       sum_nValue (CTransaction.vout txNew') = nBlockValue)
    ∧ (fProofOfStake = true →
       stake_chargeable (CTransaction.vout txNew) →
       sum_nValue (CTransaction.vout txNew') = sum_nValue (CTransaction.vout txNew)).
Proof.
  intros Htip Hstake. unfold FillBlockPayee. rewrite Htip. cbv zeta.
  fold paid_levels.
  set (h := CBlockIndex.nHeight pindexPrev + 1).
  set (pays := payments st h fProofOfStake fZSPLStake nBlockValue paid_levels).
  destruct fProofOfStake.
  - destruct (Hstake eq_refl) as [Hn0 Hbound].
    destruct (FillBlockPayee_fold (stake_inv (CTransaction.vout txNew)) st h true
                fZSPLStake nBlockValue) with (levels := paid_levels)
      (s := (CTransaction.vout txNew, 1%N, 1%N)) (paid := @nil CTxOut.t)
      as ([[vout' level'] outputs'] & Hfold & Hinv).
    { intros s paid payee p. by apply pay_stake_inv. }
    { left. done. }
    unfold stake_inv, work_inv in Hinv. cbn [fst snd app] in Hinv. fold pays in Hinv.
    exists (CTransaction.mk (CTransaction.vin txNew) vout').
    split; [exact (f_equal (fmap _) Hfold)|]. simpl.
    split; [done|].
    destruct Hinv as [(_ & -> & ->)|(_ & Hne & _ & _ & _ & Hsum & Hpaid)]; simpl in *.
    + split; [by intros ? ?%elem_of_nil|]. done.
    + split; [|split; [done|split; [done|by intros _]]].
      intros out Hin. destruct (Hpaid out Hin) as (k & _ & Hk).
      by apply list_elem_of_lookup_2 in Hk.
  - destruct (FillBlockPayee_fold (work_inv (CTransaction.vout txNew) nBlockValue) st h
                false fZSPLStake nBlockValue) with (levels := paid_levels)
      (s := (CTransaction.vout txNew, 1%N, 1%N)) (paid := @nil CTxOut.t)
      as ([[vout' level'] outputs'] & Hfold & Hinv).
    { intros s paid payee p. by apply pay_work_inv. }
    { left. done. }
    unfold stake_inv, work_inv in Hinv. cbn [fst snd app] in Hinv. fold pays in Hinv.
    exists (CTransaction.mk (CTransaction.vin txNew) vout').
    split; [exact (f_equal (fmap _) Hfold)|]. simpl.
    split; [done|].
    destruct Hinv as [(_ & -> & ->)|(_ & Hne & _ & Hsum & Hpaid)]; simpl in *.
    + split; [by intros ? ?%elem_of_nil|]. done.
    + split; [|split; [done|split; [by intros _ _|done]]].
      intros out Hin. destruct (Hpaid out Hin) as (k & _ & Hk).
      by apply list_elem_of_lookup_2 in Hk.
Qed.

(** [sub_nValue] inside the list. *)
Lemma sub_nValue_lookup j amount (l : list CTxOut.t) o :
  l !! j = Some o →
  sub_nValue j amount l
  = Some (<[j := CTxOut.mk (CTxOut.nValue o - amount) (CTxOut.scriptPubKey o)]> l).
Proof. intros Ho. unfold sub_nValue. by rewrite Ho. Qed.

(** The split-stake loop, output by output. *)
Lemma sub_nValue_loop_lookup amount (js : list nat) : ∀ l : list CTxOut.t,
  Forall (λ j, (j < length l)%nat) js →
  NoDup js →
  ∃ l', foldl (λ acc j, acc ≫= sub_nValue j amount) (Some l) js = Some l'
    ∧ length l' = length l
    ∧ ∀ k, l' !! k
           = (λ o, if decide (k ∈ js)
                   then CTxOut.mk (CTxOut.nValue o - amount) (CTxOut.scriptPubKey o)
                   else o) <$> l !! k.
Proof.
  induction js as [|j js IH]; intros l Hjs Hnd.
  - exists l. split; [done|]. split; [done|]. intros k.
    destruct (l !! k); [|done]. cbn [fmap option_fmap option_map].
    rewrite decide_False; [done|]. apply not_elem_of_nil.
  - apply Forall_cons in Hjs as [Hj Hjs]. apply NoDup_cons in Hnd as [Hnin Hnd].
    destruct (lookup_lt_is_Some_2 l j Hj) as [o Ho].
    destruct (IH (<[j := CTxOut.mk (CTxOut.nValue o - amount) (CTxOut.scriptPubKey o)]> l))
      as (l' & Hl' & Hn' & Hk'); [by rewrite length_insert|done|].
    exists l'. simpl. rewrite (sub_nValue_lookup _ _ _ _ Ho).
    split; [done|]. split; [by rewrite Hn', length_insert|].
    intros k. rewrite Hk'. destruct (decide (k = j)) as [->|Hne].
    + rewrite list_lookup_insert_eq by done. rewrite Ho.
      cbn [fmap option_fmap option_map CTxOut.nValue CTxOut.scriptPubKey].
      rewrite decide_False by done. rewrite decide_True; [done|left].
    + rewrite list_lookup_insert_ne by done.
      destruct (l !! k); [|done]. cbn [fmap option_fmap option_map]. f_equal.
      destruct (decide (k ∈ js)) as [Hin|Hin].
      * rewrite decide_True; [done|by right].
      * rewrite decide_False; [done|]. by intros [?|?]%elem_of_cons.
Qed.

(** One proof-of-stake payment with a chargeable stake: the outputs are
    charged their shares and the payment is appended. *)
Lemma pay_stake_split payee p (vout : list CTxOut.t) level outputs outputs' out1 :
  outputs' = (if (level =? 1)%N
              then Z.to_N ((Z.of_nat (length vout) - 1) `mod` 2 ^ 32) else outputs) →
  (1 ≤ outputs')%N →
  (N.to_nat outputs' < length vout)%nat →
  vout !! 1%nat = Some out1 →
  IsZerocoinMint (CTxOut.scriptPubKey out1) = false →
  pay_stake payee p (vout, level, outputs)
  = Some (charge_stake (N.to_nat outputs') p vout ++ [CTxOut.mk p payee],
          (level + 1)%N, outputs').
Proof.
  intros Hout Hge Hlt Hout1 Hmint. unfold pay_stake. rewrite <- Hout.
  set (vout1 := vout ++ [CTxOut.mk p payee]).
  set (n := N.to_nat outputs').
  assert (length vout1 = S (length vout)) as Hlen1.
  { unfold vout1. rewrite length_app. simpl. lia. }
  assert (vout1 !! 1%nat = Some out1) as ->.
  { unfold vout1. by apply lookup_app_l_Some. }
  rewrite Hmint. cbn [negb].
  assert (∀ l', length l' = S (length vout) →
                (∀ k, l' !! k
                      = (λ o, CTxOut.mk (CTxOut.nValue o - stake_share n k p)
                                (CTxOut.scriptPubKey o)) <$> vout1 !! k) →
                l' = charge_stake n p vout ++ [CTxOut.mk p payee]) as Hshape.
  { intros l' Hn' Hk'. apply list_eq. intros k. rewrite Hk'. unfold vout1, charge_stake.
    destruct (decide (k < length vout)%nat) as [Hk|Hk].
    - rewrite !lookup_app_l by (rewrite ?length_imap; lia).
      by rewrite list_lookup_imap.
    - rewrite !lookup_app_r by (rewrite ?length_imap; lia). rewrite length_imap.
      assert (stake_share n k p = 0) as ->.
      { unfold stake_share. rewrite !bool_decide_eq_false_2; [done|lia..]. }
      destruct ([CTxOut.mk p payee] !! (k - length vout)%nat) as [[v s]|]; simpl; [|done].
      by rewrite Z.sub_0_r. }
  assert (Z.of_N outputs' = Z.of_nat n) as Hn by (unfold n; lia).
  destruct (outputs' =? 1)%N eqn:H1.
  { apply N.eqb_eq in H1.
    destruct (lookup_lt_is_Some_2 vout1 1) as [o Ho]; [lia|].
    rewrite (sub_nValue_lookup _ _ _ _ Ho). cbn [fmap option_fmap option_map].
    do 3 f_equal. apply Hshape; [by rewrite length_insert|].
    assert (n = 1%nat) as -> by (unfold n; lia).
    intros k. destruct (decide (k = 1%nat)) as [->|Hne].
    - rewrite list_lookup_insert_eq by lia. rewrite Ho. simpl. do 2 f_equal.
      unfold stake_share. rewrite bool_decide_eq_false_2 by lia.
      rewrite bool_decide_eq_true_2 by lia. simpl. lia.
    - rewrite list_lookup_insert_ne by done.
      destruct (vout1 !! k) as [[v s]|]; simpl; [|done].
      unfold stake_share. rewrite !bool_decide_eq_false_2 by lia. by rewrite Z.sub_0_r. }
  apply N.eqb_neq in H1.
  rewrite (proj2 (N.ltb_lt 1 outputs')) by lia.
  destruct (sub_nValue_loop_lookup (Z.quot p (Z.of_N outputs')) (seq 1 n) vout1)
    as (l1 & Hl1 & Hn1 & Hk1).
  { apply Forall_forall. intros j Hj%elem_of_seq. unfold n in *. lia. }
  { apply NoDup_seq. }
  fold n. rewrite Hl1. cbn [mbind option_bind].
  destruct (lookup_lt_is_Some_2 l1 n) as [o1 Ho1]; [unfold n in *; lia|].
  rewrite (sub_nValue_lookup _ _ _ _ Ho1). cbn [fmap option_fmap option_map].
  do 3 f_equal. apply Hshape; [by rewrite length_insert, Hn1|].
  intros k. destruct (decide (k = n)) as [->|Hne].
  - rewrite list_lookup_insert_eq by (unfold n in *; lia).
    rewrite Hk1 in Ho1. destruct (vout1 !! n) as [o|]; [|done]. simpl in *.
    rewrite decide_True in Ho1 by (apply elem_of_seq; unfold n in *; lia).
    injection Ho1 as <-. simpl. do 2 f_equal.
    unfold stake_share. rewrite bool_decide_eq_false_2 by lia.
    rewrite bool_decide_eq_true_2 by (unfold n in *; lia).
    rewrite Hn. lia.
  - rewrite list_lookup_insert_ne by done. rewrite Hk1.
    destruct (vout1 !! k) as [[v s]|]; simpl; [|done].
    unfold stake_share. destruct (decide (k ∈ seq 1 n)) as [Hin|Hin].
    + apply elem_of_seq in Hin. rewrite bool_decide_eq_true_2 by lia. by rewrite Hn.
    + rewrite elem_of_seq in Hin. rewrite !bool_decide_eq_false_2 by lia.
      by rewrite Z.sub_0_r.
Qed.

Lemma charge_stake_scripts n p (vout : list CTxOut.t) :
  CTxOut.scriptPubKey <$> charge_stake n p vout = CTxOut.scriptPubKey <$> vout.
Proof.
  apply list_eq. intros k. unfold charge_stake.
  rewrite !list_lookup_fmap, list_lookup_imap. by destruct (vout !! k).
Qed.

Lemma charge_stake_loop_scripts n (paid v0 : list CTxOut.t) :
  CTxOut.scriptPubKey
    <$> foldl (λ vout pay, charge_stake n (CTxOut.nValue pay) vout) v0 paid
  = CTxOut.scriptPubKey <$> v0.
Proof.
  revert v0. induction paid as [|q paid IH]; intros v0; [done|].
  simpl. by rewrite IH, charge_stake_scripts.
Qed.

(** Proof of stake with a chargeable stake: every payment in turn is charged
    to the stake outputs and appended. *)
Lemma FillBlockPayee_stake_split st txNew nFees fZSPLStake nBlockValue pindexPrev :
  chainActive_Tip = Some pindexPrev →
  Z.of_nat (length (CTransaction.vout txNew)) < 2 ^ 32 →
  stake_chargeable (CTransaction.vout txNew) →
  FillBlockPayee st txNew nFees true fZSPLStake nBlockValue
  = Some (CTransaction.mk (CTransaction.vin txNew)
            (foldl (λ vout pay,
                      charge_stake (length (CTransaction.vout txNew) - 1)
                        (CTxOut.nValue pay) vout)
               (CTransaction.vout txNew)
               (payments st (CBlockIndex.nHeight pindexPrev + 1) true fZSPLStake
                  nBlockValue paid_levels)
             ++ payments st (CBlockIndex.nHeight pindexPrev + 1) true fZSPLStake
                  nBlockValue paid_levels)).
Proof.
  intros Htip Hbound [Hn2 Hmint]. unfold FillBlockPayee. rewrite Htip. cbv zeta.
  fold paid_levels.
  set (v0 := CTransaction.vout txNew) in *.
  set (n := (length v0 - 1)%nat).
  destruct (lookup_lt_is_Some_2 v0 1) as [out1 Hout1]; [lia|].
  specialize (Hmint out1 Hout1).
  destruct (FillBlockPayee_fold
              (λ s paid,
                 s.1.1 = foldl (λ vout pay, charge_stake n (CTxOut.nValue pay) vout) v0 paid
                         ++ paid
                 ∧ ((s.1.2 = 1%N ∧ paid = []) ∨ ((1 < s.1.2)%N ∧ s.2 = N.of_nat n)))
              st (CBlockIndex.nHeight pindexPrev + 1) true fZSPLStake nBlockValue)
    with (levels := paid_levels) (s := (v0, 1%N, 1%N)) (paid := @nil CTxOut.t)
    as ([[vout' level'] outputs'] & Hfold & Hinv).
  { intros [[vout level] outputs] paid payee p. cbn [fst snd]. intros [-> Hstate].
    set (V := foldl (λ vout pay, charge_stake n (CTxOut.nValue pay) vout) v0 paid).
    assert (CTxOut.scriptPubKey <$> V = CTxOut.scriptPubKey <$> v0) as Hscr
      by apply charge_stake_loop_scripts.
    assert (length V = length v0) as HlenV.
    { by rewrite <- (length_fmap CTxOut.scriptPubKey V), Hscr, length_fmap. }
    assert (∃ o, (V ++ paid) !! 1%nat = Some o
                 ∧ CTxOut.scriptPubKey o = CTxOut.scriptPubKey out1) as (o & Ho & Hos).
    { destruct (lookup_lt_is_Some_2 V 1) as [o Ho]; [lia|]. exists o.
      split; [by apply lookup_app_l_Some|].
      assert ((CTxOut.scriptPubKey <$> V) !! 1%nat = Some (CTxOut.scriptPubKey o)) as Hs
        by (by rewrite list_lookup_fmap, Ho).
      rewrite Hscr, list_lookup_fmap, Hout1 in Hs. by injection Hs. }
    rewrite (pay_stake_split payee p (V ++ paid) level outputs (N.of_nat n) o).
    - eexists. split; [reflexivity|]. cbn [fst snd].
      replace (N.to_nat (N.of_nat n)) with n by lia.
      split.
      + rewrite foldl_app. cbn [foldl CTxOut.nValue]. fold V. rewrite app_assoc.
        f_equal. unfold charge_stake. rewrite imap_app. f_equal.
        apply list_eq. intros k. rewrite list_lookup_imap.
        destruct (paid !! k) as [[v s]|] eqn:Hk; simpl; [|done].
        unfold stake_share. rewrite !bool_decide_eq_false_2 by (unfold n; lia).
        by rewrite Z.sub_0_r.
      + right. split; [|done]. destruct Hstate as [[-> _]|[? _]]; lia.
    - destruct Hstate as [[-> ->]|[Hl ->]].
      + simpl. rewrite app_nil_r. unfold V. simpl. rewrite Z.mod_small by lia.
        unfold n. lia.
      + destruct (level =? 1)%N eqn:E; [apply N.eqb_eq in E; lia|done].
    - unfold n. lia.
    - rewrite length_app, HlenV. unfold n. lia.
    - exact Ho.
    - by rewrite Hos. }
  { split; [by rewrite app_nil_r|]. by left. }
  cbn [fst snd app] in Hinv. destruct Hinv as [-> _].
  exact (f_equal (fmap _) Hfold).
Qed.

(** C7, as the code has it.  The builder never reads [nFees].  In
    proof-of-work mode, once a tier is paid, the outputs total the block
    value alone; in proof-of-stake mode, with at least two outputs and a
    stake output that is no zerocoin mint, every payment in turn is charged
    to the stake outputs [vout[1] .. vout[n]] of the transaction as it came
    (each the share [payment / n], the last one also the remainder; the
    whole payment when [n = 1]) and appended, so the outputs total what
    they did before the call: value is reassigned.  Without a payee for any
    tier the outputs are left as they were. *)
Theorem FillBlockPayee_conservation (st : CMasternodePayments.t) (txNew : CTransaction.t)
    (nFees : Z) (fProofOfStake fZSPLStake : bool) (nBlockValue : Z)
    (pindexPrev : CBlockIndex.t) :
  chainActive_Tip = Some pindexPrev →
  (fProofOfStake = true →
   (1 ≤ length (CTransaction.vout txNew))%nat
   ∧ Z.of_nat (length (CTransaction.vout txNew)) < 2 ^ 32) →
  ∃ txNew',
    FillBlockPayee st txNew nFees fProofOfStake fZSPLStake nBlockValue = Some txNew'
    ∧ (∀ nFees', FillBlockPayee st txNew nFees' fProofOfStake fZSPLStake nBlockValue
                 = Some txNew')
    ∧ (∀ out, out ∈ payments st (CBlockIndex.nHeight pindexPrev + 1) fProofOfStake
                      fZSPLStake nBlockValue paid_levels →
              out ∈ CTransaction.vout txNew')
    ∧ (payments st (CBlockIndex.nHeight pindexPrev + 1) fProofOfStake fZSPLStake
         nBlockValue paid_levels = [] →
       CTransaction.vout txNew' = CTransaction.vout txNew)
    ∧ (fProofOfStake = false →
       payments st (CBlockIndex.nHeight pindexPrev + 1) fProofOfStake fZSPLStake
         nBlockValue paid_levels ≠ [] →
       sum_nValue (CTransaction.vout txNew') = nBlockValue)
    ∧ (fProofOfStake = true →
       stake_chargeable (CTransaction.vout txNew) →
       sum_nValue (CTransaction.vout txNew') = sum_nValue (CTransaction.vout txNew))
    ∧ (fProofOfStake = true →
       stake_chargeable (CTransaction.vout txNew) →
       CTransaction.vout txNew'
       = foldl (λ vout pay,
                  charge_stake (length (CTransaction.vout txNew) - 1)
                    (CTxOut.nValue pay) vout)
           (CTransaction.vout txNew)
           (payments st (CBlockIndex.nHeight pindexPrev + 1) fProofOfStake fZSPLStake
              nBlockValue paid_levels)
         ++ payments st (CBlockIndex.nHeight pindexPrev + 1) fProofOfStake fZSPLStake
              nBlockValue paid_levels).
Proof.
  intros Htip Hstake.
  destruct (FillBlockPayee_spec st txNew nFees fProofOfStake fZSPLStake nBlockValue
              pindexPrev Htip Hstake) as (txNew' & Hfill & _ & Hpaid & Hnone & Hwork & Hst).
  exists txNew'. split; [done|]. split; [intros nFees'; exact Hfill|].
  split; [done|]. split; [done|]. split; [done|]. split; [done|].
  intros -> Hcharge. destruct (Hstake eq_refl) as [_ Hbound].
  rewrite (FillBlockPayee_stake_split st txNew nFees fZSPLStake nBlockValue pindexPrev
             Htip Hbound Hcharge) in Hfill.
  by injection Hfill as <-.
Qed.




End BuilderProperties.

(** ** Builder against validator *)
Section RoundTrip.
Context `{Collaborators}.


End RoundTrip.

(** * The theorems at work on the concrete node *)



(** The handler takes a vote in the name of this node's own collateral for
    height 1010 and tier 1; the producer then runs for 1010 and adds its own
    vote for the same slot: two votes of one voter for one (height, tier). *)
Lemma single_vote_producer_counterexample :
  reachable store_two_votes ∧ ¬ single_vote store_two_votes.
Proof.
  split.
  - unfold store_two_votes.
    apply (reachable_produce node_1000_B), (reachable_message node_1000_B), reachable_empty.
  - intros Hsv.
    specialize (Hsv (@GetHash node_1000_B own_vote_A)
                    (@GetHash node_1000_B
                       (CMasternodePaymentWinner.mk (CTxIn.mk (COutPoint.mk 1 0) "" 0) 1010
                          "B" 1 (CTxIn.mk (COutPoint.mk 60 0) "" 0) "signature"))
                    _ _ eq_refl eq_refl eq_refl eq_refl eq_refl).
    vm_compute in Hsv. discriminate Hsv.
Qed.

(** Tip 5000, limit 1000: the vote at 3999 and its tally are pruned, the vote
    at 4000 stays, and a vote for 5021 does not change the store. *)
Lemma CleanPaymentList_horizon_5000 :
  (@cs_main_locked node_5000 = true
   ∧ @chainActive_Tip node_5000 = Some (CBlockIndex.mk 5000 7%N))
  ∧ @CMasternodePayments.nLimit node_5000 = 1000
  ∧ CMasternodePayments.mapMasternodePayeeVotes
      (@CMasternodePayments.CleanPaymentList node_5000 store_horizon)
      !! @GetHash node_5000 (example_vote 1 3999 "A" 1) = None
  ∧ CMasternodePayments.mapMasternodeBlocks
      (@CMasternodePayments.CleanPaymentList node_5000 store_horizon) !! 3999 = None
  ∧ CMasternodePayments.mapMasternodePayeeVotes
      (@CMasternodePayments.CleanPaymentList node_5000 store_horizon)
      !! @GetHash node_5000 (example_vote 2 4000 "A" 1) = Some (example_vote 2 4000 "A" 1)
  ∧ (@ProcessMessageMasternodePayments node_5000 store_horizon 70920 "mnw"
       (example_vote 4 5021 "A" 1)).1 = store_horizon.
Proof.
  split; [split; reflexivity|]. split; [reflexivity|].
  destruct (@CleanPaymentList_horizon node_5000 store_horizon (CBlockIndex.mk 5000 7%N)
              eq_refl eq_refl) as (_ & Hold & Hyoung & _ & Hdrop).
  destruct (Hold (@GetHash node_5000 (example_vote 1 3999 "A" 1))
                 (example_vote 1 3999 "A" 1)) as [Hvote Htally].
  { vm_compute. reflexivity. }
  { vm_compute. reflexivity. }
  split; [exact Hvote|]. split; [exact Htally|]. split.
  - apply Hyoung; [vm_compute; reflexivity|]. vm_compute. discriminate.
  - apply Hdrop. right. vm_compute. reflexivity.
Defined.

(** Tip 1000 and one enabled node: 1.25 rounds down to 1, so a window from
    [tip - floor(1.25 * count)] would start at 999; the handler computes
    [int(1000 - 1.25) = 998] and admits a vote for 998. *)
Lemma mnw_window_floor_counterexample :
  CMasternodePaymentWinner.nBlockHeight (example_vote 1 998 "A" 1)
    < 1000 - (@mnodeman_CountEnabled node_1000_single 1 * 5) `div` 4
  ∧ @nFirstBlock node_1000_single 1000 1 = 998
  ∧ CMasternodePayments.mapMasternodePayeeVotes
      (@ProcessMessageMasternodePayments node_1000_single CMasternodePayments.empty 70920
         "mnw" (example_vote 1 998 "A" 1)).1
      !! @GetHash node_1000_single (example_vote 1 998 "A" 1)
    = Some (example_vote 1 998 "A" 1).
Proof. split; [vm_compute; reflexivity|]. split; vm_compute; reflexivity. Qed.

(** A treasury block at 1001 that pays ["dev"] but not ["fund"], past the
    enforcement time, is rejected although it mints less than expected. *)
Lemma IsBlockValueValid_treasury_missing_fund :
  (@chainActive_Tip node_1000_treasury = Some (CBlockIndex.mk 1000 7%N)
   ∧ @IsTreasuryBlock node_1000_treasury
       (@resolve_height node_1000_treasury (CBlockIndex.mk 1000 7%N)
          (block_on_tip [CTxOut.mk 600 "dev"])) = true)
  ∧ @value_rules node_1000_treasury 1001 5 2 = true
  ∧ @IsBlockValueValid node_1000_treasury (block_on_tip [CTxOut.mk 600 "dev"]) 5 2
    = Some false.
Proof.
  split; [split; reflexivity|]. split; [reflexivity|].
  destruct (@IsBlockValueValid_treasury node_1000_treasury
              (block_on_tip [CTxOut.mk 600 "dev"]) 5 2 (CBlockIndex.mk 1000 7%N)
              (CTransaction.mk [] [CTxOut.mk 600 "dev"]) eq_refl eq_refl eq_refl)
    as (Hreject & _ & _).
  apply Hreject. split; [|vm_compute; reflexivity].
  exists "fund", 40. split; [vm_compute; reflexivity|].
  intros (out & Hin & Hscript & _).
  apply list_elem_of_singleton in Hin as ->. discriminate Hscript.
Defined.

(** An orphan block on a node that is not synced is accepted although it
    mints more than expected. *)
Lemma IsBlockValueValid_unresolved_parent_unsynced :
  (@chainActive_Tip (node_1000_plain false) = Some (CBlockIndex.mk 1000 7%N)
   ∧ @parent_unresolved (node_1000_plain false) (CBlockIndex.mk 1000 7%N) block_orphan
   ∧ @IsTreasuryBlock (node_1000_plain false) 0 = false)
  ∧ @IsBlockValueValid (node_1000_plain false) block_orphan 1 2 = Some true.
Proof.
  assert (@parent_unresolved (node_1000_plain false) (CBlockIndex.mk 1000 7%N) block_orphan)
    as Hun.
  { split; [discriminate|]. by left. }
  split; [split; [reflexivity|split; [exact Hun|reflexivity]]|].
  exact (proj2 (@IsBlockValueValid_unresolved_parent (node_1000_plain false) block_orphan
                  1 2 (CBlockIndex.mk 1000 7%N) eq_refl Hun eq_refl)).
Defined.

(** The same orphan block on a synced node with superblocks off: the parent
    is unknown, 2 is minted against 1 expected, and the block is rejected. *)
Lemma IsBlockValueValid_unresolved_parent_counterexample :
  @chainActive_Tip (node_1000_plain true) = Some (CBlockIndex.mk 1000 7%N)
  ∧ @parent_unresolved (node_1000_plain true) (CBlockIndex.mk 1000 7%N) block_orphan
  ∧ @IsBlockValueValid (node_1000_plain true) block_orphan 1 2 = Some false.
Proof.
  split; [reflexivity|]. split; [|reflexivity].
  split; [discriminate|]. by left.
Qed.

(** A split coinstake of 100 + 100 with only the top tier paid (3 of a block
    value of 10): each stake output is charged 1, the last one the remaining
    1, and the total stays 200. *)
Lemma FillBlockPayee_conservation_split_stake :
  (@chainActive_Tip (example_node true no_sporks 1000 10 true true (-1) queue_B)
   = Some (CBlockIndex.mk 1000 7%N)
   ∧ (1 ≤ length (CTransaction.vout coinstake_split))%nat
   ∧ Z.of_nat (length (CTransaction.vout coinstake_split)) < 2 ^ 32)
  ∧ ∃ txNew',
      @FillBlockPayee (example_node true no_sporks 1000 10 true true (-1) queue_B)
        CMasternodePayments.empty coinstake_split 7 true false 10 = Some txNew'
      ∧ CTransaction.vout txNew'
        = [CTxOut.mk 0 ""; CTxOut.mk 99 "staker"; CTxOut.mk 98 "staker"; CTxOut.mk 3 "B"]
      ∧ sum_nValue (CTransaction.vout txNew')
        = sum_nValue (CTransaction.vout coinstake_split).
Proof.
  split; [split; [reflexivity|split; [simpl; lia|simpl; lia]]|].
  destruct (@FillBlockPayee_conservation
              (example_node true no_sporks 1000 10 true true (-1) queue_B)
              CMasternodePayments.empty coinstake_split 7 true false 10
              (CBlockIndex.mk 1000 7%N) eq_refl)
    as (txNew' & Hfill & _ & _ & _ & _ & Hsum & Hsplit).
  { intros _. simpl. lia. }
  assert (@stake_chargeable (example_node true no_sporks 1000 10 true true (-1) queue_B)
            (CTransaction.vout coinstake_split)) as Hcharge.
  { split; [simpl; lia|]. intros out1 [= <-]. reflexivity. }
  exists txNew'. split; [exact Hfill|]. split.
  - rewrite (Hsplit eq_refl Hcharge). vm_compute. reflexivity.
  - exact (Hsum eq_refl Hcharge).
Defined.

(** A coinbase built for a block value of 5000 with fees of 7 totals 5000, not
    5007; a coinstake of 200 built for a block value of 10 with fees of 7
    totals 200, not 217. *)
Lemma FillBlockPayee_fees_counterexample :
  (∃ txNew',
     @FillBlockPayee node_1000_B CMasternodePayments.empty coinbase_0 7 false false 5000
     = Some txNew'
     ∧ sum_nValue (CTransaction.vout txNew') = 5000
     ∧ sum_nValue (CTransaction.vout txNew') ≠ 5000 + 7)
  ∧ (∃ txNew',
       @FillBlockPayee node_1000_B CMasternodePayments.empty coinstake_split 7 true false 10
       = Some txNew'
       ∧ sum_nValue (CTransaction.vout txNew') = 200
       ∧ sum_nValue (CTransaction.vout txNew')
         ≠ sum_nValue (CTransaction.vout coinstake_split) + 10 + 7).
Proof.
  split; eexists; (split; [vm_compute; reflexivity|]); split;
    vm_compute; [reflexivity|discriminate|reflexivity|discriminate].
Qed.

(** A vote whose payee the registry does not know: the handler logs and asks
    for the node; no score is assessed. *)
Lemma mnw_misbehavior_unknown_payee :
  @mnw_processed node_1000_unknown 70920 "mnw" (CBlockIndex.mk 1000 7%N)
  ∧ (@resolve_winner node_1000_unknown own_vote_A).2 = None
  ∧ @ProcessMessageMasternodePayments node_1000_unknown CMasternodePayments.empty 70920
      "mnw" own_vote_A
    = (CMasternodePayments.empty,
       [LogPrint "mnw - unknown payee"; AskForMN (CTxIn.mk (COutPoint.mk 50 0) "" 0)]).
Proof.
  assert (@mnw_processed node_1000_unknown 70920 "mnw" (CBlockIndex.mk 1000 7%N)) as Hentry.
  { repeat split; try reflexivity; simpl; lia. }
  split; [exact Hentry|]. split; [reflexivity|].
  destruct (@mnw_misbehavior node_1000_unknown CMasternodePayments.empty 70920 "mnw"
              own_vote_A (CBlockIndex.mk 1000 7%N) Hentry) as (Hunknown & _).
  apply Hunknown. reflexivity.
Defined.

(** Neither the unknown payee nor the second vote of a voter costs the
    peer anything: the effects hold no [Misbehaving] at all. *)
Lemma mnw_misbehavior_counterexample :
  ((@resolve_winner node_1000_unknown own_vote_A).2 = None
   ∧ (@ProcessMessageMasternodePayments node_1000_unknown CMasternodePayments.empty 70920
        "mnw" own_vote_A).2
     = [LogPrint "mnw - unknown payee"; AskForMN (CTxIn.mk (COutPoint.mk 50 0) "" 0)]
   ∧ Misbehaving 2
     ∉ (@ProcessMessageMasternodePayments node_1000_unknown CMasternodePayments.empty
          70920 "mnw" own_vote_A).2)
  ∧ (CMasternodePayments.CanVote (@admit_votes node_1000 CMasternodePayments.empty [own_vote_A])
       (COutPoint.mk 1 0) 1010 1 = false
     ∧ (@ProcessMessageMasternodePayments node_1000
          (@admit_votes node_1000 CMasternodePayments.empty [own_vote_A]) 70920 "mnw"
          (example_vote 1 1010 "C" 1)).2
       = [LogPrint "mnw - already voted"]
     ∧ Misbehaving 1
       ∉ (@ProcessMessageMasternodePayments node_1000
            (@admit_votes node_1000 CMasternodePayments.empty [own_vote_A]) 70920 "mnw"
            (example_vote 1 1010 "C" 1)).2).
Proof.
  split; (split; [vm_compute; reflexivity|]); (split; [vm_compute; reflexivity|]).
  - intros Hin. vm_compute in Hin. set_solver.
  - intros Hin. vm_compute in Hin. set_solver.
Qed.

(** ** Scenarios *)

(** Six votes for ["A"] on the top tier at height 1001, tiers collapsed to the
    top one: an output paying ["A"] the required 4368 is accepted with the
    outputs in either order, one paying less or another script is not. *)
Example IsTransactionValid_six_votes :
  @GetMasternodePayment (node_1000_plain true) 1001 15000 false 3
    (@CMasternodeBlockPayees.nMasternode_Drift_Count (node_1000_plain true)) false = 4368
  ∧ @CMasternodePayments.IsTransactionValid (node_1000_plain true) store_six_votes
      (CTransaction.mk [] [CTxOut.mk 10632 "miner"; CTxOut.mk 4368 "A"]) 1001 15000 false
    = true
  ∧ @CMasternodePayments.IsTransactionValid (node_1000_plain true) store_six_votes
      (CTransaction.mk [] [CTxOut.mk 4368 "A"; CTxOut.mk 10632 "miner"]) 1001 15000 false
    = true
  ∧ @CMasternodePayments.IsTransactionValid (node_1000_plain true) store_six_votes
      (CTransaction.mk [] [CTxOut.mk 10633 "miner"; CTxOut.mk 4367 "A"]) 1001 15000 false
    = false
  ∧ @CMasternodePayments.IsTransactionValid (node_1000_plain true) store_six_votes
      (CTransaction.mk [] [CTxOut.mk 15000 "miner"]) 1001 15000 false
    = false
  ∧ @CMasternodePayments.IsTransactionValid (node_1000_plain true) store_six_votes
      (CTransaction.mk [] [CTxOut.mk 15000 "miner"]) 1002 15000 false
    = true.
Proof. repeat split; vm_compute; reflexivity. Qed.

(** Five votes are no quorum: any transaction passes. *)
Example IsTransactionValid_five_votes :
  @CMasternodePayments.IsTransactionValid node_1000
    (@admit_votes node_1000 CMasternodePayments.empty (take 5 six_votes))
    (CTransaction.mk [] [CTxOut.mk 15000 "miner"]) 1001 15000 false
  = true.
Proof. vm_compute. reflexivity. Qed.

(** The second vote of a voter for a height and tier is dropped by the
    handler: the tally keeps ["A"] at one vote and has no record for ["C"]. *)
Example mnw_second_vote_dropped :
  (@ProcessMessageMasternodePayments node_1000
     (@admit_votes node_1000 CMasternodePayments.empty [own_vote_A]) 70920 "mnw"
     (example_vote 1 1010 "C" 1)).1
  = @admit_votes node_1000 CMasternodePayments.empty [own_vote_A]
  ∧ votes_of (CMasternodeBlockPayees.vecPayments
                (CMasternodePayments.blocks_at
                   (CMasternodePayments.mapMasternodeBlocks
                      (@admit_votes node_1000 CMasternodePayments.empty [own_vote_A]))
                   1010)) "A" 1 = 1
  ∧ votes_of (CMasternodeBlockPayees.vecPayments
                (CMasternodePayments.blocks_at
                   (CMasternodePayments.mapMasternodeBlocks
                      (@admit_votes node_1000 CMasternodePayments.empty [own_vote_A]))
                   1010)) "C" 1 = 0.
Proof. repeat split; vm_compute; reflexivity. Qed.

(** Two payees with six votes each: the bytewise lower script is named. *)
Example GetPayee_tie :
  CMasternodeBlockPayees.GetPayee 3
    (CMasternodeBlockPayees.mk 2000
       [CMasternodePayee.mk 3 "B" CTxIn.empty 6; CMasternodePayee.mk 3 "A" CTxIn.empty 6])
  = Some "A".
Proof. vm_compute. reflexivity. Qed.

(** The start values are also ordinary answers: a lone tally at height 0
    gives the same newest block as no tally at all. *)
Example GetNewestBlock_height_0 :
  CMasternodePayments.GetNewestBlock
    (CMasternodePayments.mk ∅ {[0 := CMasternodeBlockPayees.mk 0 []]} 0)
  = CMasternodePayments.GetNewestBlock CMasternodePayments.empty.
Proof. vm_compute. reflexivity. Qed.

(** The same vote twice: the second copy is refused and the tally counts it
    once. *)
Example AddWinningMasternode_twice :
  (@CMasternodePayments.AddWinningMasternode node_1000
     (@admit_votes node_1000 CMasternodePayments.empty [own_vote_A]) own_vote_A)
  = (false, @admit_votes node_1000 CMasternodePayments.empty [own_vote_A]).
Proof. vm_compute. reflexivity. Qed.

(** * Further properties *)

(** ** The tally check: overpayment *)
Section TallyFurther.
Context `{Collaborators}.

(** X1. The check only looks for outputs that pay enough: a transaction that
    passes still passes after outputs are added, reordered or raised, as long
    as every old output has a counterpart with the same script and at least
    its value. *)
Theorem IsTransactionValid_more_outputs (b : CMasternodeBlockPayees.t)
    (txNew txNew' : CTransaction.t) (nBlockValue : Z) (fProofOfStake : bool) :
  CTransaction.vin txNew' = CTransaction.vin txNew →
  (∀ out, out ∈ CTransaction.vout txNew →
     ∃ out', out' ∈ CTransaction.vout txNew'
             ∧ CTxOut.scriptPubKey out' = CTxOut.scriptPubKey out
             ∧ CTxOut.nValue out ≤ CTxOut.nValue out') →
  CMasternodeBlockPayees.IsTransactionValid b txNew nBlockValue fProofOfStake = true →
  CMasternodeBlockPayees.IsTransactionValid b txNew' nBlockValue fProofOfStake = true.
Proof.
  intros Hvin Hcover. rewrite !IsTransactionValid_true.
  assert (∀ p, paid_by b txNew nBlockValue fProofOfStake p →
               paid_by b txNew' nBlockValue fProofOfStake p) as Hpaid.
  { intros p (out & Hin & Hs & Hv).
    destruct (Hcover out Hin) as (out' & Hin' & Hs' & Hv').
    exists out'. rewrite Hvin. split; [done|]. split; [congruence|lia]. }
  intros [Hnone|Hall]; [by left|right].
  intros tier Ht. destruct (Hall tier Ht) as (q & ? & ? & ? & ?). eauto 6.
Qed.

End TallyFurther.

(** ** The payee rule of block validation *)
Section BlockPayee.
Context `{Collaborators} `{BudgetCollaborators}.

(** X2. On a synced node [IsBlockPayeeValid] rejects a block exactly when the
    budget part rejects it (superblocks on, a budget payment height, an
    invalid budget transaction, budget enforcement on), or when the budget
    part falls through, the height is no treasury height, the tally check
    fails for the block value of that height, and payment enforcement is on;
    a node that is not synced accepts. *)
Theorem IsBlockPayeeValid_rejects (st : CMasternodePayments.t) (block : CBlock.t)
    (nBlockHeight : Z) (txNew : CTransaction.t) :
  CBlock.vtx block !! (if block_IsProofOfStake block then 1 else 0)%nat = Some txNew →
  IsBlockPayeeValid st block nBlockHeight = Some false
  ↔ masternodeSync_IsSynced = true
    ∧ ((IsSporkActive SPORK_13_ENABLE_SUPERBLOCKS = true
        ∧ budget_IsBudgetPaymentBlock nBlockHeight = true
        ∧ budget_IsTransactionValid txNew nBlockHeight = InValid
        ∧ IsSporkActive SPORK_9_MASTERNODE_BUDGET_ENFORCEMENT = true)
       ∨ (¬ (IsSporkActive SPORK_13_ENABLE_SUPERBLOCKS = true
             ∧ budget_IsBudgetPaymentBlock nBlockHeight = true
             ∧ budget_IsTransactionValid txNew nBlockHeight = Valid)
          ∧ IsTreasuryBlock nBlockHeight = false
          ∧ CMasternodePayments.IsTransactionValid st txNew nBlockHeight
              (GetBlockValue nBlockHeight (block_IsProofOfStake block)
                 (if block_IsProofOfStake block
                  then GetCoinAge txNew (CBlock.nTime block) nBlockHeight else 0))
              (block_IsProofOfStake block) = false
          ∧ IsSporkActive SPORK_8_MASTERNODE_PAYMENT_ENFORCEMENT = true)).
Proof.
  intros Htx. unfold IsBlockPayeeValid, budget_verdict. rewrite Htx.
  destruct masternodeSync_IsSynced; simpl; [|naive_solver].
  destruct (IsSporkActive SPORK_13_ENABLE_SUPERBLOCKS);
    destruct (budget_IsBudgetPaymentBlock nBlockHeight);
    destruct (budget_IsTransactionValid txNew nBlockHeight);
    destruct (IsSporkActive SPORK_9_MASTERNODE_BUDGET_ENFORCEMENT);
    destruct (IsTreasuryBlock nBlockHeight); simpl;
    destruct (CMasternodePayments.IsTransactionValid _ _ _ _ _);
    destruct (IsSporkActive SPORK_8_MASTERNODE_PAYMENT_ENFORCEMENT);
    naive_solver.
Qed.

(** X3. Without a qualified record at the height, and with the budget part
    falling through, the block is accepted whatever its reward transaction
    pays and whatever the sporks say. *)
Theorem IsBlockPayeeValid_below_quorum (st : CMasternodePayments.t) (block : CBlock.t)
    (nBlockHeight : Z) (txNew : CTransaction.t) :
  CBlock.vtx block !! (if block_IsProofOfStake block then 1 else 0)%nat = Some txNew →
  budget_verdict txNew nBlockHeight = None →
  (∀ b payee, CMasternodePayments.mapMasternodeBlocks st !! nBlockHeight = Some b →
              payee ∈ CMasternodeBlockPayees.vecPayments b →
              CMasternodePayee.nVotes payee < MNPAYMENTS_SIGNATURES_REQUIRED) →
  IsBlockPayeeValid st block nBlockHeight = Some true.
Proof.
  intros Htx Hbudget Hfew. unfold IsBlockPayeeValid. rewrite Htx, Hbudget.
  destruct (negb masternodeSync_IsSynced); [done|].
  destruct (negb (IsTreasuryBlock nBlockHeight)); [|done].
  assert (∀ bv pos, CMasternodePayments.IsTransactionValid st txNew nBlockHeight bv pos
                    = true) as ->; [|done].
  intros bv pos. unfold CMasternodePayments.IsTransactionValid.
  destruct (CMasternodePayments.mapMasternodeBlocks st !! nBlockHeight) as [b|] eqn:Hb;
    [|done].
  apply IsTransactionValid_true. left.
  intros payee Hin [Hvotes _]. specialize (Hfew b payee eq_refl Hin). lia.
Qed.

End BlockPayee.

(** ** Votes: signing and the vote's own validity *)
Section WinnerFurther.
Context `{Collaborators}.

(** X4. A vote that [Sign] returns differs from the one passed in only by
    its signature, and it passes [SignatureValid] whenever the registry
    lists the voter with the public key that signed. *)
Theorem Sign_SignatureValid (pubKeyMasternode : string)
    (w w' : CMasternodePaymentWinner.t) (pmn : CMasternode.t) :
  Sign pubKeyMasternode w = Some w' →
  mnodeman_Find_vin (CMasternodePaymentWinner.vinMasternode w) = Some pmn →
  CMasternode.pubKeyMasternode pmn = pubKeyMasternode →
  SignatureValid w' = true
  ∧ ∃ sig, SignMessage (strMessage w) = Some sig
           ∧ w' = CMasternodePaymentWinner.mk
                    (CMasternodePaymentWinner.vinMasternode w)
                    (CMasternodePaymentWinner.nBlockHeight w)
                    (CMasternodePaymentWinner.payee w)
                    (CMasternodePaymentWinner.payeeLevel w)
                    (CMasternodePaymentWinner.payeeVin w) sig.
Proof.
  unfold Sign, SignatureValid. intros Hsign Hfind Hkey.
  destruct (SignMessage (strMessage w)) as [sig|]; [|done].
  destruct (VerifyMessage pubKeyMasternode sig (strMessage w)) eqn:Hverify; [|done].
  injection Hsign as <-. simpl. rewrite Hfind, Hkey. split; [exact Hverify|].
  by exists sig.
Qed.

Lemma IsValid_true_inv w :
  (IsValid w).1.1 = true
  ↔ ∃ pmn, mnodeman_Find_vin (CMasternodePaymentWinner.vinMasternode w) = Some pmn
           ∧ ActiveProtocol ≤ CMasternode.protocolVersion pmn
           ∧ mnodeman_GetMasternodeRank (CMasternodePaymentWinner.vinMasternode w)
               (CMasternodePaymentWinner.nBlockHeight w - 100) ActiveProtocol ≠ -1
           ∧ mnodeman_GetMasternodeRank (CMasternodePaymentWinner.vinMasternode w)
               (CMasternodePaymentWinner.nBlockHeight w - 100) ActiveProtocol
             ≤ MNPAYMENTS_SIGNATURES_TOTAL.
Proof.
  unfold IsValid.
  destruct (mnodeman_Find_vin _) as [pmn|]; simpl; [|naive_solver].
  destruct (_ <? ActiveProtocol) eqn:Hproto; simpl.
  { apply Z.ltb_lt in Hproto. split; [done|]. intros (? & [= <-] & ? & _). lia. }
  apply Z.ltb_ge in Hproto.
  destruct (_ =? -1) eqn:Hrank; simpl.
  { apply Z.eqb_eq in Hrank. split; [done|]. intros (? & _ & _ & ? & _). done. }
  apply Z.eqb_neq in Hrank.
  destruct (MNPAYMENTS_SIGNATURES_TOTAL <? _) eqn:Htop; simpl.
  { apply Z.ltb_lt in Htop.
    split; [by destruct (_ <? _)|]. intros (? & _ & _ & _ & ?). lia. }
  apply Z.ltb_ge in Htop. split; [|done]. intros _. by exists pmn.
Qed.

(** X5. [IsValid] accepts a vote exactly when the registry knows the voter,
    the voter's protocol is the active one or newer, and its rank at
    [nBlockHeight - 100] is not -1 and at most 10 (so a rank of 0 passes);
    a rank from 11 to 20 is refused without error text, request or score. *)
Theorem IsValid_accepts (w : CMasternodePaymentWinner.t) :
  ((IsValid w).1.1 = true
   ↔ ∃ pmn, mnodeman_Find_vin (CMasternodePaymentWinner.vinMasternode w) = Some pmn
            ∧ ActiveProtocol ≤ CMasternode.protocolVersion pmn
            ∧ mnodeman_GetMasternodeRank (CMasternodePaymentWinner.vinMasternode w)
                (CMasternodePaymentWinner.nBlockHeight w - 100) ActiveProtocol ≠ -1
            ∧ mnodeman_GetMasternodeRank (CMasternodePaymentWinner.vinMasternode w)
                (CMasternodePaymentWinner.nBlockHeight w - 100) ActiveProtocol
              ≤ MNPAYMENTS_SIGNATURES_TOTAL)
  ∧ (∀ pmn, mnodeman_Find_vin (CMasternodePaymentWinner.vinMasternode w) = Some pmn →
            ActiveProtocol ≤ CMasternode.protocolVersion pmn →
            MNPAYMENTS_SIGNATURES_TOTAL
            < mnodeman_GetMasternodeRank (CMasternodePaymentWinner.vinMasternode w)
                (CMasternodePaymentWinner.nBlockHeight w - 100) ActiveProtocol
            ≤ MNPAYMENTS_SIGNATURES_TOTAL * 2 →
            IsValid w = (false, "", [])).
Proof.
  split; [apply IsValid_true_inv|].
  intros pmn Hfind Hproto [Hlo Hhi]. unfold IsValid. rewrite Hfind.
  rewrite (proj2 (Z.ltb_ge _ _) Hproto).
  destruct (_ =? -1) eqn:Hrank.
  { apply Z.eqb_eq in Hrank. unfold MNPAYMENTS_SIGNATURES_TOTAL in *. lia. }
  rewrite (proj2 (Z.ltb_lt _ _) Hlo). by rewrite (proj2 (Z.ltb_ge _ _) Hhi).
Qed.

End WinnerFurther.

(** ** The handler and the producer: what is stored is what is relayed *)
Section GossipFurther.
Context `{Collaborators}.

Import CMasternodePayments.

Lemma IsValid_no_Relay w hash : Relay hash ∉ (IsValid w).2.
Proof.
  unfold IsValid.
  destruct (mnodeman_Find_vin _); simpl; [|set_solver].
  repeat (match goal with |- context [if ?c then _ else _] => destruct c end; simpl);
    set_solver.
Qed.

(** Either the message changed nothing and nothing was relayed, or the
    resolved vote passed every check, was stored under its hash, and was
    relayed. *)
Lemma mnw_cases st pfrom_nVersion strCommand winner :
  ((ProcessMessageMasternodePayments st pfrom_nVersion strCommand winner).1 = st
   ∧ ∀ hash,
       Relay hash ∉ (ProcessMessageMasternodePayments st pfrom_nVersion strCommand winner).2)
  ∨ ∃ tip,
      mnw_processed pfrom_nVersion strCommand tip
      ∧ mnw_in_window st tip winner
      ∧ (IsValid (resolve_winner winner).1).1.1 = true
      ∧ CanVote st
          (CTxIn.prevout (CMasternodePaymentWinner.vinMasternode (resolve_winner winner).1))
          (CMasternodePaymentWinner.nBlockHeight (resolve_winner winner).1)
          (CMasternodePaymentWinner.payeeLevel (resolve_winner winner).1) = true
      ∧ SignatureValid (resolve_winner winner).1 = true
      ∧ is_Some (GetBlockHash
                   (CMasternodePaymentWinner.nBlockHeight (resolve_winner winner).1 - 100))
      ∧ mapMasternodePayeeVotes
          (ProcessMessageMasternodePayments st pfrom_nVersion strCommand winner).1
        = <[GetHash (resolve_winner winner).1 := (resolve_winner winner).1]>
            (mapMasternodePayeeVotes st)
      ∧ (ProcessMessageMasternodePayments st pfrom_nVersion strCommand winner).2
        = [LogPrint "mnw - winning vote"; Relay (GetHash (resolve_winner winner).1);
           AddedMasternodeWinner (GetHash (resolve_winner winner).1)].
Proof.
  unfold ProcessMessageMasternodePayments.
  destruct masternodeSync_IsBlockchainSynced eqn:Hsync; simpl; [|left; set_solver].
  destruct fLiteMode eqn:Hlite; [left; set_solver|].
  destruct (bool_decide (strCommand = "mnw")) eqn:Hcmd; simpl; [|left; set_solver].
  apply bool_decide_eq_true in Hcmd.
  destruct (pfrom_nVersion <? ActiveProtocol) eqn:Hver; [left; set_solver|].
  apply Z.ltb_ge in Hver.
  destruct cs_main_locked eqn:Hlock; [|left; set_solver].
  destruct chainActive_Tip as [tip|] eqn:Htip; [|left; set_solver].
  destruct (resolve_winner winner) as [w winner_mn] eqn:Hres.
  destruct winner_mn as [mn|].
  2:{ left. split; [done|]. intros hash. simpl. case_bool_decide; set_solver. }
  destruct (bool_decide (is_Some (mapMasternodePayeeVotes st !! GetHash w))) eqn:Hseen.
  { left. set_solver. }
  apply bool_decide_eq_false, eq_None_not_Some in Hseen.
  destruct (_ || _) eqn:Hwin; [left; set_solver|].
  apply orb_false_iff in Hwin as [Hlo%Z.ltb_ge Hhi%Z.ltb_ge].
  pose proof (IsValid_no_Relay w) as Hquiet.
  pose proof (IsValid_true_quiet w) as Htrue.
  destruct (IsValid w) as [[valid strError] effects] eqn:Hvalid. simpl in Hquiet, Htrue.
  destruct valid; simpl.
  2:{ left. split; [done|]. intros hash. specialize (Hquiet hash).
      case_bool_decide; set_solver. }
  specialize (Htrue eq_refl). injection Htrue as -> ->.
  destruct (CanVote st _ _ _) eqn:Hcan; simpl; [|left; set_solver].
  destruct (SignatureValid w) eqn:Hsig; simpl.
  2:{ left. split; [done|]. intros hash.
      destruct masternodeSync_IsSynced; [destruct cs_main_locked_late|]; set_solver. }
  unfold AddWinningMasternode.
  destruct (GetBlockHash _) as [blockHash|] eqn:Hbh; [|left; set_solver].
  rewrite bool_decide_eq_false_2 by (rewrite Hseen; by intros [? ?]).
  right. exists tip. unfold mnw_processed, mnw_in_window. rewrite ?Hres.
  cbn [fst snd]. rewrite ?Hbh, ?Hvalid. repeat split; done.
Qed.

(** X6. The handler relays a vote exactly when it has just stored it: the
    relayed hashes are the keys that were absent before and present after;
    no stored vote is ever dropped or replaced by a message. *)
Theorem mnw_relays_what_it_stores (st : t) (pfrom_nVersion : Z) (strCommand : string)
    (winner : CMasternodePaymentWinner.t) :
  (∀ hash,
     Relay hash ∈ (ProcessMessageMasternodePayments st pfrom_nVersion strCommand winner).2
     ↔ mapMasternodePayeeVotes st !! hash = None
       ∧ is_Some (mapMasternodePayeeVotes
                    (ProcessMessageMasternodePayments st pfrom_nVersion strCommand winner).1
                  !! hash))
  ∧ mapMasternodePayeeVotes st
    ⊆ mapMasternodePayeeVotes
        (ProcessMessageMasternodePayments st pfrom_nVersion strCommand winner).1.
Proof.
  destruct (mnw_cases st pfrom_nVersion strCommand winner)
    as [[-> Hquiet]|(tip & _ & (_ & Hnew & _) & _ & _ & _ & _ & -> & ->)].
  - split; [|done]. intros hash. split; [by intros ?%Hquiet|].
    intros [Hnone [w Hw]]. congruence.
  - split; [|by apply insert_subseteq].
    intros hash. split.
    + intros Hin. assert (hash = GetHash (resolve_winner winner).1) as -> by set_solver.
      split; [done|]. rewrite lookup_insert_eq. by eexists.
    + intros [Hnone [w Hw]].
      destruct (decide (GetHash (resolve_winner winner).1 = hash)) as [<-|Hne];
        [set_solver|].
      rewrite lookup_insert_ne in Hw by done. congruence.
Qed.

(** X7. A message that changes the store has passed every gate: an ["mnw"]
    from a peer of the active protocol on a synced chain, with a payee the
    registry knows, a height inside the window, a vote that [IsValid] and
    [CanVote] accept, a good signature, and a block hash at the vote's
    height less 100. *)
Theorem mnw_stored_vote_checked (st : t) (pfrom_nVersion : Z) (strCommand : string)
    (winner : CMasternodePaymentWinner.t) :
  (ProcessMessageMasternodePayments st pfrom_nVersion strCommand winner).1 ≠ st →
  ∃ tip,
    mnw_processed pfrom_nVersion strCommand tip
    ∧ mnw_in_window st tip winner
    ∧ (IsValid (resolve_winner winner).1).1.1 = true
    ∧ CanVote st
        (CTxIn.prevout (CMasternodePaymentWinner.vinMasternode (resolve_winner winner).1))
        (CMasternodePaymentWinner.nBlockHeight (resolve_winner winner).1)
        (CMasternodePaymentWinner.payeeLevel (resolve_winner winner).1) = true
    ∧ SignatureValid (resolve_winner winner).1 = true
    ∧ is_Some (GetBlockHash
                 (CMasternodePaymentWinner.nBlockHeight (resolve_winner winner).1 - 100)).
Proof.
  intros Hchanged.
  destruct (mnw_cases st pfrom_nVersion strCommand winner)
    as [[Hsame _]|(tip & ? & ? & ? & ? & ? & ? & _)]; [done|].
  exists tip. done.
Qed.

(** The tier loop: the store holds the old votes and the collected winners,
    each winner under a hash that was free. *)
Lemma ProcessBlock_levels_winners pubKeyMasternode nBlockHeight st0 (levels : list N) :
  ∀ st winners,
    (∀ hash w, mapMasternodePayeeVotes st !! hash = Some w
               ↔ mapMasternodePayeeVotes st0 !! hash = Some w
                 ∨ (w ∈ winners ∧ hash = GetHash w)) →
    (∀ w, w ∈ winners →
          mapMasternodePayeeVotes st0 !! GetHash w = None
          ∧ CMasternodePaymentWinner.vinMasternode w = activeMasternode_vin
          ∧ CMasternodePaymentWinner.nBlockHeight w = nBlockHeight) →
    let r := foldl (ProcessBlock_level pubKeyMasternode nBlockHeight) (st, winners) levels in
    (∀ hash w, mapMasternodePayeeVotes r.1 !! hash = Some w
               ↔ mapMasternodePayeeVotes st0 !! hash = Some w
                 ∨ (w ∈ r.2 ∧ hash = GetHash w))
    ∧ (∀ w, w ∈ r.2 →
            mapMasternodePayeeVotes st0 !! GetHash w = None
            ∧ CMasternodePaymentWinner.vinMasternode w = activeMasternode_vin
            ∧ CMasternodePaymentWinner.nBlockHeight w = nBlockHeight).
Proof.
  induction levels as [|mnlevel levels IH]; intros st winners Hvotes Hwin; [done|].
  simpl.
  destruct (mnodeman_GetNextMasternodeInQueueForPayment _ _) as [pmn|]; [|by apply IH].
  destruct (Sign _ _) as [newWinner|] eqn:Hsign; [|by apply IH].
  apply Sign_fields in Hsign as (Hvin & Hh & _). simpl in Hvin, Hh.
  destruct (AddWinningMasternode st newWinner) as [added st'] eqn:Hadd.
  destruct added; [|by apply IH].
  assert (st' = (AddWinningMasternode st newWinner).2) as -> by by rewrite Hadd.
  destruct (AddWinningMasternode_votes st newWinner) as [Heq|[Hfree Heq]].
  { (* an accepted vote always changes the table *)
    exfalso. revert Hadd Heq. unfold AddWinningMasternode.
    destruct (GetBlockHash _); [|done]. case_bool_decide as Hseen; [done|].
    intros _. simpl. intros Heq. apply Hseen.
    rewrite <- Heq, lookup_insert_eq. by eexists. }
  assert (mapMasternodePayeeVotes st0 !! GetHash newWinner = None) as Hfree0.
  { destruct (mapMasternodePayeeVotes st0 !! GetHash newWinner) as [x|] eqn:Hx; [|done].
    assert (mapMasternodePayeeVotes st !! GetHash newWinner = Some x) as Hst
      by (apply Hvotes; by left).
    congruence. }
  apply IH.
  - intros hash w. rewrite Heq.
    destruct (decide (GetHash newWinner = hash)) as [<-|Hne].
    + rewrite lookup_insert_eq. split.
      * intros [= <-]. right. split; [|done]. apply elem_of_app. right. left.
      * intros [Hold|[Hin Hhash]]; [congruence|].
        apply elem_of_app in Hin as [Hin|Hin%list_elem_of_singleton]; [|by subst].
        assert (mapMasternodePayeeVotes st !! GetHash newWinner = Some w) as Hst
          by (apply Hvotes; right; by rewrite Hhash).
        congruence.
    + rewrite lookup_insert_ne by done. rewrite Hvotes. split.
      * intros [?|[? ?]]; [by left|]. right. split; [|done]. apply elem_of_app. by left.
      * intros [?|[Hin Hhash]]; [by left|].
        apply elem_of_app in Hin as [Hin|Hin%list_elem_of_singleton]; [by right|].
        subst. done.
  - intros w [Hin|Hin%list_elem_of_singleton]%elem_of_app; [by apply Hwin|].
    subst. done.
Qed.

(** X8. [ProcessBlock] answers [false] only when it has left the store as it
    was and relayed nothing.  When it answers [true], [nLastBlockHeight] has
    moved up to the produced height, the relayed hashes are exactly the keys
    it added, every added vote is one of the active node for that height, no
    older vote is lost, and a second run for the same height does nothing. *)
Theorem ProcessBlock_result (st : t) (nBlockHeight : Z) :
  ((ProcessBlock st nBlockHeight).1.1 = false →
   (ProcessBlock st nBlockHeight).1.2 = st
   ∧ ∀ hash, Relay hash ∉ (ProcessBlock st nBlockHeight).2)
  ∧ ((ProcessBlock st nBlockHeight).1.1 = true →
     nLastBlockHeight st < nBlockHeight
     ∧ nLastBlockHeight (ProcessBlock st nBlockHeight).1.2 = nBlockHeight
     ∧ (∃ hash, Relay hash ∈ (ProcessBlock st nBlockHeight).2)
     ∧ (∀ hash,
          Relay hash ∈ (ProcessBlock st nBlockHeight).2
          ↔ mapMasternodePayeeVotes st !! hash = None
            ∧ is_Some (mapMasternodePayeeVotes (ProcessBlock st nBlockHeight).1.2 !! hash))
     ∧ (∀ hash w,
          mapMasternodePayeeVotes (ProcessBlock st nBlockHeight).1.2 !! hash = Some w →
          mapMasternodePayeeVotes st !! hash = Some w
          ∨ (CMasternodePaymentWinner.vinMasternode w = activeMasternode_vin
             ∧ CMasternodePaymentWinner.nBlockHeight w = nBlockHeight))
     ∧ mapMasternodePayeeVotes st
       ⊆ mapMasternodePayeeVotes (ProcessBlock st nBlockHeight).1.2
     ∧ ProcessBlock (ProcessBlock st nBlockHeight).1.2 nBlockHeight
       = (false, (ProcessBlock st nBlockHeight).1.2, [])).
Proof.
  remember (ProcessBlock st nBlockHeight) as r eqn:Hr.
  unfold ProcessBlock in Hr.
  destruct (negb fMasterNode) eqn:Hmn; [subst r; simpl; split; [set_solver|done]|].
  destruct (_ <=? _) eqn:Hlast; [subst r; simpl; split; [set_solver|done]|].
  apply Z.leb_gt in Hlast.
  destruct (_ =? -1); [subst r; simpl; split; [set_solver|done]|].
  destruct (_ <? _); [subst r; simpl; split; [set_solver|done]|].
  destruct SetKey as [pubKeyMasternode|]; [|subst r; simpl; split; [set_solver|done]].
  destruct (budget_IsBudgetPaymentBlock nBlockHeight).
  { rewrite bool_decide_eq_true_2 in Hr by done. subst r. simpl.
    split; [set_solver|done]. }
  pose proof (ProcessBlock_levels_heights pubKeyMasternode nBlockHeight st
                (levels_from LevelValue.MIN) st []) as Hsame.
  pose proof (ProcessBlock_levels_winners pubKeyMasternode nBlockHeight st
                (levels_from LevelValue.MIN) st []) as Hloop.
  destruct (foldl _ _ _) as [st' winners]. simpl in Hsame, Hloop.
  destruct Hsame as [_ Hnone]; [by left|done|].
  destruct Hloop as [Hvotes Hwin]; [set_solver|set_solver|].
  case_bool_decide as Hempty; subst r; simpl.
  { split; [|done]. intros _. split; [by apply Hnone|set_solver]. }
  split; [done|]. intros _.
  assert (∀ hash, Relay hash ∈ (λ w, Relay (GetHash w)) <$> winners
                  ↔ ∃ w, w ∈ winners ∧ hash = GetHash w) as Hrelay.
  { intros hash. rewrite list_elem_of_fmap. split.
    - intros (w & [= ->] & ?). eauto.
    - intros (w & ? & ->). eauto. }
  split; [lia|]. split; [done|]. split; [|split; [|split; [|split]]].
  - destruct winners as [|w ?]; [done|]. exists (GetHash w).
    apply Hrelay. exists w. split; [left|done].
  - intros hash. rewrite Hrelay. split.
    + intros (w & Hin & ->). split; [by apply Hwin|].
      exists w. apply Hvotes. by right.
    + intros [Hfree [w Hw]]. apply Hvotes in Hw as [?|[? ?]]; [congruence|eauto].
  - intros hash w Hw. apply Hvotes in Hw as [?|[Hin _]]; [by left|].
    right. by destruct (Hwin w Hin) as (_ & ? & ?).
  - apply map_subseteq_spec. intros hash w Hw. apply Hvotes. by left.
  - unfold ProcessBlock. rewrite Hmn. cbn [nLastBlockHeight].
    by rewrite Z.leb_refl.
Qed.

End GossipFurther.

(** ** The store: tallies and votes stay in step *)
Section StoreFurther.
Context `{Collaborators}.

Import CMasternodePayments.

(** X9. Replaying a message is harmless: processed a second time, on the
    store the first run left, it changes nothing and relays nothing. *)
Theorem mnw_replay (st : t) (pfrom_nVersion : Z) (strCommand : string)
    (winner : CMasternodePaymentWinner.t) :
  (ProcessMessageMasternodePayments
     (ProcessMessageMasternodePayments st pfrom_nVersion strCommand winner).1
     pfrom_nVersion strCommand winner).1
  = (ProcessMessageMasternodePayments st pfrom_nVersion strCommand winner).1
  ∧ ∀ hash,
      Relay hash
      ∉ (ProcessMessageMasternodePayments
           (ProcessMessageMasternodePayments st pfrom_nVersion strCommand winner).1
           pfrom_nVersion strCommand winner).2.
Proof.
  destruct (mnw_cases st pfrom_nVersion strCommand winner)
    as [[Hsame Hquiet]|(tip & _ & _ & _ & _ & _ & _ & Hvotes & _)].
  - rewrite Hsame. done.
  - destruct (mnw_cases
                (ProcessMessageMasternodePayments st pfrom_nVersion strCommand winner).1
                pfrom_nVersion strCommand winner)
      as [?|(tip' & _ & (_ & Hfree & _) & _)]; [done|].
    rewrite Hvotes, lookup_insert_eq in Hfree. done.
Qed.

Lemma AddWinningMasternode_consistent st winnerIn :
  heights_consistent st → heights_consistent (AddWinningMasternode st winnerIn).2.
Proof.
  unfold AddWinningMasternode.
  destruct (GetBlockHash _); [|done].
  case_bool_decide as Hseen; [done|]. apply eq_None_not_Some in Hseen.
  intros Hc k. cbn [snd mapMasternodeBlocks mapMasternodePayeeVotes].
  set (h := CMasternodePaymentWinner.nBlockHeight winnerIn).
  assert (∀ blocks0 : gmap Z CMasternodeBlockPayees.t,
            blocks0 = (if bool_decide (is_Some (mapMasternodeBlocks st !! h))
                       then mapMasternodeBlocks st
                       else <[h := CMasternodeBlockPayees.mk h []]> (mapMasternodeBlocks st)) →
            k ≠ h → blocks0 !! k = mapMasternodeBlocks st !! k) as Hother.
  { intros blocks0 -> Hne. case_bool_decide; [done|]. by rewrite lookup_insert_ne. }
  split.
  - intros Hk. destruct (decide (k = h)) as [->|Hne].
    + exists (GetHash winnerIn), winnerIn. by rewrite lookup_insert_eq.
    + rewrite lookup_insert_ne in Hk by done.
      rewrite (Hother _ eq_refl Hne) in Hk.
      apply Hc in Hk as (hash & w & Hw & Hh). exists hash, w. split; [|done].
      rewrite lookup_insert_ne; [done|]. intros <-. congruence.
  - intros (hash & w & Hw & Hh). destruct (decide (k = h)) as [->|Hne].
    + rewrite lookup_insert_eq. by eexists.
    + rewrite lookup_insert_ne by done. rewrite (Hother _ eq_refl Hne).
      apply Hc. exists hash, w. split; [|done].
      destruct (decide (GetHash winnerIn = hash)) as [<-|Hne'].
      * rewrite lookup_insert_eq in Hw. injection Hw as <-. done.
      * by rewrite lookup_insert_ne in Hw.
Qed.

Lemma mnw_consistent st pfrom_nVersion strCommand winner :
  heights_consistent st →
  heights_consistent (ProcessMessageMasternodePayments st pfrom_nVersion strCommand winner).1.
Proof.
  intros Hc.
  destruct (mnw_store_cases st pfrom_nVersion strCommand winner)
    as [->|(_ & _ & _ & _ & _ & ->)]; [done|].
  by apply AddWinningMasternode_consistent.
Qed.

Lemma ProcessBlock_levels_consistent pubKeyMasternode nBlockHeight (levels : list N) :
  ∀ st winners,
    heights_consistent st →
    heights_consistent
      (foldl (ProcessBlock_level pubKeyMasternode nBlockHeight) (st, winners) levels).1.
Proof.
  induction levels as [|mnlevel levels IH]; intros st winners Hc; [done|].
  simpl.
  destruct (mnodeman_GetNextMasternodeInQueueForPayment _ _) as [pmn|]; [|by apply IH].
  destruct (Sign _ _) as [newWinner|]; [|by apply IH].
  pose proof (AddWinningMasternode_consistent st newWinner Hc) as Hc'.
  destruct (AddWinningMasternode st newWinner) as [added st'].
  destruct added; by apply IH.
Qed.

Lemma ProcessBlock_consistent st nBlockHeight :
  heights_consistent st → heights_consistent (ProcessBlock st nBlockHeight).1.2.
Proof.
  intros Hc. unfold ProcessBlock.
  destruct (negb fMasterNode); [done|].
  destruct (_ <=? _); [done|].
  destruct (_ =? -1); [done|].
  destruct (_ <? _); [done|].
  destruct SetKey as [pubKeyMasternode|]; [|done].
  destruct (budget_IsBudgetPaymentBlock nBlockHeight).
  { by rewrite bool_decide_eq_true_2. }
  pose proof (ProcessBlock_levels_consistent pubKeyMasternode nBlockHeight
                (levels_from LevelValue.MIN) st [] Hc) as Hc'.
  destruct (foldl _ _ _) as [st' winners]. simpl in Hc'.
  case_bool_decide; [done|]. exact Hc'.
Qed.

Lemma CleanPaymentList_consistent st :
  heights_consistent st → heights_consistent (CleanPaymentList st).
Proof.
  unfold CleanPaymentList.
  destruct cs_main_locked; [|done].
  destruct chainActive_Tip as [tip|]; [|done].
  destruct (CleanPaymentList_loop (CBlockIndex.nHeight tip) st (mapMasternodePayeeVotes st))
    as (Hv & Hrm & Hkeep & _).
  intros Hc k.
  destruct (decide (nLimit < CBlockIndex.nHeight tip - k)) as [Haged|Hrecent].
  - assert (mapMasternodeBlocks
              (map_fold (CleanPaymentList_step (CBlockIndex.nHeight tip)) st
                 (mapMasternodePayeeVotes st)) !! k = None) as ->.
    { destruct (mapMasternodeBlocks st !! k) as [b|] eqn:Hb.
      - destruct (proj1 (Hc k)) as (hash & w & Hw & Hh); [by rewrite Hb|].
        apply Hrm. exists hash, w. split; [done|]. split; [|done].
        unfold aged_out. by rewrite Hh.
      - rewrite Hkeep, Hb; [done|]. intros hash w Hw _ Hh.
        assert (is_Some (mapMasternodeBlocks st !! k)) as [? ?] by (apply Hc; eauto).
        congruence. }
    split; [by intros [? ?]|].
    intros (hash & w & Hw & Hh). rewrite Hv in Hw.
    destruct (mapMasternodePayeeVotes st !! hash) as [w0|] eqn:Hw0; [|done].
    case_decide as Ha; [done|]. injection Hw as ->.
    unfold aged_out in Ha. rewrite Hh in Ha. done.
  - rewrite Hkeep.
    2:{ intros hash w _ Ha Hh. unfold aged_out in Ha. lia. }
    rewrite (Hc k). split; intros (hash & w & Hw & Hh); exists hash, w; (split; [|done]).
    + rewrite Hv, Hw. rewrite decide_False; [done|]. unfold aged_out. by rewrite Hh.
    + rewrite Hv in Hw. destruct (mapMasternodePayeeVotes st !! hash); [|done].
      by case_decide.
Qed.

(** The loop leaves alone a store that holds no aged vote among [m]. *)
Lemma CleanPaymentList_loop_recent nHeight st0 (m : gmap N CMasternodePaymentWinner.t) :
  (∀ hash w, m !! hash = Some w → ¬ aged_out nHeight w) →
  map_fold (CleanPaymentList_step nHeight) st0 m = st0.
Proof.
  apply (map_fold_weak_ind (λ r m,
    (∀ hash w, m !! hash = Some w → ¬ aged_out nHeight w) → r = st0)); [done|].
  intros i x m' r Hi IH Hrecent.
  rewrite IH.
  2:{ intros hash w Hw. apply (Hrecent hash w). rewrite lookup_insert_ne; [done|].
      intros ->. congruence. }
  unfold CleanPaymentList_step.
  destruct (nLimit <? _) eqn:E; [|done]. apply Z.ltb_lt in E.
  destruct (Hrecent i x); [apply lookup_insert_eq|done].
Qed.

(** X10. Pruning a second time changes nothing. *)
Theorem CleanPaymentList_idempotent (st : t) :
  CleanPaymentList (CleanPaymentList st) = CleanPaymentList st.
Proof.
  unfold CleanPaymentList.
  destruct cs_main_locked; [|done].
  destruct chainActive_Tip as [tip|]; [|done].
  apply CleanPaymentList_loop_recent.
  intros hash w Hw Ha.
  destruct (CleanPaymentList_loop (CBlockIndex.nHeight tip) st (mapMasternodePayeeVotes st))
    as (Hv & _).
  rewrite Hv in Hw.
  destruct (mapMasternodePayeeVotes st !! hash) as [w0|]; [|done].
  case_decide; [done|]. by injection Hw as ->.
Qed.

(** X11. With the chain lock taken and a tip known, pruning returns the
    store as it was exactly when no stored vote is older than the limit. *)
Theorem CleanPaymentList_unchanged (st : t) (tip : CBlockIndex.t) :
  cs_main_locked = true →
  chainActive_Tip = Some tip →
  CleanPaymentList st = st
  ↔ ∀ hash w, mapMasternodePayeeVotes st !! hash = Some w →
              CBlockIndex.nHeight tip - CMasternodePaymentWinner.nBlockHeight w ≤ nLimit.
Proof.
  intros Hlock Htip. unfold CleanPaymentList. rewrite Hlock, Htip. split.
  - intros Heq hash w Hw.
    destruct (CleanPaymentList_loop (CBlockIndex.nHeight tip) st
                (mapMasternodePayeeVotes st)) as (Hv & _).
    specialize (Hv hash). rewrite Heq, Hw in Hv.
    case_decide as Ha; [done|]. unfold aged_out in Ha. lia.
  - intros Hrecent. apply CleanPaymentList_loop_recent.
    intros hash w Hw Ha. specialize (Hrecent hash w Hw). unfold aged_out in Ha. lia.
Qed.

(** X12. [GetOldestBlock] is [INT_MAX] or a height that has a tally, and it
    is at most every height with a tally; [GetNewestBlock] is 0 or a height
    that has a tally, and it is at least every height with a tally. *)
Theorem GetOldestBlock_GetNewestBlock_bounds (st : t) :
  (GetOldestBlock st = numeric_limits_int_max
   ∨ is_Some (mapMasternodeBlocks st !! GetOldestBlock st))
  ∧ (GetNewestBlock st = 0 ∨ is_Some (mapMasternodeBlocks st !! GetNewestBlock st))
  ∧ (∀ h, is_Some (mapMasternodeBlocks st !! h) →
          GetOldestBlock st ≤ h ∧ h ≤ GetNewestBlock st)
  ∧ GetOldestBlock st ≤ numeric_limits_int_max
  ∧ 0 ≤ GetNewestBlock st.
Proof.
  split; [|split; [|split; [|split]]].
  - unfold GetOldestBlock.
    apply (map_fold_weak_ind (λ r m, r = numeric_limits_int_max ∨ is_Some (m !! r)));
      [by left|].
    intros i x m r Hi IH. destruct (i <? r) eqn:E.
    + right. rewrite lookup_insert_eq. by eexists.
    + destruct IH as [->|Hr]; [by left|right].
      apply lookup_insert_is_Some. destruct (decide (i = r)); [by left|by right].
  - unfold GetNewestBlock.
    apply (map_fold_weak_ind (λ r m, r = 0 ∨ is_Some (m !! r))); [by left|].
    intros i x m r Hi IH. destruct (r <? i) eqn:E.
    + right. rewrite lookup_insert_eq. by eexists.
    + destruct IH as [->|Hr]; [by left|right].
      apply lookup_insert_is_Some. destruct (decide (i = r)); [by left|by right].
  - intros h Hh. split; [by apply GetOldestBlock_le|by apply GetNewestBlock_ge].
  - unfold GetOldestBlock.
    apply (map_fold_weak_ind (λ r (m : gmap Z CMasternodeBlockPayees.t),
             r ≤ numeric_limits_int_max)); [done|].
    intros i x m r _ IH. destruct (i <? r) eqn:E; [|done]. apply Z.ltb_lt in E. lia.
  - unfold GetNewestBlock.
    apply (map_fold_weak_ind (λ r (m : gmap Z CMasternodeBlockPayees.t), 0 ≤ r)); [done|].
    intros i x m r _ IH. destruct (r <? i) eqn:E; [|done]. apply Z.ltb_lt in E. lia.
Qed.

End StoreFurther.

(** X13. In every state reached from the empty store by messages, runs of
    the producer and prunings, a height has a tally exactly when some stored
    vote is for that height. *)
Theorem reachable_pruned_heights_consistent (st : CMasternodePayments.t) :
  reachable_pruned st → heights_consistent st.
Proof.
  induction 1 as [|C st v c w _ IH|C st h _ IH|C st _ IH].
  - intros k. cbn. rewrite lookup_empty. split; [by intros [? ?]|].
    intros (hash & w & Hw & _). by rewrite lookup_empty in Hw.
  - by apply mnw_consistent.
  - by apply ProcessBlock_consistent.
  - by apply CleanPaymentList_consistent.
Qed.

(** ** The schedule look-ahead and the sync push *)
Section ScheduleFurther.
Context `{Collaborators}.

Import CMasternodePayments.

Lemma elem_of_scheduled_heights nHeight h :
  h ∈ scheduled_heights nHeight ↔ nHeight ≤ h ≤ nHeight + 8.
Proof.
  unfold scheduled_heights. rewrite list_elem_of_fmap. split.
  - intros (i & -> & Hi%elem_of_seq). lia.
  - intros Hh. exists (Z.to_nat (h - nHeight)). split; [lia|].
    apply elem_of_seq. lia.
Qed.

(** X14. [IsScheduled] answers [true] exactly when the chain lock is taken,
    a tip is known, and at one of the nine heights from the tip to the tip
    plus 8, other than [nNotBlockHeight], the tally's payee for the node's
    tier is the node's collateral script. *)
Theorem IsScheduled_true (st : t) (mn : CMasternode.t) (nNotBlockHeight : Z) :
  IsScheduled st mn nNotBlockHeight = true
  ↔ cs_main_locked = true
    ∧ ∃ tip h b,
        chainActive_Tip = Some tip
        ∧ CBlockIndex.nHeight tip ≤ h ≤ CBlockIndex.nHeight tip + 8
        ∧ h ≠ nNotBlockHeight
        ∧ mapMasternodeBlocks st !! h = Some b
        ∧ CMasternodeBlockPayees.GetPayee (CMasternode.Level mn) b
          = Some (GetScriptForRawPubKey (CMasternode.pubKeyCollateralAddress mn)).
Proof.
  unfold IsScheduled.
  destruct cs_main_locked; [|naive_solver].
  destruct chainActive_Tip as [tip|]; [|naive_solver].
  rewrite existsb_exists. split.
  - intros (h & Hin & Hh). split; [done|]. exists tip, h.
    apply list_elem_of_In, elem_of_scheduled_heights in Hin.
    destruct (h =? nNotBlockHeight) eqn:Hnot; [done|]. apply Z.eqb_neq in Hnot.
    destruct (mapMasternodeBlocks st !! h) as [b|]; [|done]. exists b.
    destruct (CMasternodeBlockPayees.GetPayee _ b) as [payee|]; [|done].
    apply bool_decide_eq_true in Hh as ->. done.
  - intros (_ & tip' & h & b & [= <-] & Hwin & Hnot & Hb & Hpayee).
    exists h. split; [by apply list_elem_of_In, elem_of_scheduled_heights|].
    rewrite (proj2 (Z.eqb_neq _ _) Hnot), Hb, Hpayee.
    by apply bool_decide_eq_true.
Qed.

End ScheduleFurther.

Section SyncFurther.
Context `{Collaborators} `{BudgetCollaborators}.

Import CMasternodePayments.

Lemma Sync_push_true nHeight nCountNeeded winner :
  Sync_push nHeight nCountNeeded winner = true ↔ Sync_window nHeight nCountNeeded winner.
Proof.
  unfold Sync_push, Sync_window, Sync_counts. rewrite lookup_fmap.
  destruct (mnodeman_CountEnabledByLevels !! _); simpl;
    by rewrite andb_true_iff, !Z.leb_le.
Qed.

(** X15. With the chain lock taken and a tip known, [Sync] pushes one
    inventory entry for each stored vote inside the window (not older than
    the tip less the capped count of its tier, the cap being the smaller of
    [nCountNeeded] and 1.25 times the enabled count truncated, 0 for a tier
    the registry does not list; not more than 20 past the tip), nothing for
    any other vote, and ends with one ["ssc"] carrying the number pushed. *)
Theorem Sync_pushes (st : t) (nCountNeeded : Z) (tip : CBlockIndex.t) :
  cs_main_locked = true →
  chainActive_Tip = Some tip →
  ∃ hashes,
    Sync st nCountNeeded
    = (PushInventory <$> hashes) ++ [PushMessage_ssc (Z.of_nat (length hashes))]
    ∧ (∀ hash,
         hash ∈ hashes
         ↔ ∃ key w, mapMasternodePayeeVotes st !! key = Some w
                    ∧ Sync_window (CBlockIndex.nHeight tip) nCountNeeded w
                    ∧ GetHash w = hash)
    ∧ length hashes
      = size (filter (λ vote, Sync_window (CBlockIndex.nHeight tip) nCountNeeded vote.2)
                (mapMasternodePayeeVotes st)).
Proof.
  intros Hlock Htip. unfold Sync. rewrite Hlock, Htip. cbv zeta.
  set (pushed := filter _ (votes_in_order st)).
  exists ((λ vote, GetHash vote.2) <$> pushed).
  assert (pushed ≡ₚ filter (λ vote, Sync_window (CBlockIndex.nHeight tip) nCountNeeded vote.2)
                      (map_to_list (mapMasternodePayeeVotes st))) as Hperm.
  { unfold pushed, votes_in_order. rewrite merge_sort_Permutation.
    erewrite list_filter_iff; [done|]. intros vote. apply Sync_push_true. }
  split; [|split].
  - rewrite length_fmap, <- list_fmap_compose. done.
  - intros hash. rewrite list_elem_of_fmap. split.
    + intros ([key w] & -> & Hin). rewrite Hperm in Hin.
      apply list_elem_of_filter in Hin as [Hwin Hin%elem_of_map_to_list].
      by exists key, w.
    + intros (key & w & Hw & Hwin & <-). exists (key, w). split; [done|].
      rewrite Hperm. apply list_elem_of_filter. split; [done|].
      by apply elem_of_map_to_list.
  - rewrite length_fmap, Hperm, map_filter_alt, map_size_list_to_map; [done|].
    eapply sublist_NoDup; [apply (NoDup_fst_map_to_list (mapMasternodePayeeVotes st))|].
    apply fmap_sublist, sublist_filter.
Qed.

Lemma string_app_assoc (s1 s2 s3 : string) : (s1 +:+ s2) +:+ s3 = s1 +:+ s2 +:+ s3.
Proof.
  induction s1 as [|a s1 IH]; [done|].
  change (String a ((s1 +:+ s2) +:+ s3) = String a (s1 +:+ s2 +:+ s3)).
  by rewrite IH.
Qed.

Lemma has_colon_app s1 s2 : has_colon (s1 +:+ s2) = has_colon s1 || has_colon s2.
Proof.
  induction s1 as [|a s1 IH]; [done|].
  change (bool_decide (String a EmptyString = ":") || has_colon (s1 +:+ s2)
          = (bool_decide (String a EmptyString = ":") || has_colon s1) || has_colon s2).
  by rewrite <- orb_assoc, <- IH.
Qed.

Lemma has_colon_payee_str payee : has_colon (payee_str payee) = true.
Proof.
  unfold payee_str. rewrite !has_colon_app. simpl.
  by rewrite orb_true_r.
Qed.

Lemma GetRequiredPaymentsString_loop (rest : list CMasternodePayee.t) :
  ∀ pre first,
    foldl (λ ret payee,
             if bool_decide (ret ≠ "Unknown") then ret +:+ ", " +:+ payee_str payee
             else payee_str payee)
          (pre +:+ payee_str first) rest
    = pre +:+ join_payee_str first rest.
Proof.
  induction rest as [|next rest IH]; intros pre first; [done|].
  cbn [foldl join_payee_str].
  rewrite bool_decide_eq_true_2.
  2:{ intros Heq. apply (f_equal has_colon) in Heq.
      rewrite has_colon_app, has_colon_payee_str, orb_true_r in Heq. done. }
  rewrite <- !string_app_assoc. rewrite (string_app_assoc pre).
  rewrite IH. by rewrite !string_app_assoc.
Qed.

(** X16. The payments string is ["Unknown"] exactly when the height has no
    tally or an empty one; otherwise it is the entries
    [address:tier:votes] of the tally in order, joined by [", "]. *)
Theorem GetRequiredPaymentsString_spec (st : t) (nBlockHeight : Z) :
  (GetRequiredPaymentsString st nBlockHeight = "Unknown"
   ↔ ∀ b, mapMasternodeBlocks st !! nBlockHeight = Some b →
          CMasternodeBlockPayees.vecPayments b = [])
  ∧ ∀ b first rest,
      mapMasternodeBlocks st !! nBlockHeight = Some b →
      CMasternodeBlockPayees.vecPayments b = first :: rest →
      GetRequiredPaymentsString st nBlockHeight = join_payee_str first rest.
Proof.
  unfold GetRequiredPaymentsString, BlockPayees_GetRequiredPaymentsString.
  assert (∀ first rest,
            foldl (λ ret payee,
                     if bool_decide (ret ≠ "Unknown") then ret +:+ ", " +:+ payee_str payee
                     else payee_str payee) "Unknown" (first :: rest)
            = join_payee_str first rest) as Hjoin.
  { intros first rest. cbn [foldl]. rewrite bool_decide_eq_false_2 by (by intros ?).
    apply (GetRequiredPaymentsString_loop rest ""). }
  assert (∀ first rest, has_colon (join_payee_str first rest) = true) as Hcolon.
  { intros first rest. destruct rest; cbn [join_payee_str];
      [|rewrite has_colon_app]; by rewrite has_colon_payee_str. }
  destruct (mapMasternodeBlocks st !! nBlockHeight) as [b|]; [|split; [done|by intros]].
  destruct (CMasternodeBlockPayees.vecPayments b) as [|first rest] eqn:Hvec.
  - split; [|by intros ? ? ? [= <-]; rewrite Hvec].
    split; [by intros _ ? [= <-]|done].
  - split.
    + rewrite Hjoin. split.
      * intros Heq. apply (f_equal has_colon) in Heq. by rewrite Hcolon in Heq.
      * intros Hnone. specialize (Hnone b eq_refl). congruence.
    + intros b' first' rest' [= <-]. rewrite Hvec. intros [= <- <-]. apply Hjoin.
Qed.

End SyncFurther.

(** ** The builder: the exact outputs *)
Section BuilderFurther.
Context `{Collaborators}.

(** Proof of work: after the first payment the outputs are [vout[0]] with
    the block value less the payments, followed by the payments. *)
Lemma pay_work_outputs (v0 : list CTxOut.t) nBlockValue s paid payee p :
  ((s.1.2 = 1%N ∧ s.1.1 = v0 ∧ paid = [])
   ∨ (s.1.2 = (N.of_nat (length paid) + 1)%N
      ∧ paid ≠ []
      ∧ s.1.1 = CTxOut.mk (nBlockValue - sum_nValue paid)
                  (CTxOut.scriptPubKey (default CTxOut.null (v0 !! 0%nat))) :: paid)) →
  ∃ s', pay_work nBlockValue payee p s = Some s'
        ∧ ((s'.1.2 = 1%N ∧ s'.1.1 = v0 ∧ paid ++ [CTxOut.mk p payee] = [])
           ∨ (s'.1.2 = (N.of_nat (length (paid ++ [CTxOut.mk p payee])) + 1)%N
              ∧ paid ++ [CTxOut.mk p payee] ≠ []
              ∧ s'.1.1 = CTxOut.mk (nBlockValue - sum_nValue (paid ++ [CTxOut.mk p payee]))
                           (CTxOut.scriptPubKey (default CTxOut.null (v0 !! 0%nat)))
                         :: paid ++ [CTxOut.mk p payee])).
Proof.
  destruct s as [[vout level] outputs]. cbn [fst snd].
  intros [(-> & -> & ->)|(-> & Hne & ->)].
  - eexists. split; [reflexivity|]. right. cbn [fst snd].
    split; [done|]. split; [done|].
    destruct v0 as [|a [|b rest]]; simpl; rewrite ?resize_0; do 2 f_equal; lia.
  - unfold pay_work.
    destruct (_ =? 1)%N eqn:E.
    { apply N.eqb_eq in E. destruct paid; [done|]. simpl in E. lia. }
    eexists. split; [reflexivity|]. right. cbn [fst snd].
    split; [rewrite length_app; simpl; lia|].
    split; [by intros [_ [=]]%app_eq_nil|].
    replace (N.to_nat (N.of_nat (length paid) + 1)) with (S (length paid)) by lia.
    simpl. rewrite resize_ge by lia.
    replace (S (length paid) - length paid)%nat with 1%nat by lia.
    rewrite insert_app_r_alt by lia. rewrite Nat.sub_diag. simpl.
    rewrite sum_nValue_app. simpl. do 2 f_equal. lia.
Qed.

(** Proof of stake behind a zerocoin mint: the payment is appended and
    nothing is charged. *)
Lemma pay_stake_mint (v0 : list CTxOut.t) out1 s paid payee p :
  v0 !! 1%nat = Some out1 →
  IsZerocoinMint (CTxOut.scriptPubKey out1) = true →
  s.1.1 = v0 ++ paid →
  ∃ s', pay_stake payee p s = Some s'
        ∧ s'.1.1 = v0 ++ paid ++ [CTxOut.mk p payee].
Proof.
  destruct s as [[vout level] outputs]. cbn [fst snd].
  intros Hout Hmint ->. unfold pay_stake.
  assert (((v0 ++ paid) ++ [CTxOut.mk p payee]) !! 1%nat = Some out1) as ->.
  { rewrite <- app_assoc. by apply lookup_app_l_Some. }
  rewrite Hmint. simpl. eexists. split; [reflexivity|]. simpl.
  by rewrite <- app_assoc.
Qed.

(** X17. Proof of work with a tip: when no tier finds a payee the
    transaction is returned as it came; otherwise its outputs are replaced
    by [vout[0]] (its script kept, its value the block value less all
    payments) followed by one output per paid tier in tier order, and any
    further output the transaction had is dropped. *)
Theorem FillBlockPayee_work_outputs (st : CMasternodePayments.t) (txNew : CTransaction.t)
    (nFees : Z) (fZSPLStake : bool) (nBlockValue : Z) (pindexPrev : CBlockIndex.t) :
  chainActive_Tip = Some pindexPrev →
  FillBlockPayee st txNew nFees false fZSPLStake nBlockValue
  = Some (CTransaction.mk (CTransaction.vin txNew)
            (match payments st (CBlockIndex.nHeight pindexPrev + 1) false fZSPLStake
                     nBlockValue paid_levels with
             | [] => CTransaction.vout txNew
             | pays =>
                 CTxOut.mk (nBlockValue - sum_nValue pays)
                   (CTxOut.scriptPubKey
                      (default CTxOut.null (CTransaction.vout txNew !! 0%nat)))
                 :: pays
             end)).
Proof.
  intros Htip. unfold FillBlockPayee. rewrite Htip. cbv zeta. fold paid_levels.
  destruct (FillBlockPayee_fold
              (λ s paid,
                 (s.1.2 = 1%N ∧ s.1.1 = CTransaction.vout txNew ∧ paid = [])
                 ∨ (s.1.2 = (N.of_nat (length paid) + 1)%N
                    ∧ paid ≠ []
                    ∧ s.1.1 = CTxOut.mk (nBlockValue - sum_nValue paid)
                                (CTxOut.scriptPubKey
                                   (default CTxOut.null (CTransaction.vout txNew !! 0%nat)))
                              :: paid))
              st (CBlockIndex.nHeight pindexPrev + 1) false fZSPLStake nBlockValue)
    with (levels := paid_levels) (s := (CTransaction.vout txNew, 1%N, 1%N))
         (paid := @nil CTxOut.t)
    as ([[vout' level'] outputs'] & Hfold & Hinv).
  { intros s paid payee p. apply pay_work_outputs. }
  { by left. }
  cbn [fst snd app] in Hinv.
  etrans; [exact (f_equal (fmap _) Hfold)|]. simpl. do 2 f_equal.
  destruct Hinv as [(_ & -> & ->)|(_ & Hne & ->)]; [done|].
  by destruct (payments _ _ _ _ _ _).
Qed.

(** X18. Proof of stake with a tip and a stake output [vout[1]] that is a
    zerocoin mint: the payments are appended and no output is charged, so
    the outputs total what they did plus the payments. *)
Theorem FillBlockPayee_stake_mint (st : CMasternodePayments.t) (txNew : CTransaction.t)
    (nFees : Z) (fZSPLStake : bool) (nBlockValue : Z) (pindexPrev : CBlockIndex.t)
    (out1 : CTxOut.t) :
  chainActive_Tip = Some pindexPrev →
  CTransaction.vout txNew !! 1%nat = Some out1 →
  IsZerocoinMint (CTxOut.scriptPubKey out1) = true →
  FillBlockPayee st txNew nFees true fZSPLStake nBlockValue
  = Some (CTransaction.mk (CTransaction.vin txNew)
            (CTransaction.vout txNew
             ++ payments st (CBlockIndex.nHeight pindexPrev + 1) true fZSPLStake
                  nBlockValue paid_levels)).
Proof.
  intros Htip Hout Hmint. unfold FillBlockPayee. rewrite Htip. cbv zeta.
  fold paid_levels.
  destruct (FillBlockPayee_fold
              (λ s paid, s.1.1 = CTransaction.vout txNew ++ paid)
              st (CBlockIndex.nHeight pindexPrev + 1) true fZSPLStake nBlockValue)
    with (levels := paid_levels) (s := (CTransaction.vout txNew, 1%N, 1%N))
         (paid := @nil CTxOut.t)
    as ([[vout' level'] outputs'] & Hfold & Hinv).
  { intros s paid payee p. by apply pay_stake_mint with out1. }
  { cbn. by rewrite app_nil_r. }
  cbn [fst snd app] in Hinv. subst vout'.
  exact (f_equal (fmap _) Hfold).
Qed.

End BuilderFurther.

(** ** The block value rule is monotone *)
Section BlockValueFurther.
Context `{Collaborators}.

Lemma value_rules_monotone nHeight nExpectedValue nMinted nExpectedValue' nMinted' :
  nMinted' ≤ nMinted →
  nExpectedValue ≤ nExpectedValue' →
  value_rules nHeight nExpectedValue nMinted = true →
  value_rules nHeight nExpectedValue' nMinted' = true.
Proof.
  intros Hm He. unfold value_rules.
  destruct (negb masternodeSync_IsSynced).
  - destruct (_ <? 100); [done|].
    destruct (nExpectedValue <? nMinted) eqn:E; [done|]. apply Z.ltb_ge in E.
    intros _. rewrite (proj2 (Z.ltb_ge _ _)); [done|lia].
  - destruct (negb (IsSporkActive _)).
    + intros E%Z.leb_le. apply Z.leb_le. lia.
    + destruct (budget_IsBudgetPaymentBlock nHeight); [done|].
      destruct (nExpectedValue <? nMinted) eqn:E; [done|]. apply Z.ltb_ge in E.
      intros _. rewrite (proj2 (Z.ltb_ge _ _)); [done|lia].
Qed.

(** X19. A block that [IsBlockValueValid] accepts is still accepted when it
    mints less or when more is expected; the treasury part does not look at
    either amount. *)
Theorem IsBlockValueValid_monotone (block : CBlock.t)
    (nExpectedValue nMinted nExpectedValue' nMinted' : Z) :
  nMinted' ≤ nMinted →
  nExpectedValue ≤ nExpectedValue' →
  IsBlockValueValid block nExpectedValue nMinted = Some true →
  IsBlockValueValid block nExpectedValue' nMinted' = Some true.
Proof.
  intros Hm He. unfold IsBlockValueValid, IsBlockValueValid_traced.
  destruct chainActive_Tip as [pindexPrev|]; [|done]. cbv zeta.
  pose proof (value_rules_monotone (resolve_height pindexPrev block) nExpectedValue nMinted
                nExpectedValue' nMinted' Hm He) as Hrules.
  destruct (IsTreasuryBlock _).
  - destruct (CBlock.vtx block !! _); [|done].
    destruct (negb _); [destruct (_ <? CBlock.nTime block); [done|]|];
      simpl; intros [= Hv]; by rewrite Hrules.
  - simpl. intros [= Hv]. by rewrite Hrules.
Qed.

End BlockValueFurther.

(** ** The further properties on the example node *)

(** The coinbase paying ["A"] its 2 passes the tally of six votes, and so
    does one that pays 3 and carries a further output. *)
Lemma IsTransactionValid_more_outputs_raised :
  @CMasternodeBlockPayees.IsTransactionValid node_1000 tally_A6 (coinbase_A 2) 10 false = true
  ∧ @CMasternodeBlockPayees.IsTransactionValid node_1000 tally_A6
      (CTransaction.mk [] [CTxOut.mk 3 "A"; CTxOut.mk 1 "x"; CTxOut.mk 8 "miner"]) 10 false
    = true.
Proof.
  split; [reflexivity|].
  apply (@IsTransactionValid_more_outputs node_1000 tally_A6 (coinbase_A 2)); [reflexivity| |reflexivity].
  intros out Hin. apply elem_of_cons in Hin as [->|Hin].
  - exists (CTxOut.mk 8 "miner"). split; [set_solver|]. simpl. split; [done|lia].
  - apply list_elem_of_singleton in Hin as ->.
    exists (CTxOut.mk 3 "A"). split; [set_solver|]. simpl. split; [done|lia].
Defined.

(** With six votes for ["A"] at 1001 and payment enforcement on, a block
    whose coinbase pays the miner alone is rejected. *)
Lemma IsBlockPayeeValid_rejects_unpaid :
  CBlock.vtx (block_on_tip [CTxOut.mk 10 "miner"]) !! 0%nat
  = Some (CTransaction.mk [] [CTxOut.mk 10 "miner"])
  ∧ @IsBlockPayeeValid node_1000 (example_budget InValid) store_six_votes
      (block_on_tip [CTxOut.mk 10 "miner"]) 1001 = Some false.
Proof.
  split; [reflexivity|].
  apply (@IsBlockPayeeValid_rejects node_1000 (example_budget InValid) store_six_votes
           (block_on_tip [CTxOut.mk 10 "miner"]) 1001
           (CTransaction.mk [] [CTxOut.mk 10 "miner"]) eq_refl).
  split; [reflexivity|]. right.
  split; [intros (_ & Hbudget & _); discriminate Hbudget|].
  split; [reflexivity|]. split; [vm_compute; reflexivity|reflexivity].
Defined.

(** With five votes the same block is accepted. *)
Lemma IsBlockPayeeValid_below_quorum_five_votes :
  @budget_verdict node_1000 (example_budget InValid)
    (CTransaction.mk [] [CTxOut.mk 10 "miner"]) 1001 = None
  ∧ @IsBlockPayeeValid node_1000 (example_budget InValid) store_five_votes
      (block_on_tip [CTxOut.mk 10 "miner"]) 1001 = Some true.
Proof.
  split; [reflexivity|].
  apply (@IsBlockPayeeValid_below_quorum node_1000 (example_budget InValid) store_five_votes
           (block_on_tip [CTxOut.mk 10 "miner"]) 1001
           (CTransaction.mk [] [CTxOut.mk 10 "miner"]) eq_refl eq_refl).
  intros b payee Hb Hin. vm_compute in Hb. injection Hb as <-.
  apply list_elem_of_singleton in Hin as ->. vm_compute. reflexivity.
Defined.

(** The node's own vote, signed by its operator key, verifies. *)
Lemma Sign_SignatureValid_own_vote :
  @Sign node_1000 "operator" own_vote_A = Some own_vote_A
  ∧ @SignatureValid node_1000 own_vote_A = true.
Proof.
  split; [reflexivity|].
  destruct (@Sign_SignatureValid node_1000 "operator" own_vote_A own_vote_A
              (CMasternode.mk (CMasternodePaymentWinner.vinMasternode own_vote_A)
                 "collateral" "operator" 70920 1)
              eq_refl eq_refl eq_refl) as [Hvalid _].
  exact Hvalid.
Defined.

(** The first vote into the empty store is stored, so it went through the
    gates: the window of tip 1000 and a block hash at height 910. *)
Lemma mnw_stored_vote_checked_own_vote :
  size (CMasternodePayments.mapMasternodePayeeVotes
          (@ProcessMessageMasternodePayments node_1000 CMasternodePayments.empty 70920
             "mnw" own_vote_A).1) = 1%nat
  ∧ ∃ tip,
      @mnw_processed node_1000 70920 "mnw" tip
      ∧ @mnw_in_window node_1000 CMasternodePayments.empty tip own_vote_A
      ∧ (@IsValid node_1000 (@resolve_winner node_1000 own_vote_A).1).1.1 = true
      ∧ @CMasternodePayments.CanVote CMasternodePayments.empty
          (CTxIn.prevout
             (CMasternodePaymentWinner.vinMasternode (@resolve_winner node_1000 own_vote_A).1))
          (CMasternodePaymentWinner.nBlockHeight (@resolve_winner node_1000 own_vote_A).1)
          (CMasternodePaymentWinner.payeeLevel (@resolve_winner node_1000 own_vote_A).1)
        = true
      ∧ @SignatureValid node_1000 (@resolve_winner node_1000 own_vote_A).1 = true
      ∧ is_Some (@GetBlockHash node_1000
                   (CMasternodePaymentWinner.nBlockHeight
                      (@resolve_winner node_1000 own_vote_A).1 - 100)).
Proof.
  split; [vm_compute; reflexivity|].
  apply (@mnw_stored_vote_checked node_1000 CMasternodePayments.empty 70920 "mnw" own_vote_A).
  intros Heq.
  apply (f_equal (λ st, size (CMasternodePayments.mapMasternodePayeeVotes st))) in Heq.
  vm_compute in Heq. discriminate Heq.
Defined.

(** At tip 1000 the two votes for height 1010 are recent: pruning returns
    the store as it was. *)
Lemma CleanPaymentList_unchanged_recent :
  @cs_main_locked node_1000 = true
  ∧ @chainActive_Tip node_1000 = Some (CBlockIndex.mk 1000 7%N)
  ∧ @CMasternodePayments.CleanPaymentList node_1000 store_two_votes = store_two_votes.
Proof.
  split; [reflexivity|]. split; [reflexivity|].
  apply (@CleanPaymentList_unchanged node_1000 store_two_votes (CBlockIndex.mk 1000 7%N)
           eq_refl eq_refl).
  refine (bool_decide_unpack
            (map_Forall (λ _ w, 1000 - CMasternodePaymentWinner.nBlockHeight w
                                ≤ @CMasternodePayments.nLimit node_1000)
               (CMasternodePayments.mapMasternodePayeeVotes store_two_votes)) _).
  vm_compute. exact I.
Defined.

(** The store after a message, a run of the producer and a pruning at tip
    5000, which removes both votes and their tally. *)
Lemma reachable_pruned_heights_consistent_pruned :
  reachable_pruned (@CMasternodePayments.CleanPaymentList node_5000 store_two_votes)
  ∧ heights_consistent (@CMasternodePayments.CleanPaymentList node_5000 store_two_votes).
Proof.
  assert (reachable_pruned
            (@CMasternodePayments.CleanPaymentList node_5000 store_two_votes)) as Hreach.
  { apply (reachable_pruned_clean node_5000).
    apply (reachable_pruned_produce node_1000_B).
    apply (reachable_pruned_message node_1000_B).
    apply reachable_pruned_empty. }
  split; [exact Hreach|].
  apply (reachable_pruned_heights_consistent _ Hreach).
Defined.

(** Both votes for height 1010 are inside the window of tip 1000: two
    inventory entries and an ["ssc"] with count 2. *)
Lemma Sync_pushes_two_votes :
  @cs_main_locked node_1000 = true
  ∧ @chainActive_Tip node_1000 = Some (CBlockIndex.mk 1000 7%N)
  ∧ ∃ hashes,
      length hashes = 2%nat
      ∧ @Sync node_1000 (example_budget Valid) store_two_votes 100
        = (PushInventory <$> hashes) ++ [PushMessage_ssc 2].
Proof.
  split; [reflexivity|]. split; [reflexivity|].
  destruct (@Sync_pushes node_1000 (example_budget Valid) store_two_votes 100
              (CBlockIndex.mk 1000 7%N) eq_refl eq_refl) as (hashes & Hsync & _ & Hlen).
  exists hashes.
  assert (length hashes = 2%nat) as Htwo.
  { rewrite Hlen. vm_compute. reflexivity. }
  split; [exact Htwo|]. rewrite Hsync, Htwo. reflexivity.
Defined.

(** Proof of work for a block value of 1000: the coinbase's outputs ["x"]
    and ["y"] are gone, the miner keeps 400 and the three tiers get 100, 200
    and 300. *)
Lemma FillBlockPayee_work_outputs_three_tiers :
  @chainActive_Tip node_1000_B = Some (CBlockIndex.mk 1000 7%N)
  ∧ @FillBlockPayee node_1000_B store_six_votes coinbase_three 7 false false 1000
    = Some (CTransaction.mk []
              [CTxOut.mk 400 "miner"; CTxOut.mk 100 "B"; CTxOut.mk 200 "B";
               CTxOut.mk 300 "A"]).
Proof.
  split; [reflexivity|].
  etrans; [apply (@FillBlockPayee_work_outputs node_1000_B store_six_votes coinbase_three 7
                    false 1000 (CBlockIndex.mk 1000 7%N) eq_refl)|].
  vm_compute. reflexivity.
Defined.

(** A coinstake whose stake output is a zerocoin mint: the three payments
    are appended and the stake output keeps its 100. *)
Lemma FillBlockPayee_stake_mint_three_tiers :
  @chainActive_Tip node_1000_B = Some (CBlockIndex.mk 1000 7%N)
  ∧ CTransaction.vout coinstake_mint !! 1%nat = Some (CTxOut.mk 100 "zerocoinmint")
  ∧ @IsZerocoinMint node_1000_B "zerocoinmint" = true
  ∧ @FillBlockPayee node_1000_B store_six_votes coinstake_mint 7 true false 1000
    = Some (CTransaction.mk [CTxIn.mk (COutPoint.mk 70 0) "" 0]
              [CTxOut.mk 0 ""; CTxOut.mk 100 "zerocoinmint"; CTxOut.mk 100 "B";
               CTxOut.mk 200 "B"; CTxOut.mk 300 "A"]).
Proof.
  split; [reflexivity|]. split; [reflexivity|]. split; [reflexivity|].
  etrans; [apply (@FillBlockPayee_stake_mint node_1000_B store_six_votes coinstake_mint 7
                    false 1000 (CBlockIndex.mk 1000 7%N) (CTxOut.mk 100 "zerocoinmint")
                    eq_refl eq_refl eq_refl)|].
  vm_compute. reflexivity.
Defined.

(** A block minting 10 against 10 expected is accepted, hence also one
    minting 5 against 12. *)
Lemma IsBlockValueValid_monotone_less_minted :
  @IsBlockValueValid (node_1000_plain true) (block_on_tip [CTxOut.mk 10 "miner"]) 10 10
  = Some true
  ∧ @IsBlockValueValid (node_1000_plain true) (block_on_tip [CTxOut.mk 10 "miner"]) 12 5
    = Some true.
Proof.
  split; [reflexivity|].
  apply (@IsBlockValueValid_monotone (node_1000_plain true)
           (block_on_tip [CTxOut.mk 10 "miner"]) 10 10 12 5); [lia|lia|reflexivity].
Defined.
